(** * The Voltran access-request endpoints, embedded and verified

    The repository holds five Google Apps Script web apps that share one
    shape: parse a JSON body, look a PIN up in a spreadsheet, append a row
    to an access log, answer with a JSON body.

      - [PinList]        gsheet_gappscriptcode_pin_list.js
      - [AccessRequests] gsheet_gappscriptcode_access_requests.js, the
                         script with the sheet finder (lines 1-1467)
      - [UrlLoggerPst]   the second script of the same file (lines 1468-1627)
      - [UrlLogger]      unnamed/part_000
      - [PinCheck]       unnamed/part_001

    The spreadsheet service, the clock, the JSON parser and the locale
    dependent string and date functions belong to the platform.  The
    spreadsheet service is modelled as a store of cell grids; the other
    platform functions are the fields of the class [Host], so that every
    general theorem holds for any platform, and the instance [Utc] makes
    the scripts executable on concrete requests. *)

From Stdlib Require Import ZArith String Ascii List Bool Lia.
From stdpp Require Import base option list strings gmap pretty.
From Equations Require Import Equations.

Local Open Scope string_scope.
Local Open Scope list_scope.

(** ** JavaScript strings and values *)

(** A JavaScript string is a [string], one character per code unit; the
    characters are the code units below 256. *)
Module JS.

(** What [String.prototype.trim] removes: WhiteSpace and LineTerminator,
    that is TAB, LF, VT, FF, CR, SP and NBSP among the code units below 256. *)
Definition isWhiteSpace (c : ascii) : bool :=
  let n := nat_of_ascii c in
  ((9 <=? n)%nat && (n <=? 13)%nat) || (n =? 32)%nat || (n =? 160)%nat.

Fixpoint trimStart (s : string) : string :=
  match s with
  | EmptyString => EmptyString
  | String c s' => if isWhiteSpace c then trimStart s' else s
  end.

Fixpoint trimEnd (s : string) : string :=
  match s with
  | EmptyString => EmptyString
  | String c s' =>
      match trimEnd s' with
      | EmptyString => if isWhiteSpace c then EmptyString else String c EmptyString
      | t => String c t
      end
  end.

Definition trim (s : string) : string := trimEnd (trimStart s).

(** [s.includes(sub)] *)
Fixpoint includes (s sub : string) : bool :=
  String.prefix sub s ||
  match s with
  | EmptyString => false
  | String _ s' => includes s' sub
  end.

Definition isDigit (c : ascii) : bool :=
  let n := nat_of_ascii c in (48 <=? n)%nat && (n <=? 57)%nat.
Definition isUpper (c : ascii) : bool :=
  let n := nat_of_ascii c in (65 <=? n)%nat && (n <=? 90)%nat.
Definition isLower (c : ascii) : bool :=
  let n := nat_of_ascii c in (97 <=? n)%nat && (n <=? 122)%nat.
Definition isAlnum (c : ascii) : bool := isDigit c || isUpper c || isLower c.

Fixpoint all (p : ascii -> bool) (s : string) : bool :=
  match s with
  | EmptyString => true
  | String c s' => p c && all p s'
  end.

(** The longest prefix of [s] whose characters satisfy [p], and the rest. *)
Fixpoint span (p : ascii -> bool) (s : string) : string * string :=
  match s with
  | EmptyString => (EmptyString, EmptyString)
  | String c s' =>
      if p c then let '(a, b) := span p s' in (String c a, b)
      else (EmptyString, s)
  end.

Definition lengthIn (lo hi : nat) (s : string) : bool :=
  (lo <=? String.length s)%nat && (String.length s <=? hi)%nat.

(** [Array.prototype.join] on strings. *)
Fixpoint join (sep : string) (l : list string) : string :=
  match l with
  | [] => ""
  | [x] => x
  | x :: rest => x ++ sep ++ join sep rest
  end.

(** [a || b] on strings: the empty string is falsy. *)
Definition orElse (a b : string) : string :=
  if String.eqb a "" then b else a.

(** A field of a parsed JSON object that may be absent: [data.f || d]. *)
Definition field (f : option string) (d : string) : string :=
  match f with
  | Some s => orElse s d
  | None => d
  end.

(** The values a cell or a variable of the scripts holds.  Numbers are the
    integer-valued ones; a date is its time value in milliseconds. *)
Inductive value :=
| VStr (s : string)
| VNum (n : Z)
| VBool (b : bool)
| VDate (t : Z).

#[export] Instance value_eq_dec : EqDecision value.
Proof. solve_decision. Defined.

(** ToBoolean: the empty string, 0 and false are falsy. *)
Definition truthy (v : value) : bool :=
  match v with
  | VStr s => negb (String.eqb s "")
  | VNum n => negb (n =? 0)%Z
  | VBool b => b
  | VDate _ => true
  end.

(** [v === s] for a string [s]. *)
Definition strictEqStr (v : value) (s : string) : bool :=
  match v with
  | VStr s' => String.eqb s' s
  | _ => false
  end.

(** The largest time value of a valid Date: 8.64e15 ms. *)
Definition maxTime : Z := 8640000000000000.

(** [new Date(n).getTime()] for a number: [None] is NaN. *)
Definition timeClip (n : Z) : option Z :=
  if (Z.abs n <=? maxTime)%Z then Some n else None.

End JS.
Export JS.

(** ** The platform *)

(** How a statement ends: normally, or by a thrown error whose
    [toString()] is the carried text. *)
Inductive outcome (A : Type) :=
| Ret (a : A)
| Throw (e : string).
Arguments Ret {A} a.
Arguments Throw {A} e.

Class Host := {
  (** [String.prototype.toUpperCase] and [toLowerCase] *)
  toUpperCase : string -> string;
  toLowerCase : string -> string;
  (** [new Date(s).getTime()], [None] for NaN *)
  Date_parse : string -> option Z;
  (** [Date.prototype.toString] and [toISOString] of a valid date *)
  Date_toString : Z -> string;
  Date_toISOString : Z -> string;
  (** [Utilities.formatDate(date, timeZone, format)] of a valid date *)
  formatDate : Z -> string -> string -> string;
  (** what [Utilities.formatDate] does with an Invalid Date *)
  formatInvalidDate : string -> string -> outcome string;
  (** [Session.getScriptTimeZone()] *)
  getScriptTimeZone : string;
  (** ToNumber of a string, [None] for NaN *)
  Number_ofString : string -> option Z;
  (** what a cell that holds no text displays ([getDisplayValues]) *)
  displayOf : value -> string;
  (** the text of the error [SpreadsheetApp.openById] throws *)
  openByIdError : string -> string;
  (** the text of the error [insertSheet] throws for a name in use *)
  insertSheetError : string -> string;
}.

(** ** The spreadsheet service *)

Module Sheets.
Section WithHost.
Context `{Host}.

(** [v.toString()] *)
Definition toString (v : value) : string :=
  match v with
  | VStr s => s
  | VNum n => pretty n
  | VBool true => "true"
  | VBool false => "false"
  | VDate t => Date_toString t
  end.

Definition display (v : value) : string :=
  match v with
  | VStr s => s
  | _ => displayOf v
  end.

End WithHost.

(** A grid is the list of the rows of a sheet, from row 1; a cell that is
    not in the list is blank, and so is the empty string. *)
Definition blank : value := VStr "".

Definition isBlank (v : value) : bool :=
  match v with
  | VStr s => String.eqb s ""
  | _ => false
  end.

Abbreviation grid := (list (list value)).

(** The position, from 1, of the last element of a list that satisfies
    [p]; 0 when there is none. *)
Fixpoint lastWhere {A} (p : A -> bool) (l : list A) : nat :=
  match l with
  | [] => 0
  | x :: rest =>
      match lastWhere p rest with
      | 0 => if p x then 1 else 0
      | S n => S (S n)
      end
  end.

(** The position of the last cell with content of a row, 0 for none. *)
Definition rowLast (row : list value) : nat :=
  lastWhere (fun v => negb (isBlank v)) row.

(** [sheet.getLastRow()]: the position of the last row with content. *)
Definition getLastRow (g : grid) : nat :=
  lastWhere (fun row => negb (rowLast row =? 0)%nat) g.

(** [sheet.getLastColumn()] *)
Fixpoint getLastColumn (g : grid) : nat :=
  match g with
  | [] => 0
  | row :: rest => Nat.max (rowLast row) (getLastColumn rest)
  end.

(** The cell in row [r], column [c], both counted from 1. *)
Definition cell (g : grid) (r c : nat) : value :=
  match r, c with
  | S r', S c' => default blank (default [] (g !! r') !! c')
  | _, _ => blank
  end.

(** [sheet.getRange(r, c, numRows, numColumns).getValues()] *)
Definition getValues (g : grid) (r c numRows numColumns : nat) : grid :=
  map (fun i => map (fun j => cell g (r + i) (c + j)) (seq 0 numColumns))
      (seq 0 numRows).

(** The first cell of each row of a one-column range: [values[i][0]]. *)
Definition column0 (rows : grid) : list value :=
  map (fun row => default blank (head row)) rows.

(** Writing one cell; the grid and the row grow when the cell lies
    outside of them. *)
Definition padTo {A} (n : nat) (d : A) (l : list A) : list A :=
  l ++ replicate (n - length l) d.

Definition setCell (g : grid) (r c : nat) (v : value) : grid :=
  match r, c with
  | S r', S c' =>
      let g' := padTo (S r') [] g in
      <[ r' := <[ c' := v ]> (padTo (S c') blank (default [] (g' !! r'))) ]> g'
  | _, _ => g
  end.

(** [getRange(r, c, 1, length vs).setValues([vs])] *)
Fixpoint setRowValues (g : grid) (r c : nat) (vs : list value) : grid :=
  match vs with
  | [] => g
  | v :: rest => setRowValues (setCell g r c v) r (S c) rest
  end.

(** [getRange(r, 1, length col, 1).setValues(col)] for a one-column block. *)
Fixpoint setColumnValues (g : grid) (r : nat) (col : list value) : grid :=
  match col with
  | [] => g
  | v :: rest => setColumnValues (setCell g r 1 v) (S r) rest
  end.

(** [getRange(r, c, numRows, numColumns).clearContent()]: the cells of the
    range that exist become blank. *)
Definition inRange (lo n i : nat) : bool := (lo <=? i)%nat && (i <? lo + n)%nat.

Definition clearContent (g : grid) (r c numRows numColumns : nat) : grid :=
  imap (fun i row =>
          if inRange r numRows (S i)
          then imap (fun j v => if inRange c numColumns (S j) then blank else v) row
          else row) g.

(** [sheet.getMaxRows()]: a sheet has the rows of its grid, 1000 at least. *)
Definition getMaxRows (g : grid) : nat := Nat.max 1000 (length g).

(** [sheet.appendRow(row)]: the row goes below the last row with content. *)
Definition appendRow (g : grid) (row : list value) : grid :=
  take (getLastRow g) g ++ [row].

(** [sheet.insertRowBefore(1)] *)
Definition insertRowBefore1 (g : grid) : grid := [] :: g.

Record sheet := Sheet { getName : string; cells : grid }.

(** A spreadsheet is the list of its sheets, in the order [getSheets()]
    enumerates them; a sheet is referred to by its position. *)
Abbreviation spreadsheet := (list sheet).

(** [spreadsheet.getSheetByName(name)] *)
Fixpoint getSheetByName_from (i : nat) (ss : spreadsheet) (name : string) : option nat :=
  match ss with
  | [] => None
  | sh :: rest =>
      if String.eqb (getName sh) name then Some i
      else getSheetByName_from (S i) rest name
  end.

Definition getSheetByName (ss : spreadsheet) (name : string) : option nat :=
  getSheetByName_from 0 ss name.

(** The grid of the sheet at a position. *)
Definition gridAt (ss : spreadsheet) (i : nat) : grid :=
  match ss !! i with
  | Some sh => cells sh
  | None => []
  end.

(** The name of the sheet at a position. *)
Definition getName' (ss : spreadsheet) (i : nat) : string :=
  match ss !! i with
  | Some sh => getName sh
  | None => ""
  end.

Definition setGridAt (ss : spreadsheet) (i : nat) (g : grid) : spreadsheet :=
  match ss !! i with
  | Some sh => <[ i := Sheet (getName sh) g ]> ss
  | None => ss
  end.

End Sheets.
Export Sheets.

(** ** The world of a request: stores, clock, and the effects of a script *)

(** The spreadsheets [SpreadsheetApp.openById] can open, by identifier, and
    the time [new Date()] reads. *)
Record world := World { stores : gmap string spreadsheet; clock : Z }.

(** A statement of a script: it changes the world and ends normally or by
    a thrown error.  What was written before a throw stays written. *)
Definition M (A : Type) : Type := world -> world * outcome A.

Definition ret {A} (a : A) : M A := fun w => (w, Ret a).

Definition throw {A} (e : string) : M A := fun w => (w, Throw e).

Definition bind {A B} (m : M A) (k : A -> M B) : M B :=
  fun w =>
    match m w with
    | (w', Ret a) => k a w'
    | (w', Throw e) => (w', Throw e)
    end.

(** [try { m } catch (error) { h error }] *)
Definition tryCatch {A} (m : M A) (h : string -> M A) : M A :=
  fun w =>
    match m w with
    | (w', Ret a) => (w', Ret a)
    | (w', Throw e) => h e w'
    end.

Notation "x <- m ;; k" := (bind m (fun x => k))
  (at level 100, m at next level, right associativity).

Definition lift {A} (o : outcome A) : M A := fun w => (w, o).

(** The value a statement returned, if it returned. *)
Definition returned {A} (o : outcome A) : option A :=
  match o with
  | Ret a => Some a
  | Throw _ => None
  end.

(** [new Date().getTime()] *)
Definition getClock : M Z := fun w => (w, Ret (clock w)).

(** [SpreadsheetApp.openById(id)] throws when the spreadsheet cannot be
    opened. *)
Definition openById `{Host} (id : string) : M spreadsheet :=
  fun w =>
    match stores w !! id with
    | Some ss => (w, Ret ss)
    | None => (w, Throw (openByIdError id))
    end.

(** The writes a script made through the handle of an open spreadsheet. *)
Definition commit (id : string) (ss : spreadsheet) : M unit :=
  fun w => (World (<[ id := ss ]> (stores w)) (clock w), Ret tt).

(** [spreadsheet.insertSheet(name)] throws when the name is in use; the
    new sheet is empty and enumerated last. *)
Definition insertSheet `{Host} (ss : spreadsheet) (name : string)
  : outcome (spreadsheet * nat) :=
  match getSheetByName ss name with
  | Some _ => Throw (insertSheetError name)
  | None => Ret (ss ++ [Sheet name []], length ss)
  end.

(** ** Requests and responses *)

(** The fields of the JSON body the scripts read, each possibly absent. *)
Record payload := Payload {
  p_url : option string;
  p_title : option string;
  p_timestamp : option string;
  p_userEmail : option string;
  p_userId : option string;
  p_pin : option string;
}.

(** [e.postData.contents] by what [JSON.parse] and the reads of the fields
    make of it: the error they throw, or the fields. *)
Inductive contents :=
| Malformed (error : string)
| Json (data : payload).

(** The event [e]: [e.parameter.method] and [e.postData]. *)
Record event := Event { e_method : option string; e_postData : option contents }.

Definition isPreflight (e : event) : bool :=
  match e_method e with
  | Some m => String.eqb m "OPTIONS"
  | None => false
  end || match e_postData e with None => true | Some _ => false end.

Definition parse (c : contents) : M payload :=
  match c with
  | Malformed error => throw error
  | Json data => ret data
  end.

Inductive json :=
| JStr (s : string)
| JBool (b : bool).

(** The text a response carries: a literal text, or [JSON.stringify] of an
    object, which is kept as its fields in their order. *)
Inductive output :=
| Text (s : string)
| Object (fields : list (string * json)).

Inductive mime := MimeJSON | MimeTEXT.

Record response := Response {
  r_output : output;
  r_mime : mime;
  r_headers : list (string * string);
  r_statusCode : option nat;
}.

(** The [status] field of a JSON response. *)
Definition statusOf (r : response) : option string :=
  match r_output r with
  | Object fields =>
      match List.find (fun kv => String.eqb (fst kv) "status") fields with
      | Some (_, JStr s) => Some s
      | _ => None
      end
  | Text _ => None
  end.

Definition corsHeaders : list (string * string) :=
  [("Access-Control-Allow-Origin", "*");
   ("Access-Control-Allow-Methods", "POST, OPTIONS");
   ("Access-Control-Allow-Headers", "Content-Type")].

(** ** gsheet_gappscriptcode_pin_list.js *)

Module PinList.
Section WithHost.
Context `{Host}.

Definition SHEET_ID : string := "YOUR_SHEET_ID_HERE_FROM_PIN_LIST_SHEET".
Definition PREFERRED_PIN_SHEET_NAME : string := "PINs".

Definition possibleNames : list string :=
  ["PINs"; "PIN"; "Pins"; "Pin"; "Sheet1"; "pins"; "pin"; "Password";
   "Passwords"; "password"; "passwords"; "Access Codes"; "AccessCodes";
   "access_codes"; "access codes"; "Codes"; "codes"; "Auth"; "auth";
   "Authentication"; "Key"; "Keys"; "keys"].

(** The four shapes of a PIN: [/^\d{3,8}$/], [/^[A-Za-z0-9]{4,12}$/],
    [/^\d{4}-\d{4}$/] and [/^[A-Z]{2,4}\d{2,6}$/]. *)
Definition digits_3_8 (s : string) : bool := all isDigit s && lengthIn 3 8 s.

Definition alnum_4_12 (s : string) : bool := all isAlnum s && lengthIn 4 12 s.

Definition digits_4_dash_4 (s : string) : bool :=
  (String.length s =? 9)%nat
  && all isDigit (substring 0 4 s)
  && String.eqb (substring 4 1 s) "-"
  && all isDigit (substring 5 4 s).

Definition letters_digits (s : string) : bool :=
  let '(letters, rest) := span isUpper s in
  lengthIn 2 4 letters && lengthIn 2 6 rest && all isDigit rest.

Definition pinLike (strValue : string) : bool :=
  digits_3_8 strValue || alnum_4_12 strValue
  || digits_4_dash_4 strValue || letters_digits strValue.

(** The header test of [isPinSheet] on one row. *)
Definition headerLike (g : grid) (row : nat) : bool :=
  (1 <=? getLastColumn g)%nat &&
  let possibleHeaders :=
    default [] (head (getValues g row 1 1 (Nat.min (getLastColumn g) 3))) in
  let headerText := toLowerCase (join "|" (map toString possibleHeaders)) in
  includes headerText "pin" || includes headerText "password"
  || includes headerText "code" || includes headerText "auth"
  || includes headerText "key" || includes headerText "access".

(** The data test of [isPinSheet] from one starting row.  The source
    compares [pinLikeCount >= validDataCount * 0.6] on at most ten values,
    where the product is exact whenever it is an integer. *)
Definition dataLike (g : grid) (startAttempt : nat) : bool :=
  let maxDataRowsToCheck := Nat.min 10 (getLastRow g) in
  let data :=
    column0 (getValues g startAttempt 1
               (Nat.min maxDataRowsToCheck (getLastRow g - startAttempt + 1)) 1) in
  let valid :=
    List.filter (fun value =>
                   truthy value
                   && (0 <? String.length (trim (toString value)))%nat) data in
  let validDataCount := length valid in
  let pinLikeCount :=
    length (List.filter (fun value => pinLike (trim (toString value))) valid) in
  (0 <? validDataCount)%nat && (6 * validDataCount <=? 10 * pinLikeCount)%nat.

Definition isPinSheet (g : grid) : bool :=
  if (getLastRow g <? 1)%nat then false
  else
    existsb (headerLike g) (seq 1 (Nat.min 3 (getLastRow g)))
    || existsb (dataLike g) (seq 1 (Nat.min 2 (getLastRow g))).

(** The positions of the sheets, as [getSheets()] enumerates them. *)
Definition positions (ss : spreadsheet) : list nat := seq 0 (length ss).

Definition findPinSheet (ss : spreadsheet) : option nat :=
  let exact :=
    List.find (fun name =>
                 match getSheetByName ss name with
                 | Some i => isPinSheet (gridAt ss i)
                 | None => false
                 end) possibleNames in
  match exact with
  | Some name => getSheetByName ss name
  | None =>
      let byCase :=
        List.find (fun i =>
                     let sheetName := toLowerCase (getName' ss i) in
                     existsb (fun name => String.eqb sheetName (toLowerCase name))
                             possibleNames
                     && isPinSheet (gridAt ss i)) (positions ss) in
      match byCase with
      | Some i => Some i
      | None => List.find (fun i => isPinSheet (gridAt ss i)) (positions ss)
      end
  end.

(** [getOrCreatePinSheet]: the sheet found, or a new sheet named "PINs"
    with a header and three example PINs; [None] when the creation throws. *)
Definition getOrCreatePinSheet (ss : spreadsheet) : spreadsheet * option nat :=
  match findPinSheet ss with
  | Some i => (ss, Some i)
  | None =>
      match insertSheet ss PREFERRED_PIN_SHEET_NAME with
      | Ret (ss1, i) =>
          let g := gridAt ss1 i in
          let g := setCell g 1 1 (VStr "PIN") in
          let g := setCell g 2 1 (VStr "123456") in
          let g := setCell g 3 1 (VStr "789012") in
          let g := setCell g 4 1 (VStr "000000") in
          (setGridAt ss1 i g, Some i)
      | Throw e => (ss, None)
      end
  end.

Record structure := Structure {
  startRow : nat;
  endRow : nat;
  dataColumn : nat;
  hasHeader : bool;
}.

Definition analyzePinSheetStructure (g : grid) : structure :=
  let result := Structure 1 (getLastRow g) 1 false in
  if (getLastRow g <? 1)%nat then result
  else
    let firstRowValue := cell g 1 1 in
    let result :=
      match firstRowValue with
      | VStr s =>
          let headerText := trim (toLowerCase s) in
          if negb (String.eqb s "")
             && (String.eqb headerText "pin" || String.eqb headerText "pins"
                 || String.eqb headerText "password" || String.eqb headerText "code"
                 || String.eqb headerText "auth" || String.eqb headerText "key"
                 || includes headerText "pin" || includes headerText "code")
          then Structure 2 (endRow result) 1 true
          else result
      | _ => result
      end in
    if (getLastRow g <? startRow result)%nat
    then Structure 1 (endRow result) 1 false
    else result.

(** The loop of [validatePinFromSheet] over the displayed values of the
    PIN range. *)
Fixpoint scanStored (inputPin : string) (pinList : list string) : bool :=
  match pinList with
  | [] => false
  | storedPin :: rest =>
      if negb (String.eqb storedPin "") then
        let storedPin := trim storedPin in
        if String.eqb storedPin inputPin then true
        else if String.eqb (toUpperCase storedPin) (toUpperCase inputPin) then true
        else scanStored inputPin rest
      else scanStored inputPin rest
  end.

(** [range.getDisplayValues()] of a one-column range, as [pinList[i][0]]. *)
Definition getDisplayColumn (g : grid) (r c numRows : nat) : list string :=
  map display (column0 (getValues g r c numRows 1)).

Record validation := Validation { isValid : bool; message : string }.

Definition validatePinFromSheet (pin : string) : M validation :=
  tryCatch
    (spreadsheet <- openById SHEET_ID ;;
     let '(spreadsheet, sheet) := getOrCreatePinSheet spreadsheet in
     _ <- commit SHEET_ID spreadsheet ;;
     match sheet with
     | None => ret (Validation false "PIN validation sheet not available.")
     | Some i =>
         let g := gridAt spreadsheet i in
         let structure := analyzePinSheetStructure g in
         if (endRow structure <? startRow structure)%nat
         then ret (Validation false "No PIN data available.")
         else
           let pinList :=
             getDisplayColumn g (startRow structure) (dataColumn structure)
               (endRow structure - startRow structure + 1) in
           let inputPin := trim pin in
           if scanStored inputPin pinList
           then ret (Validation true "PIN validated successfully.")
           else ret (Validation false
                       "Invalid PIN. Please check your PIN and try again.")
     end)
    (fun error => ret (Validation false ("Error validating PIN: " ++ error))).

Definition handleCors : response :=
  Response (Text "CORS handled") MimeJSON [] None.

Definition createJsonResponse (data : list (string * json)) : response :=
  Response (Object data) MimeJSON [] None.

Definition doPost (e : event) : world -> world * response :=
  fun w =>
    let body : M response :=
      if isPreflight e then ret handleCors
      else
        data <- parse (default (Malformed "") (e_postData e)) ;;
        let pin := field (p_pin data) "" in
        validationResult <- validatePinFromSheet pin ;;
        now <- getClock ;;
        ret (createJsonResponse
               [("status", JStr (if isValid validationResult
                                 then "success" else "error"));
                ("message", JStr (message validationResult));
                ("pin", JStr pin);
                ("timestamp", JStr (Date_toISOString now))]) in
    match body w with
    | (w', Ret r) => (w', r)
    | (w', Throw error) =>
        (w', createJsonResponse
               [("status", JStr "error");
                ("message", JStr ("Internal server error: " ++ error));
                ("timestamp", JStr (Date_toISOString (clock w')))])
    end.

End WithHost.
End PinList.

(** ** gsheet_gappscriptcode_access_requests.js *)

Module AccessRequests.

(** Anchored matching of the two timestamp patterns, left to right; each
    step gives the rest of the string. *)
Fixpoint digitsN (n : nat) (s : string) : option string :=
  match n with
  | 0 => Some s
  | S n' =>
      match s with
      | String c s' => if isDigit c then digitsN n' s' else None
      | EmptyString => None
      end
  end.

Definition lit (p s : string) : option string :=
  if String.prefix p s
  then Some (substring (String.length p) (String.length s - String.length p) s)
  else None.

(** An alternation of words none of which starts another one. *)
Fixpoint oneOf (alts : list string) (s : string) : option string :=
  match alts with
  | [] => None
  | a :: rest =>
      match lit a s with
      | Some r => Some r
      | None => oneOf rest s
      end
  end.

(** [\d{1,2}] before a character that is no digit. *)
Definition digits1or2 (s : string) : option string :=
  match digitsN 2 s with
  | Some r => Some r
  | None => digitsN 1 s
  end.

(** [(p)?] before a rest of the pattern that cannot start where [p] does. *)
Definition optional (p : string -> option string) (s : string) : option string :=
  match p s with
  | Some r => Some r
  | None => Some s
  end.

(** A pattern is the list of its steps; [^steps$] matches when the steps
    consume the whole string. *)
Fixpoint run (steps : list (string -> option string)) (s : string) : option string :=
  match steps with
  | [] => Some s
  | p :: rest =>
      match p s with
      | Some r => run rest r
      | None => None
      end
  end.

Definition fullMatch (steps : list (string -> option string)) (s : string) : bool :=
  match run steps s with
  | Some r => String.eqb r ""
  | None => false
  end.

Definition weekdays : list string :=
  ["Monday"; "Tuesday"; "Wednesday"; "Thursday"; "Friday"; "Saturday"; "Sunday"].

Definition months : list string :=
  ["Jan"; "Feb"; "Mar"; "Apr"; "May"; "Jun"; "Jul"; "Aug"; "Sep"; "Oct"; "Nov"; "Dec"].

(** The pattern of "Friday, Jun 06, 2025 10:30 AM". *)
Definition isReadableTimestampFormat (value : string) : bool :=
  fullMatch
    [oneOf weekdays; lit ", "; oneOf months; lit " "; digitsN 2; lit ", ";
     digitsN 4; lit " "; digits1or2; lit ":"; digitsN 2; lit " ";
     oneOf ["AM"; "PM"]] value.

(** [/^\d{4}-\d{2}-\d{2}T\d{2}:\d{2}:\d{2}(\.\d{3})?Z?$/] *)
Definition isIso8601 (s : string) : bool :=
  fullMatch
    [digitsN 4; lit "-"; digitsN 2; lit "-"; digitsN 2; lit "T";
     digitsN 2; lit ":"; digitsN 2; lit ":"; digitsN 2;
     optional (run [lit "."; digitsN 3]); optional (lit "Z")] s.

Section WithHost.
Context `{Host}.

Definition SHEET_ID : string := "YOUR_SHEET_ID_HERE_FROM_ACCESS_REQUEST_SHEET".
Definition PIN_SHEET_ID : string := "YOUR_SHEET_ID_HERE_FROM_PIN_LIST_SHEET".
Definition PREFERRED_ACCESS_SHEET_NAME : string := "AccessRequests".
Definition PREFERRED_PIN_SHEET_NAME : string := "PINs".

Definition readableFormat : string := "EEEE, MMM dd, yyyy hh:mm a".

(** [createReadableTimestamp()] at the time [now] of the clock. *)
Definition createReadableTimestamp (now : Z) : string :=
  formatDate now getScriptTimeZone readableFormat.

(** ToNumber of a value that is no Date. *)
Definition toNumber (v : value) : option Z :=
  match v with
  | VStr s => Number_ofString s
  | VNum n => Some n
  | VBool b => Some (if b then 1 else 0)%Z
  | VDate t => Some t
  end.

Definition detectAndFixTimestamp (now : Z) (value : value) : string :=
  if negb (truthy value) then createReadableTimestamp now
  else
    let stringValue := trim (toString value) in
    if isReadableTimestampFormat stringValue then stringValue
    else
      let date : option Z :=
        if isIso8601 stringValue then Date_parse stringValue
        else
          match value with
          | VDate t => Some t
          | _ =>
              match toNumber value with
              | Some n =>
                  if (1000000000 <? n)%Z
                  then timeClip (n * (if (String.length (toString value) =? 10)%nat
                                      then 1000 else 1))
                  else Date_parse stringValue
              | None => Date_parse stringValue
              end
          end in
      match date with
      | None => stringValue
      | Some t => formatDate t getScriptTimeZone readableFormat
      end.

(** [autoFixTimestampFormats(sheet)]: column A below the header is read,
    each value that [detectAndFixTimestamp] changes is replaced, and the
    column is written back when any value changed. *)
Definition fixedCell (now : Z) (currentValue : value) : value :=
  let fixedTimestamp := detectAndFixTimestamp now currentValue in
  if strictEqStr currentValue fixedTimestamp then currentValue
  else VStr fixedTimestamp.

Definition autoFixTimestampFormats (now : Z) (g : grid) : grid :=
  let lastRow := getLastRow g in
  if (lastRow <=? 1)%nat then g
  else
    let timestampValues := column0 (getValues g 2 1 (lastRow - 1) 1) in
    let fixed := map (fixedCell now) timestampValues in
    let needsUpdate :=
      existsb (fun currentValue =>
                 negb (strictEqStr currentValue
                         (detectAndFixTimestamp now currentValue)))
              timestampValues in
    if needsUpdate then setColumnValues g 2 fixed else g.

Definition accessSheetNames : list string :=
  ["AccessRequests"; "Access Requests"; "Access"; "Requests"; "Sheet1";
   "access"; "requests"; "accessrequests"; "access_requests"; "URL Requests";
   "url_requests"; "urlrequests"; "Logs"; "logs"; "Activity"].

Definition positions (ss : spreadsheet) : list nat := seq 0 (length ss).

Definition hasAccessHeaders (g : grid) : bool :=
  (1 <=? getLastRow g)%nat && (3 <=? getLastColumn g)%nat &&
  let headers :=
    default [] (head (getValues g 1 1 1 (Nat.min (getLastColumn g) 8))) in
  let headerText := toLowerCase (join "|" (map toString headers)) in
  includes headerText "timestamp"
  && (includes headerText "url" || includes headerText "email"
      || includes headerText "pin").

Definition findAccessRequestSheet (ss : spreadsheet) : option nat :=
  match List.find (fun name => bool_decide (is_Some (getSheetByName ss name)))
                  accessSheetNames with
  | Some name => getSheetByName ss name
  | None =>
      let byCase :=
        List.find (fun i =>
                     let sheetName := toLowerCase (getName' ss i) in
                     existsb (fun name => String.eqb sheetName (toLowerCase name))
                             accessSheetNames) (positions ss) in
      match byCase with
      | Some i => Some i
      | None => List.find (fun i => hasAccessHeaders (gridAt ss i)) (positions ss)
      end
  end.

Definition expectedHeaders : list string :=
  ["Timestamp"; "PIN Number"; "User Email"; "Title"; "URL"; "Request Status";
   "Media Type"; "Access Link"].

Definition getOrCreateAccessRequestSheet (ss : spreadsheet)
  : outcome (spreadsheet * nat) :=
  match findAccessRequestSheet ss with
  | Some i => Ret (ss, i)
  | None =>
      match insertSheet ss PREFERRED_ACCESS_SHEET_NAME with
      | Ret (ss1, i) =>
          Ret (setGridAt ss1 i
                 (setRowValues (gridAt ss1 i) 1 1 (map VStr expectedHeaders)), i)
      | Throw e => Throw e
      end
  end.

(** The header step of [logAccessRequest]. *)
Definition headersNeedUpdate (g : grid) : bool :=
  let currentHeaders :=
    if (1 <=? getLastRow g)%nat && (0 <? getLastColumn g)%nat
    then default [] (head (getValues g 1 1 1 (Nat.min (getLastColumn g) 8)))
    else [] in
  negb (length currentHeaders =? length expectedHeaders)%nat
  || existsb (fun '(current, expected) => negb (strictEqStr current expected))
             (zip currentHeaders expectedHeaders)
  || (8 <? getLastColumn g)%nat.

Definition ensureHeaders (g : grid) : grid :=
  if headersNeedUpdate g then
    let lastCol := getLastColumn g in
    let g :=
      if (8 <? lastCol)%nat
      then clearContent g 1 9 (getMaxRows g) (lastCol - 8) else g in
    let g :=
      if (0 <? getLastColumn g)%nat
      then clearContent g 1 1 1 (Nat.max (getLastColumn g) 8) else g in
    setRowValues g 1 1 (map VStr expectedHeaders)
  else g.

Record requestData := RequestData {
  rd_url : string;
  rd_title : string;
  rd_timestamp : string;
  rd_userEmail : string;
  rd_pin : string;
  rd_isPinValid : bool;
}.

(** The row [logAccessRequest] appends. *)
Definition rowData (now : Z) (rd : requestData) : list value :=
  [VStr (orElse (rd_timestamp rd) (createReadableTimestamp now));
   VStr (orElse (rd_pin rd) "NO PIN");
   VStr (rd_userEmail rd);
   VStr (rd_title rd);
   VStr (rd_url rd);
   VStr "PENDING"; VStr "PENDING"; VStr "PENDING"].

Record logResult := LogResult { success : bool; message : string }.

Definition logAccessRequest (rd : requestData) : M logResult :=
  tryCatch
    (spreadsheet <- openById SHEET_ID ;;
     found <- lift (getOrCreateAccessRequestSheet spreadsheet) ;;
     let '(spreadsheet, sheet) := found in
     now <- getClock ;;
     let g := ensureHeaders (gridAt spreadsheet sheet) in
     let g := appendRow g (rowData now rd) in
     let g := autoFixTimestampFormats now g in
     _ <- commit SHEET_ID (setGridAt spreadsheet sheet g) ;;
     ret (LogResult true "Access request logged successfully."))
    (fun error =>
       ret (LogResult false ("Error logging access request: " ++ error))).

Definition pinSheetNames : list string :=
  ["PINs"; "PIN"; "Pins"; "Pin"; "Sheet1"; "pins"; "pin"; "Password";
   "Passwords"; "password"; "passwords"; "Access Codes"; "AccessCodes";
   "access_codes"; "Codes"; "codes"; "Auth"; "auth"; "Authentication"].

(** [/^\d{4,6}$/] *)
Definition digits_4_6 (s : string) : bool := all isDigit s && lengthIn 4 6 s.

Definition pinLikeValue (value : value) : bool :=
  match value with
  | VNum n => negb (n =? 0)%Z && (1000 <=? n)%Z && (n <=? 999999)%Z
  | VStr s =>
      negb (String.eqb s "")
      && (digits_4_6 (trim s) || (3 <=? String.length (trim s))%nat)
  | _ => false
  end.

Definition isPinSheet (g : grid) : bool :=
  if (getLastRow g <? 1)%nat then false
  else
    ((1 <=? getLastColumn g)%nat &&
     let possibleHeaders :=
       default [] (head (getValues g 1 1 1 (Nat.min (getLastColumn g) 3))) in
     let headerText := toLowerCase (join "|" (map toString possibleHeaders)) in
     includes headerText "pin" || includes headerText "password"
     || includes headerText "code" || includes headerText "auth")
    || ((2 <=? getLastRow g)%nat &&
        let data :=
          column0 (getValues g (Nat.min 2 (getLastRow g)) 1
                     (Nat.min 10 (getLastRow g - 1)) 1) in
        let pinLikeCount := length (List.filter pinLikeValue data) in
        (length data <=? 2 * pinLikeCount)%nat)
    || truthy (cell g 1 1).

Definition findPinSheet (ss : spreadsheet) : option nat :=
  let exact :=
    List.find (fun name =>
                 match getSheetByName ss name with
                 | Some i => isPinSheet (gridAt ss i)
                 | None => false
                 end) pinSheetNames in
  match exact with
  | Some name => getSheetByName ss name
  | None =>
      let byCase :=
        List.find (fun i =>
                     let sheetName := toLowerCase (getName' ss i) in
                     existsb (fun name => String.eqb sheetName (toLowerCase name))
                             pinSheetNames
                     && isPinSheet (gridAt ss i)) (positions ss) in
      match byCase with
      | Some i => Some i
      | None => List.find (fun i => isPinSheet (gridAt ss i)) (positions ss)
      end
  end.

(** The loop of [validatePin] over the displayed values of the PIN range. *)
Fixpoint scanStored (inputPin : string) (pinList : list string) : bool :=
  match pinList with
  | [] => false
  | storedPin :: rest =>
      if negb (String.eqb storedPin "") then
        let storedPin := trim storedPin in
        if String.eqb storedPin inputPin then true
        else scanStored inputPin rest
      else scanStored inputPin rest
  end.

(** The first row of the PIN data: row 2 when cell A1 reads as a header. *)
Definition pinStartRow (g : grid) : nat :=
  match cell g 1 1 with
  | VStr s =>
      let headerText := toLowerCase s in
      if negb (String.eqb s "")
         && (includes headerText "pin" || includes headerText "password"
             || includes headerText "code" || includes headerText "auth"
             || String.eqb headerText "pin" || String.eqb headerText "pins")
      then 2 else 1
  | _ => 1
  end.

Definition validatePin (pin : string) : M bool :=
  if String.eqb pin "" then ret false
  else
    tryCatch
      (pinSpreadsheet <- openById PIN_SHEET_ID ;;
       match findPinSheet pinSpreadsheet with
       | None => ret false
       | Some pinSheet =>
           let g := gridAt pinSpreadsheet pinSheet in
           let lastRow := getLastRow g in
           if (lastRow <? 1)%nat then ret false
           else
             let startRow := pinStartRow g in
             if (lastRow <? startRow)%nat then ret false
             else
               let pinList :=
                 PinList.getDisplayColumn g startRow 1 (lastRow - startRow + 1) in
               let inputPin := trim pin in
               ret (scanStored inputPin pinList)
       end)
      (fun error => ret false).

Definition handleCors : response :=
  Response (Text "CORS handled") MimeJSON [] None.

Definition createJsonResponse (data : list (string * json)) : response :=
  Response (Object data) MimeJSON [] None.

Definition doPost (e : event) : world -> world * response :=
  fun w =>
    let body : M response :=
      if isPreflight e then ret handleCors
      else
        data <- parse (default (Malformed "") (e_postData e)) ;;
        now <- getClock ;;
        let url := field (p_url data) "" in
        let title := field (p_title data) "" in
        let timestamp := field (p_timestamp data) (createReadableTimestamp now) in
        let userEmail := field (p_userEmail data) "" in
        let pin := field (p_pin data) "" in
        isPinValid <- (if negb (String.eqb pin "") then validatePin pin
                       else ret false) ;;
        logResult <- logAccessRequest
                       (RequestData url title timestamp userEmail pin isPinValid) ;;
        now <- getClock ;;
        ret (createJsonResponse
               [("status", JStr (if success logResult then "success" else "error"));
                ("message", JStr (message logResult));
                ("pinValid", JBool isPinValid);
                ("pinProvided", JBool (negb (String.eqb pin "")));
                ("timestamp", JStr (createReadableTimestamp now))]) in
    match body w with
    | (w', Ret r) => (w', r)
    | (w', Throw error) =>
        (w', createJsonResponse
               [("status", JStr "error");
                ("message", JStr ("Internal server error: " ++ error));
                ("timestamp", JStr (createReadableTimestamp (clock w')))])
    end.

End WithHost.
End AccessRequests.

(** ** The URL loggers: unnamed/part_000 and the second script of
       gsheet_gappscriptcode_access_requests.js *)

(** What the two URL loggers and the PIN checker share, statement for
    statement. *)
Module Legacy.
Section WithHost.
Context `{Host}.

Definition ACCESS_SHEET_ID : string := "YOUR_SHEET_ID_HERE_FROM_ACCESS_SHEET".
Definition PIN_ACCESS_SHEET_ID : string := "YOUR_SHEET_ID_HERE_FROM_PIN_ACCESS_SHEET".

(** The double quote character, for the texts of errors. *)
Definition dq : string := String (ascii_of_nat 34) EmptyString.

(** [new Error('Sheet named "name" not found.').toString()] *)
Definition sheetNotFound (name : string) : string :=
  "Error: Sheet named " ++ dq ++ name ++ dq ++ " not found.".

(** The loop over the PIN list: a stored value counts when its trimmed
    text is not empty and is the trimmed input. *)
Fixpoint scanStored (inputPin : string) (pinList : list string) : bool :=
  match pinList with
  | [] => false
  | stored :: rest =>
      let storedPin := trim stored in
      if negb (String.eqb storedPin "") && String.eqb storedPin inputPin then true
      else scanStored inputPin rest
  end.

(** [lastPinRow > 1 ? pinSheet.getRange('A2:A' + lastPinRow) : null], read
    with [getDisplayValues()]. *)
Definition displayedPins (g : grid) : list string :=
  if (1 <? getLastRow g)%nat
  then PinList.getDisplayColumn g 2 1 (getLastRow g - 1)
  else [].

(** The PIN validation of the URL loggers, in its own [try]: the sheet
    named [pinSheetName] of the PIN spreadsheet is read. *)
Definition validateInline (pinSheetName pin : string) : M bool :=
  tryCatch
    (pinSpreadsheet <- openById PIN_ACCESS_SHEET_ID ;;
     match getSheetByName pinSpreadsheet pinSheetName with
     | Some pinSheet =>
         let pinList := displayedPins (gridAt pinSpreadsheet pinSheet) in
         let inputPin := trim pin in
         ret (scanStored inputPin pinList)
     | None => ret false
     end)
    (fun pinError => ret false).

Definition cooldownMs : Z := 5 * 60 * 1000.

(** [new Date(rowTimeStr).getTime()] of a truthy cell. *)
Definition rowTimeOf (rowTimeStr : value) : option Z :=
  match rowTimeStr with
  | VStr s => Date_parse s
  | VNum n => timeClip n
  | VBool b => Some (if b then 1 else 0)%Z
  | VDate t => Some t
  end.

(** [currentTime - rowTime > cooldownMs], false when [currentTime] is NaN. *)
Definition tooOld (currentTime : option Z) (rowTime : Z) : bool :=
  match currentTime with
  | Some now => (cooldownMs <? now - rowTime)%Z
  | None => false
  end.

(** The duplicate loop, on the rows from the most recent one. *)
Fixpoint scanRecent (url : string) (currentTime : option Z) (rows : grid) : bool :=
  match rows with
  | [] => false
  | row :: older =>
      let rowUrl := default blank (row !! 0) in
      let rowTimeStr := default blank (row !! 1) in
      if negb (truthy rowTimeStr) then scanRecent url currentTime older
      else
        match rowTimeOf rowTimeStr with
        | None => scanRecent url currentTime older
        | Some rowTime =>
            if tooOld currentTime rowTime then false
            else if strictEqStr rowUrl url then true
            else scanRecent url currentTime older
        end
  end.

(** [lastRow > 1 ? sheet.getRange(2, 1, lastRow - 1, 5).getValues() : []] *)
Definition lastRowsOf (g : grid) : grid :=
  if (1 <? getLastRow g)%nat then getValues g 2 1 (getLastRow g - 1) 5 else [].

Definition checkDuplicate (isValidPin : bool) (url : string)
    (currentTime : option Z) (g : grid) : bool :=
  if isValidPin then scanRecent url currentTime (rev (lastRowsOf g)) else false.

Definition jsonOutput (fields : list (string * json)) : response :=
  Response (Object fields) MimeJSON corsHeaders None.

Definition handleCors : response :=
  Response (Text "") MimeTEXT corsHeaders (Some 204).

(** The response of the URL loggers; [duplicateMessage] is the one text in
    which they differ. *)
Definition respond (duplicateMessage : string) (isValidPin isDuplicate : bool)
  : response :=
  if negb isValidPin then
    jsonOutput [("status", JStr "failure"); ("message", JStr "Invalid PIN/Password")]
  else if isDuplicate then
    jsonOutput [("status", JStr "duplicate"); ("message", JStr duplicateMessage)]
  else jsonOutput [("status", JStr "success")].

Definition errorResponse (error : string) : response :=
  jsonOutput [("status", JStr "error"); ("message", JStr error)].

(** [try { body } catch (error) { return errorResponse(error) }] *)
Definition handler (body : M response) : world -> world * response :=
  fun w =>
    match body w with
    | (w', Ret r) => (w', r)
    | (w', Throw error) => (w', errorResponse error)
    end.

End WithHost.
End Legacy.

(** unnamed/part_000 *)
Module UrlLogger.
Import Legacy.
Section WithHost.
Context `{Host}.

Definition statusText (isValidPin isDuplicate : bool) : string :=
  if isValidPin
  then (if isDuplicate then "Duplicate (Valid PIN)" else "Success (Valid PIN)")
  else "Failed (Invalid PIN)".

Definition doPost (e : event) : world -> world * response :=
  handler
    (if isPreflight e then ret handleCors
     else
       data <- parse (default (Malformed "") (e_postData e)) ;;
       now <- getClock ;;
       let url := field (p_url data) "N/A" in
       let title := field (p_title data) "Untitled Page" in
       let timestamp := field (p_timestamp data) (Date_toISOString now) in
       let userEmail := field (p_userEmail data) "Unknown" in
       let userId := field (p_userId data) "Unknown" in
       let pin := field (p_pin data) "Not Provided" in
       spreadsheet <- openById ACCESS_SHEET_ID ;;
       match getSheetByName spreadsheet "Sheet1" with
       | None => throw (sheetNotFound "Sheet1")
       | Some sheet =>
           isValidPin <- validateInline "PINs" pin ;;
           let g := gridAt spreadsheet sheet in
           let currentTime := Date_parse timestamp in
           let isDuplicate := checkDuplicate isValidPin url currentTime g in
           let status := statusText isValidPin isDuplicate in
           let g := appendRow g
                      [VStr url; VStr title; VStr timestamp; VStr userEmail;
                       VStr userId; VStr pin; VStr status] in
           _ <- commit ACCESS_SHEET_ID (setGridAt spreadsheet sheet g) ;;
           ret (respond "URL already requested within last 5 minutes."
                        isValidPin isDuplicate)
       end).

End WithHost.
End UrlLogger.

(** gsheet_gappscriptcode_access_requests.js, lines 1468-1627 *)
Module UrlLoggerPst.
Import Legacy.
Section WithHost.
Context `{Host}.

Definition expectedHeaders : list string :=
  ["timeStamp"; "userEmail"; "websiteTitle"; "websiteRequested"; "pinNumber";
   "pinStatus"].

Definition headersMatch (g : grid) : bool :=
  let firstRowValues := default [] (head (getValues g 1 1 1 6)) in
  (length firstRowValues =? length expectedHeaders)%nat
  && forallb (fun '(value, expected) =>
                String.eqb (toLowerCase (trim (toString value)))
                           (toLowerCase expected))
             (zip firstRowValues expectedHeaders).

(** The header step: a header row is inserted above the rows of the sheet
    unless row 1 reads as the expected headers. *)
Definition ensureHeaders (g : grid) : grid :=
  if headersMatch g then g
  else setRowValues (insertRowBefore1 g) 1 1 (map VStr expectedHeaders).

Definition statusText (isValidPin isDuplicate : bool) : string :=
  if isValidPin
  then (if isDuplicate then "Valid PIN" else "Valid PIN")
  else "Invalid PIN".

Definition doPost (e : event) : world -> world * response :=
  handler
    (if isPreflight e then ret handleCors
     else
       data <- parse (default (Malformed "") (e_postData e)) ;;
       now <- getClock ;;
       let url := field (p_url data) "N/A" in
       let title := field (p_title data) "Untitled Page" in
       let rawTimestamp := field (p_timestamp data) (Date_toISOString now) in
       let timestampDate := Date_parse rawTimestamp in
       timestamp <- lift
         match timestampDate with
         | Some t => Ret (formatDate t "America/Los_Angeles" "MM/dd/yyyy h:mm:ss a")
         | None => formatInvalidDate "America/Los_Angeles" "MM/dd/yyyy h:mm:ss a"
         end ;;
       let userEmail := field (p_userEmail data) "Unknown" in
       let pin := field (p_pin data) "Not Provided" in
       spreadsheet <- openById ACCESS_SHEET_ID ;;
       match getSheetByName spreadsheet "Sheet1" with
       | None => throw (sheetNotFound "Sheet1")
       | Some sheet =>
           let g := ensureHeaders (gridAt spreadsheet sheet) in
           _ <- commit ACCESS_SHEET_ID (setGridAt spreadsheet sheet g) ;;
           isValidPin <- validateInline "Sheet1" pin ;;
           let currentTime := timestampDate in
           let isDuplicate := checkDuplicate isValidPin url currentTime g in
           let status := statusText isValidPin isDuplicate in
           let g := appendRow g
                      [VStr timestamp; VStr userEmail; VStr title; VStr url;
                       VStr pin; VStr status] in
           _ <- commit ACCESS_SHEET_ID (setGridAt spreadsheet sheet g) ;;
           ret (respond "URL already requested within last 1 minute."
                        isValidPin isDuplicate)
       end).

End WithHost.
End UrlLoggerPst.

(** unnamed/part_001 *)
Module PinCheck.
Import Legacy.
Section WithHost.
Context `{Host}.

(** [lastRow > 1 ? sheet.getRange('A2:A' + lastRow) : null], read with
    [getValues()]; each value is compared by its [toString()]. *)
Definition storedPins (g : grid) : list string :=
  if (1 <? getLastRow g)%nat
  then map toString (column0 (getValues g 2 1 (getLastRow g - 1) 1))
  else [].

Definition doPost (e : event) : world -> world * response :=
  handler
    (if isPreflight e then ret handleCors
     else
       data <- parse (default (Malformed "") (e_postData e)) ;;
       let pin := field (p_pin data) "" in
       spreadsheet <- openById PIN_ACCESS_SHEET_ID ;;
       match getSheetByName spreadsheet "PINs" with
       | None => throw (sheetNotFound "PINs")
       | Some sheet =>
           let pinList := storedPins (gridAt spreadsheet sheet) in
           let inputPin := trim pin in
           let isValid := scanStored inputPin pinList in
           ret (jsonOutput
                  [("status", JStr (if isValid then "success" else "failure"));
                   ("message", JStr (if isValid then "PIN valid"
                                     else "Invalid PIN/Password"))])
       end).

End WithHost.
End PinCheck.

(** ** A platform to run the scripts on

    The instance [Utc] is a platform whose script time zone is UTC.  Its
    functions are those of V8 and of Apps Script on the inputs the examples
    below use: letters of ASCII for the case functions, the ISO 8601 format
    for [new Date(string)] (V8 gives NaN too for the other strings of the
    examples), decimal integers for ToNumber. *)
Module Utc.

Local Open Scope Z_scope.

Definition upperChar (c : ascii) : ascii :=
  if isLower c then ascii_of_nat (nat_of_ascii c - 32) else c.
Definition lowerChar (c : ascii) : ascii :=
  if isUpper c then ascii_of_nat (nat_of_ascii c + 32) else c.

Fixpoint mapChars (f : ascii -> ascii) (s : string) : string :=
  match s with
  | EmptyString => EmptyString
  | String c s' => String (f c) (mapChars f s')
  end.

(** Days since 1970-01-01 of a civil date, and back. *)
Definition daysFromCivil (y m d : Z) : Z :=
  let y := if m <=? 2 then y - 1 else y in
  let era := y / 400 in
  let yoe := y - era * 400 in
  let doy := (153 * (if 2 <? m then m - 3 else m + 9) + 2) / 5 + d - 1 in
  let doe := yoe * 365 + yoe / 4 - yoe / 100 + doy in
  era * 146097 + doe - 719468.

Definition civilFromDays (z : Z) : Z * Z * Z :=
  let z := z + 719468 in
  let era := z / 146097 in
  let doe := z - era * 146097 in
  let yoe := (doe - doe / 1460 + doe / 36524 - doe / 146096) / 365 in
  let doy := doe - (365 * yoe + yoe / 4 - yoe / 100) in
  let mp := (5 * doy + 2) / 153 in
  let d := doy - (153 * mp + 2) / 5 + 1 in
  let m := if mp <? 10 then mp + 3 else mp - 9 in
  let y := yoe + era * 400 in
  (if m <=? 2 then y + 1 else y, m, d).

Definition msPerDay : Z := 86400000.

(** The day of the week, 0 for Sunday. *)
Definition weekdayOf (days : Z) : Z := (days + 4) mod 7.

Fixpoint padLeft (width : nat) (s : string) : string :=
  if (String.length s <? width)%nat
  then match width with
       | O => s
       | S w => ("0" ++ padLeft w s)%string
       end
  else s.

Definition digits (width : nat) (n : Z) : string := padLeft width (pretty n).

Definition dayNames : list string :=
  ["Sunday"; "Monday"; "Tuesday"; "Wednesday"; "Thursday"; "Friday"; "Saturday"].
Definition monthNames : list string :=
  ["January"; "February"; "March"; "April"; "May"; "June"; "July"; "August";
   "September"; "October"; "November"; "December"].

Definition nameAt (names : list string) (i : Z) : string :=
  default "" (names !! Z.to_nat i).

(** The first day of the week [wd] on or after a civil date, in days. *)
Definition firstWeekdayFrom (wd y m d : Z) : Z :=
  let start := daysFromCivil y m d in
  start + (wd - weekdayOf start) mod 7.

(** The offset of a time zone from UTC at an instant: Pacific time with the
    rule of the United States since 2007, UTC for the other names. *)
Definition offsetOf (timeZone : string) (t : Z) : Z :=
  if String.eqb timeZone "America/Los_Angeles" then
    let '(y, _, _) := civilFromDays (t / msPerDay) in
    let dstStart := firstWeekdayFrom 0 y 3 8 * msPerDay + 10 * 3600000 in
    let dstEnd := firstWeekdayFrom 0 y 11 1 * msPerDay + 9 * 3600000 in
    if (dstStart <=? t) && (t <? dstEnd) then -7 * 3600000 else -8 * 3600000
  else 0.

(** One run of a pattern letter of [Utilities.formatDate]. *)
Definition formatRun (local : Z) (letter : ascii) (count : nat) : string :=
  let days := local / msPerDay in
  let ms := local mod msPerDay in
  let '(y, m, d) := civilFromDays days in
  let hour := ms / 3600000 in
  let l := String letter EmptyString in
  if String.eqb l "E" then
    let name := nameAt dayNames (weekdayOf days) in
    if (4 <=? count)%nat then name else substring 0 3 name
  else if String.eqb l "M" then
    let name := nameAt monthNames (m - 1) in
    if (4 <=? count)%nat then name
    else if (count =? 3)%nat then substring 0 3 name
    else digits count m
  else if String.eqb l "d" then digits count d
  else if String.eqb l "y" then
    if (count =? 2)%nat then digits 2 (y mod 100) else digits count y
  else if String.eqb l "h" then
    digits count (if hour mod 12 =? 0 then 12 else hour mod 12)
  else if String.eqb l "H" then digits count hour
  else if String.eqb l "m" then digits count (ms / 60000 mod 60)
  else if String.eqb l "s" then digits count (ms / 1000 mod 60)
  else if String.eqb l "a" then (if hour <? 12 then "AM" else "PM")
  else String.concat "" (replicate count l).

(** The runs of equal characters of a pattern. *)
Fixpoint runsOf (s : string) : list (ascii * nat) :=
  match s with
  | EmptyString => []
  | String c s' =>
      match runsOf s' with
      | (c', n) :: rest =>
          if Ascii.eqb c c' then (c, S n) :: rest else (c, 1%nat) :: (c', n) :: rest
      | [] => [(c, 1%nat)]
      end
  end.

Definition format (t : Z) (timeZone pattern : string) : string :=
  let local := t + offsetOf timeZone t in
  String.concat "" (map (fun '(c, n) => formatRun local c n) (runsOf pattern)).

(** Reading a decimal number of at most [String.length s] digits. *)
Fixpoint readDigits (acc : Z) (s : string) : option Z :=
  match s with
  | EmptyString => Some acc
  | String c s' =>
      if isDigit c
      then readDigits (acc * 10 + Z.of_nat (nat_of_ascii c - 48)) s'
      else None
  end.

Definition number (s : string) : option Z :=
  let s := trim s in
  if String.eqb s "" then Some 0
  else
    match s with
    | String c s' =>
        if String.eqb (String c EmptyString) "-"
        then (if String.eqb s' "" then None else Z.opp <$> readDigits 0 s')
        else readDigits 0 s
    | EmptyString => Some 0
    end.

Definition daysInMonth (y m : Z) : Z :=
  daysFromCivil (if m =? 12 then y + 1 else y) (if m =? 12 then 1 else m + 1) 1
  - daysFromCivil y m 1.

(** [new Date(s).getTime()] for the ISO 8601 format, read as UTC. *)
Definition parseIso (s : string) : option Z :=
  if AccessRequests.isIso8601 s then
    y ← readDigits 0 (substring 0 4 s);
    m ← readDigits 0 (substring 5 2 s);
    d ← readDigits 0 (substring 8 2 s);
    hh ← readDigits 0 (substring 11 2 s);
    mm ← readDigits 0 (substring 14 2 s);
    ss ← readDigits 0 (substring 17 2 s);
    ms ← (if String.eqb (substring 19 1 s) "."
          then readDigits 0 (substring 20 3 s) else Some 0);
    if (1 <=? m) && (m <=? 12) && (1 <=? d) && (d <=? daysInMonth y m)
       && (hh <=? 23) && (mm <=? 59) && (ss <=? 59)
    then Some (daysFromCivil y m d * msPerDay
               + hh * 3600000 + mm * 60000 + ss * 1000 + ms)
    else None
  else None.

#[export] Instance host : Host := {
  toUpperCase := mapChars upperChar;
  toLowerCase := mapChars lowerChar;
  Date_parse := parseIso;
  Date_toString t :=
    (format t "UTC" "EEE MMM dd yyyy HH:mm:ss"
     ++ " GMT+0000 (Coordinated Universal Time)")%string;
  Date_toISOString t :=
    (format t "UTC" "yyyy-MM-dd" ++ "T" ++ format t "UTC" "HH:mm:ss" ++ "."
     ++ digits 3 (t mod 1000) ++ "Z")%string;
  formatDate := format;
  formatInvalidDate _ _ := Throw "Exception: Invalid argument: date";
  getScriptTimeZone := "Etc/UTC";
  Number_ofString := number;
  displayOf v :=
    match v with
    | VStr s => s
    | VNum n => pretty n
    | VBool b => if b then "TRUE" else "FALSE"
    | VDate t => format t "UTC" "M/d/yyyy H:mm:ss"
    end;
  openByIdError id :=
    "Exception: Unexpected error while getting the method or property openById on object SpreadsheetApp.";
  insertSheetError name :=
    ("Exception: A sheet with the name " ++ Legacy.dq ++ name ++ Legacy.dq
     ++ " already exists. Please enter another name.")%string;
}.

End Utc.

(** The list of stored PINs each validator scans in a world, [None] when
    it returns before its loop. *)
Module StoredPins.
Section WithHost.
Context `{Host}.

Definition ofPinList (w : world) : option (list string) :=
  ss ← stores w !! PinList.SHEET_ID;
  let '(ss, sheet) := PinList.getOrCreatePinSheet ss in
  i ← sheet;
  let g := gridAt ss i in
  let st := PinList.analyzePinSheetStructure g in
  if (PinList.endRow st <? PinList.startRow st)%nat then None
  else Some (PinList.getDisplayColumn g (PinList.startRow st) (PinList.dataColumn st)
               (PinList.endRow st - PinList.startRow st + 1)).

Definition ofAccessRequests (w : world) : option (list string) :=
  ss ← stores w !! AccessRequests.PIN_SHEET_ID;
  i ← AccessRequests.findPinSheet ss;
  let g := gridAt ss i in
  if (getLastRow g <? 1)%nat then None
  else if (getLastRow g <? AccessRequests.pinStartRow g)%nat then None
  else Some (PinList.getDisplayColumn g (AccessRequests.pinStartRow g) 1
               (getLastRow g - AccessRequests.pinStartRow g + 1)).

Definition ofLegacy (pinSheetName : string) (w : world) : option (list string) :=
  ss ← stores w !! Legacy.PIN_ACCESS_SHEET_ID;
  i ← getSheetByName ss pinSheetName;
  Some (Legacy.displayedPins (gridAt ss i)).

Definition ofPinCheck (w : world) : option (list string) :=
  ss ← stores w !! Legacy.PIN_ACCESS_SHEET_ID;
  i ← getSheetByName ss "PINs";
  Some (PinCheck.storedPins (gridAt ss i)).

End WithHost.
End StoredPins.

(** * The vocabulary of the properties *)

Section Vocabulary.
Context `{Host}.

(** What the validators return, by the list they scan. *)
Definition scanOf (scan : string -> list string -> bool) (pin : string)
    (stored : option (list string)) : bool :=
  match stored with
  | Some L => scan (trim pin) L
  | None => false
  end.

(** A POST whose body parses to [data]. *)
Definition jsonPost (data : payload) : event := Event None (Some (Json data)).

(** The body [{pin: c}]. *)
Definition pinOnly (c : string) : payload := Payload None None None None None (Some c).

(** The store of a world after a script wrote the grid [g] of a sheet. *)
Definition written (w : world) (id : string) (ss : spreadsheet) (sheet : nat)
    (g : grid) : world :=
  World (<[ id := setGridAt ss sheet g ]> (stores w)) (clock w).

(** A world some time later. *)
Definition later (w : world) (ms : Z) : world := World (stores w) (clock w + ms).

(** The timestamp the second URL logger writes: the raw timestamp, parsed
    and formatted in Pacific time. *)
Definition pstTimestamp (rawTimestamp : string) : outcome string :=
  match Date_parse rawTimestamp with
  | Some t => Ret (formatDate t "America/Los_Angeles" "MM/dd/yyyy h:mm:ss a")
  | None => formatInvalidDate "America/Los_Angeles" "MM/dd/yyyy h:mm:ss a"
  end.

(** The cells the duplicate loop reads of a row, and the time it reads:
    none when the time cell is falsy or does not parse. *)
Definition urlCell (row : list value) : value := default blank (row !! 0).

Definition timeRead (row : list value) : option Z :=
  let rowTimeStr := default blank (row !! 1) in
  if truthy rowTimeStr then Legacy.rowTimeOf rowTimeStr else None.

(** A row does not stop the loop: it has no time, or it is no older than
    the cooldown. *)
Definition passes (currentTime : option Z) (row : list value) : Prop :=
  forall t, timeRead row = Some t -> Legacy.tooOld currentTime t = false.

(** A row makes the submission a duplicate: its URL cell is the submitted
    URL and its time is no older than the cooldown. *)
Definition matches (url : string) (currentTime : option Z) (row : list value) : Prop :=
  strictEqStr (urlCell row) url = true
  /\ exists t, timeRead row = Some t /\ Legacy.tooOld currentTime t = false.

(** In rows ordered from the oldest to the most recent, a matching row
    with no stopping row after it. *)
Definition duplicateIn (url : string) (currentTime : option Z) (rows : grid) : Prop :=
  exists older row newer,
    rows = older ++ row :: newer
    /\ matches url currentTime row
    /\ Forall (passes currentTime) newer.

(** What [doPost] of access_requests.js does with a request. *)
Definition isPinValidIn (pin : string) (w : world) : bool :=
  negb (String.eqb pin "")
  && scanOf AccessRequests.scanStored pin (StoredPins.ofAccessRequests w).

Definition requestDataOf (data : payload) (w : world) : AccessRequests.requestData :=
  AccessRequests.RequestData (field (p_url data) "") (field (p_title data) "")
    (field (p_timestamp data) (AccessRequests.createReadableTimestamp (clock w)))
    (field (p_userEmail data) "") (field (p_pin data) "")
    (isPinValidIn (field (p_pin data) "") w).

(** A string that [trimEnd] leaves as it is, and that is not empty. *)
Definition solid (s : string) : Prop := trimEnd s = s /\ s <> "".

(** The headers [logAccessRequest] leaves in row 1. *)
Definition headerRow : grid := [map VStr AccessRequests.expectedHeaders].

(** The sheet [getOrCreatePinSheet] creates when it finds no PIN sheet. *)
Definition createdPinSheet : sheet :=
  Sheet "PINs" [[VStr "PIN"]; [VStr "123456"]; [VStr "789012"]; [VStr "000000"]].

(** The four bodies of the POST interface: [{status:"success"}],
    [{status:"duplicate", message}], [{status:"failure", message:"Invalid
    PIN/Password"}] and [{status:"error", message}]. *)
Definition isClaimedBody (o : output) : bool :=
  match o with
  | Object [(k, JStr status)] =>
      String.eqb k "status" && String.eqb status "success"
  | Object [(k, JStr status); (k', JStr message)] =>
      String.eqb k "status" && String.eqb k' "message"
      && (String.eqb status "duplicate"
          || String.eqb status "error"
          || (String.eqb status "failure"
              && String.eqb message "Invalid PIN/Password"))
  | _ => false
  end.

(** [!isNaN(value) && value > 1000000000] of a string. *)
Definition readsAbove (s : string) : bool :=
  match Number_ofString s with
  | Some n => (1000000000 <? n)%Z
  | None => false
  end.

(** The date [detectAndFixTimestamp] reads from a value whose text is not
    in the readable format: the variable [date] of its [try] block, [None]
    for an Invalid Date. *)
Definition dateOf (value : value) : option Z :=
  let stringValue := trim (toString value) in
  if AccessRequests.isIso8601 stringValue then Date_parse stringValue
  else
    match value with
    | VDate t => Some t
    | _ =>
        match AccessRequests.toNumber value with
        | Some n =>
            if (1000000000 <? n)%Z
            then timeClip (n * (if (String.length (toString value) =? 10)%nat
                                then 1000 else 1))
            else Date_parse stringValue
        | None => Date_parse stringValue
        end
    end.

End Vocabulary.

(** The worlds and requests of the runs on the platform [Utc]. *)
Module Scenario.
Import Utc.

Definition pins : spreadsheet :=
  [Sheet "PINs" [[VStr "PIN"]; [VStr "1234"]; [VStr "ABC"]]].

(** The world of access_requests.js with an empty log, on 2025-06-06. *)
Definition accessWorld : world :=
  World (<[ AccessRequests.SHEET_ID := [Sheet "AccessRequests" []] ]>
           (<[ AccessRequests.PIN_SHEET_ID := pins ]> ∅))
        1749230543598.

Definition example (timestamp pin : string) : payload :=
  Payload (Some "https://example.com") (Some "Ex") (Some timestamp)
    (Some "a@b.com") None (Some pin).

Definition submit (timestamp pin : string) : event :=
  jsonPost (example timestamp pin).

(** The grid of the first sheet of a spreadsheet of a world. *)
Definition gridOf (w : world) (id : string) : grid :=
  gridAt (default [] (stores w !! id)) 0.

(** The world of the two URL loggers and of the PIN checker: a log laid
    out URL, time, and the PIN sheets the three scripts read. *)
Definition urlWorld : world :=
  World (<[ Legacy.ACCESS_SHEET_ID :=
              [Sheet "Sheet1"
                 [[VStr "URL"; VStr "Time"];
                  [VStr "https://example.com"; VStr "2025-06-06T17:22:23.000Z"]]] ]>
           (<[ Legacy.PIN_ACCESS_SHEET_ID :=
                 [Sheet "PINs" [[VStr "PIN"]; [VStr "1234"]];
                  Sheet "Sheet1" [[VStr "PIN"]; [VStr "1234"]]] ]> ∅))
        1749230553000.

(** The same world with a log that holds its header row only. *)
Definition freshUrlWorld : world :=
  World (<[ Legacy.ACCESS_SHEET_ID :=
              [Sheet "Sheet1" [[VStr "URL"; VStr "Title"; VStr "Timestamp"]]] ]>
           (stores urlWorld))
        1749230543598.

Definition urlSheets : spreadsheet :=
  default [] (stores urlWorld !! Legacy.ACCESS_SHEET_ID).

(** The world of pin_list.js. *)
Definition pinWorld : world :=
  World (<[ PinList.SHEET_ID := pins ]> ∅) 1749230543598.

(** The world of pin_list.js with a blank cell among the PINs. *)
Definition gapWorld : world :=
  World (<[ PinList.SHEET_ID :=
              [Sheet "PINs" [[VStr "PIN"]; [VStr "1234"]; []; [VStr "ABC"]]] ]> ∅)
        1749230543598.

(** The request data of a submission with an ISO timestamp. *)
Definition isoRequest : AccessRequests.requestData :=
  AccessRequests.RequestData "https://example.com" "Ex" "2025-06-06T17:22:23.000Z"
    "a@b.com" "1234" true.

(** The same request with its timestamp in the readable format. *)
Definition readableRequest : AccessRequests.requestData :=
  AccessRequests.RequestData "https://example.com" "Ex"
    "Friday, Jun 06, 2025 05:22 PM" "a@b.com" "1234" true.

(** The world of the second URL logger, with a log whose row 1 holds the
    eight canonical headers of [logAccessRequest]. *)
Definition pstWorld : world :=
  World (<[ Legacy.ACCESS_SHEET_ID :=
              [Sheet "Sheet1" [map VStr AccessRequests.expectedHeaders]] ]>
           (stores urlWorld))
        1749230553000.

(** A world in which the PIN spreadsheets cannot be opened. *)
Definition noPinsWorld : world :=
  World (<[ Legacy.ACCESS_SHEET_ID := urlSheets ]> ∅) 1749230553000.

End Scenario.

(** * The functions beside the request handlers *)

(** ** More of the spreadsheet service *)

Module Ranges.

(** [sheet.deleteRows(rowPosition, howMany)]: the rows below move up. *)
Definition deleteRows (g : grid) (rowPosition howMany : nat) : grid :=
  take (rowPosition - 1) g ++ drop (rowPosition - 1 + howMany) g.

(** [sheet.clear()]: no content is left. *)
Definition clear (g : grid) : grid := [].

(** [getRange(r, c, length rows, n).setValues(rows)] for rows of [n] cells. *)
Fixpoint setValues (g : grid) (r c : nat) (rows : grid) : grid :=
  match rows with
  | [] => g
  | row :: rest => setValues (setRowValues g r c row) (S r) c rest
  end.

End Ranges.
Export Ranges.

(** ** The utilities and the GET handler of access_requests.js *)

Module AccessTools.
Import AccessRequests.

(** [columnToLetter(column)] for a column count: the loop
    [while (column > 0) { temp = (column - 1) % 26; letter =
    String.fromCharCode(temp + 65) + letter; column = (column - temp - 1) / 26 }]. *)
Equations? columnToLetter_loop (column : nat) (letter : string) : string
  by wf column lt :=
  columnToLetter_loop 0 letter := letter;
  columnToLetter_loop (S n) letter :=
    columnToLetter_loop ((S n - n mod 26 - 1) / 26)
      (String (ascii_of_nat (n mod 26 + 65)) letter).
Proof.
  change ((S n - n mod 26 - 1) / 26 < S n).
  apply Nat.Div0.div_lt_upper_bound. lia.
Qed.

Definition columnToLetter (column : nat) : string :=
  columnToLetter_loop column "".

Section WithHost.
Context `{Host}.

(** What [validateAndFixHeaders] does to the sheet: the columns beyond H
    are cleared, row 1 is cleared, and the headers are set in A1:H1. *)
Definition fixHeaders (g : grid) : grid :=
  let lastCol := getLastColumn g in
  let g :=
    if (8 <? lastCol)%nat
    then clearContent g 1 9 (getMaxRows g) (lastCol - 8) else g in
  let g :=
    if (0 <? getLastColumn g)%nat
    then clearContent g 1 1 1 (Nat.max (getLastColumn g) 8) else g in
  setRowValues g 1 1 (map VStr expectedHeaders).

Definition validateAndFixHeaders : M logResult :=
  tryCatch
    (spreadsheet <- openById SHEET_ID ;;
     found <- lift (getOrCreateAccessRequestSheet spreadsheet) ;;
     let '(spreadsheet, sheet) := found in
     _ <- commit SHEET_ID
            (setGridAt spreadsheet sheet (fixHeaders (gridAt spreadsheet sheet))) ;;
     ret (LogResult true "Headers validated and updated"))
    (fun error => ret (LogResult false ("Error: " ++ error))).

(** [getRecentAccessRequests(limit)], [limit] a count; [limit || 10]. *)
Definition getRecentAccessRequests (limit : nat) : M grid :=
  let limit := if (limit =? 0)%nat then 10 else limit in
  tryCatch
    (spreadsheet <- openById SHEET_ID ;;
     found <- lift (getOrCreateAccessRequestSheet spreadsheet) ;;
     let '(spreadsheet, sheet) := found in
     _ <- commit SHEET_ID spreadsheet ;;
     let g := gridAt spreadsheet sheet in
     let lastRow := getLastRow g in
     if (lastRow <=? 1)%nat then ret []
     else
       let startRow := Nat.max 2 (lastRow + 1 - limit) in
       ret (getValues g startRow 1 (lastRow - startRow + 1) 8))
    (fun error => ret []).

(** [cleanupOldRequests(keepRecords)], [keepRecords] a count;
    [keepRecords || 1000]. *)
Definition cleanupOldRequests (keepRecords : nat) : M unit :=
  let keepRecords := if (keepRecords =? 0)%nat then 1000 else keepRecords in
  tryCatch
    (spreadsheet <- openById SHEET_ID ;;
     found <- lift (getOrCreateAccessRequestSheet spreadsheet) ;;
     let '(spreadsheet, sheet) := found in
     let g := gridAt spreadsheet sheet in
     let lastRow := getLastRow g in
     if (lastRow <=? keepRecords + 1)%nat then commit SHEET_ID spreadsheet
     else
       let rowsToDelete := lastRow - keepRecords - 1 in
       commit SHEET_ID (setGridAt spreadsheet sheet (deleteRows g 2 rowsToDelete)))
    (fun error => ret tt).

(** The headers of [aggressiveFixColumnStructure]. *)
Definition aggressiveHeaders : list string :=
  ["Timestamp"; "PIN Number"; "User Email"; "Title"; "URL"; "Media Type";
   "Request Status"; "Access Link"].

(** [row.slice(0, 8)], filled with PENDING to eight cells. *)
Definition restoredRow (row : list value) : list value :=
  let restoredRow := take 8 row in
  restoredRow ++ replicate (8 - length restoredRow) (VStr "PENDING").

(** What [aggressiveFixColumnStructure] does to the content of the sheet;
    the columns it deletes beyond H hold nothing after [clear]. *)
Definition aggressiveFix (g : grid) : grid :=
  let existingData :=
    if (1 <? getLastRow g)%nat
    then getValues g 2 1 (getLastRow g - 1) (Nat.min (getLastColumn g) 8)
    else [] in
  let g := clear g in
  let g := setRowValues g 1 1 (map VStr aggressiveHeaders) in
  if (0 <? length existingData)%nat
  then setValues g 2 1 (map restoredRow existingData)
  else g.

Definition aggressiveFixColumnStructure : M logResult :=
  tryCatch
    (spreadsheet <- openById SHEET_ID ;;
     found <- lift (getOrCreateAccessRequestSheet spreadsheet) ;;
     let '(spreadsheet, sheet) := found in
     _ <- commit SHEET_ID
            (setGridAt spreadsheet sheet (aggressiveFix (gridAt spreadsheet sheet))) ;;
     ret (LogResult true "Column structure aggressively fixed and data restored"))
    (fun error => ret (LogResult false ("Error: " ++ error))).

(** The counters of the result of [autoFixTimestampFormats]; the texts of
    its details are left out. *)
Record fixResult := FixResult { fixed : nat; errors : nat }.

Definition fixedCount (now : Z) (g : grid) : nat :=
  let lastRow := getLastRow g in
  if (lastRow <=? 1)%nat then 0
  else
    let timestampValues := column0 (getValues g 2 1 (lastRow - 1) 1) in
    length (List.filter
              (fun currentValue =>
                 negb (strictEqStr currentValue
                         (detectAndFixTimestamp now currentValue)))
              timestampValues).

Definition fixAllTimestampFormats : M fixResult :=
  tryCatch
    (spreadsheet <- openById SHEET_ID ;;
     found <- lift (getOrCreateAccessRequestSheet spreadsheet) ;;
     let '(spreadsheet, sheet) := found in
     now <- getClock ;;
     let g := gridAt spreadsheet sheet in
     _ <- commit SHEET_ID
            (setGridAt spreadsheet sheet (autoFixTimestampFormats now g)) ;;
     ret (FixResult (fixedCount now g) 0))
    (fun error => ret (FixResult 0 1)).

(** The answer of [handleDataRetrieval]: [{error: ...}], or the array of
    the objects of the rows of the user.  An object is the map from its
    keys to its values. *)
Inductive retrieved :=
| Failed (error : string)
| UserRows (userRows : list (gmap string string)).

Definition emailColumns : list string :=
  ["User Email"; "userEmail"; "email"; "Email"; "user_email"].

(** The value of a cell in the object of its row. *)
Definition retrievedValue (value : value) : string :=
  match value with
  | VDate t => formatDate t getScriptTimeZone "MM/dd/yyyy hh:mm a"
  | _ => trim (toString value)
  end.

(** [rowData], filled from the first column to the last. *)
Definition rowObject (headers row : list value) : gmap string string :=
  foldl (fun rowData '(header, value) =>
           <[ trim (toString header) := retrievedValue value ]> rowData)
        ∅ (zip headers row).

Definition rowUserEmailOf (rowData : gmap string string) : string :=
  match List.find (fun k => negb (String.eqb (default "" (rowData !! k)) ""))
                  emailColumns with
  | Some k => toLowerCase (default "" (rowData !! k))
  | None => ""
  end.

Definition handleDataRetrieval (userEmail : option string) : M retrieved :=
  tryCatch
    (let userEmail := default "" userEmail in
     if String.eqb userEmail "" then ret (Failed "userEmail parameter is required")
     else
       spreadsheet <- openById SHEET_ID ;;
       match findAccessRequestSheet spreadsheet with
       | None => ret (Failed "No access request sheet found")
       | Some sheet =>
           let g := gridAt spreadsheet sheet in
           let lastRow := getLastRow g in
           let lastCol := getLastColumn g in
           if (lastRow <=? 1)%nat then ret (UserRows [])
           else
             let headers := default [] (head (getValues g 1 1 1 lastCol)) in
             let dataRows := getValues g 2 1 (lastRow - 1) lastCol in
             ret (UserRows
                    (List.filter
                       (fun rowData =>
                          String.eqb (rowUserEmailOf rowData) (toLowerCase userEmail))
                       (map (rowObject headers) dataRows)))
       end)
    (fun error => ret (Failed ("Failed to retrieve data: " ++ error))).

(** The event of a GET: [e.parameter.action] and [e.parameter.userEmail]. *)
Record getEvent := GetEvent { g_action : option string; g_userEmail : option string }.

Inductive getAnswer :=
| Cors (r : response)
| Data (d : retrieved).

Definition doGet (e : getEvent) : M getAnswer :=
  match g_action e with
  | Some action =>
      if String.eqb action "getData"
      then d <- handleDataRetrieval (g_userEmail e) ;; ret (Data d)
      else ret (Cors handleCors)
  | None => ret (Cors handleCors)
  end.

End WithHost.
End AccessTools.

(** ** The vocabulary of the properties of these functions *)

(** The column that a string of capital letters names in the A1 notation:
    A is 1, Z is 26, AA is 27. *)
Fixpoint letterToColumn_from (column : nat) (letter : string) : nat :=
  match letter with
  | EmptyString => column
  | String c rest => letterToColumn_from (column * 26 + (nat_of_ascii c - 64)) rest
  end.

Definition letterToColumn (letter : string) : nat := letterToColumn_from 0 letter.

(** The sheet with the grid [g] when [logAccessRequest] returns. *)
Definition loggedGrid `{Host} (now : Z) (rd : AccessRequests.requestData)
    (g : grid) : grid :=
  AccessRequests.autoFixTimestampFormats now
    (appendRow (AccessRequests.ensureHeaders g) (AccessRequests.rowData now rd)).

(** The platform lowers the case of the canonical headers as JavaScript
    does. *)
Definition lowersHeaders `{Host} : Prop :=
  toLowerCase (join "|" AccessRequests.expectedHeaders)
  = "timestamp|pin number|user email|title|url|request status|media type|access link".

(** A log in which the duplicate scan reads no time: no cell of column B
    below the header is truthy and parses as a date. *)
Definition timeless `{Host} (g : grid) : Prop :=
  Forall (fun row => timeRead row = None) (Legacy.lastRowsOf g).

(** Two grids hold the same cells. *)
Definition sameCells (g g' : grid) : Prop := forall r c, cell g r c = cell g' r c.

(** The worlds of the runs of these functions on the platform [Utc]. *)
Module Cases.
Import Scenario.

(** A log of three requests, with a note beyond column H. *)
Definition logSheet : grid :=
  [ map VStr AccessRequests.expectedHeaders ++ [blank; VStr "note"];
    [VStr "Friday, Jun 06, 2025 05:22 PM"; VStr "1234"; VStr "a@b.com";
     VStr "One"; VStr "https://one.example"; VStr "PENDING"; VStr "PENDING";
     VStr "PENDING"];
    [VStr "Friday, Jun 06, 2025 05:23 PM"; VStr "0000"; VStr "c@d.com";
     VStr "Two"; VStr "https://two.example"; VStr "PENDING"; VStr "PENDING";
     VStr "PENDING"];
    [VStr "Friday, Jun 06, 2025 05:24 PM"; VStr "1234"; VStr "A@B.com";
     VStr "Three"; VStr "https://three.example"; VStr "PENDING"; VStr "PENDING";
     VStr "PENDING"] ].

Definition logSheets : spreadsheet := [Sheet "AccessRequests" logSheet].

Definition logWorld : world :=
  World (<[ AccessRequests.SHEET_ID := logSheets ]>
           (<[ AccessRequests.PIN_SHEET_ID := pins ]> ∅))
        1749230543598.

(** The same log beside a PIN spreadsheet that does not open. *)
Definition logOnlyWorld : world :=
  World (<[ AccessRequests.SHEET_ID := logSheets ]> ∅) 1749230543598.

(** A log of two columns. *)
Definition narrowSheets : spreadsheet :=
  [Sheet "Logs" [[VStr "Timestamp"; VStr "URL"];
                 [VStr "Friday, Jun 06, 2025 05:22 PM"; VStr "https://one.example"]]].

Definition narrowWorld : world :=
  World (<[ AccessRequests.SHEET_ID := narrowSheets ]> ∅) 1749230543598.

Definition request (userEmail url : string) : AccessRequests.requestData :=
  AccessRequests.RequestData url "Ex" "2025-06-06T17:25:00.000Z" userEmail "1234" true.

(** A world in which no spreadsheet opens. *)
Definition nothing : world := World ∅ 1749230543598.

(** The world of pin_list.js with a spreadsheet that holds no PIN sheet. *)
Definition noPinSheetWorld : world :=
  World (<[ PinList.SHEET_ID := [Sheet "Data" []] ]> ∅) 1749230543598.

(** PIN spreadsheets whose PIN sheet holds a header and nothing below. *)
Definition headerOnly : spreadsheet := [Sheet "PINs" [[VStr "PIN"]]].

Definition headerOnlyPinList : world :=
  World (<[ PinList.SHEET_ID := headerOnly ]> ∅) 1749230543598.

Definition headerOnlyAccess : world :=
  World (<[ AccessRequests.PIN_SHEET_ID := headerOnly ]> ∅) 1749230543598.

(** The log of part_000 after one request. *)
Definition titledSheets : spreadsheet :=
  [Sheet "Sheet1"
     [[VStr "URL"; VStr "Title"; VStr "Timestamp"];
      [VStr "https://example.com"; VStr "Ex"; VStr "2025-06-06T17:22:23.000Z";
       VStr "a@b.com"; VStr "Unknown"; VStr "1234"; VStr "Success (Valid PIN)"]]].

Definition titledWorld : world :=
  World (<[ Legacy.ACCESS_SHEET_ID := titledSheets ]> (stores urlWorld))
        1749230553000.

End Cases.

(** * The properties *)

(** ** PIN validation (C1) *)

Section PinValidation.
Context `{Host}.

Lemma eqb_empty_false (s : string) : String.eqb s "" = false <-> s <> "".
Proof. apply String.eqb_neq. Qed.

(** [c || ''] is [c]. *)
Lemma orElse_same (c : string) : orElse c "" = c.
Proof.
  unfold orElse. destruct (String.eqb_spec c ""); congruence.
Qed.

Lemma PinList_scanStored_iff (inputPin : string) (pinList : list string) :
  PinList.scanStored inputPin pinList = true <->
  exists p, In p pinList /\ p <> "" /\
            (trim p = inputPin \/ toUpperCase (trim p) = toUpperCase inputPin).
Proof.
  induction pinList as [|q rest IH]; simpl.
  - split; [discriminate | intros (p & [] & _)].
  - destruct (String.eqb q "") eqn:Hq; simpl.
    + apply String.eqb_eq in Hq. rewrite IH. split.
      * intros (p & Hin & Hp); eauto.
      * intros (p & [<- | Hin] & Hne & Hp); [congruence | eauto].
    + apply String.eqb_neq in Hq.
      destruct (String.eqb (trim q) inputPin) eqn:He.
      { apply String.eqb_eq in He. split; [intros _ | reflexivity]. eauto 6. }
      destruct (String.eqb (toUpperCase (trim q)) (toUpperCase inputPin)) eqn:Hu.
      { apply String.eqb_eq in Hu. split; [intros _ | reflexivity]. eauto 6. }
      apply String.eqb_neq in He, Hu. rewrite IH. split.
      * intros (p & Hin & Hp); eauto.
      * intros (p & [<- | Hin] & Hne & Hp); [tauto | eauto].
Qed.

Lemma AccessRequests_scanStored_iff (inputPin : string) (pinList : list string) :
  AccessRequests.scanStored inputPin pinList = true <->
  exists p, In p pinList /\ p <> "" /\ trim p = inputPin.
Proof.
  induction pinList as [|q rest IH]; simpl.
  - split; [discriminate | intros (p & [] & _)].
  - destruct (String.eqb q "") eqn:Hq; simpl.
    + apply String.eqb_eq in Hq. rewrite IH. split.
      * intros (p & Hin & Hp); eauto.
      * intros (p & [<- | Hin] & Hne & Hp); [congruence | eauto].
    + apply String.eqb_neq in Hq.
      destruct (String.eqb (trim q) inputPin) eqn:He.
      { apply String.eqb_eq in He. split; [intros _ | reflexivity]. eauto 6. }
      apply String.eqb_neq in He. rewrite IH. split.
      * intros (p & Hin & Hp); eauto.
      * intros (p & [<- | Hin] & Hne & Hp); [tauto | eauto].
Qed.

Lemma Legacy_scanStored_iff (inputPin : string) (pinList : list string) :
  Legacy.scanStored inputPin pinList = true <->
  exists p, In p pinList /\ trim p <> "" /\ trim p = inputPin.
Proof.
  induction pinList as [|q rest IH]; simpl.
  - split; [discriminate | intros (p & [] & _)].
  - destruct (String.eqb (trim q) "") eqn:Hq; simpl.
    + apply String.eqb_eq in Hq. rewrite IH. split.
      * intros (p & Hin & Hp); eauto.
      * intros (p & [<- | Hin] & Hne & Hp); [congruence | eauto].
    + apply String.eqb_neq in Hq.
      destruct (String.eqb (trim q) inputPin) eqn:He.
      { apply String.eqb_eq in He. split; [intros _ | reflexivity]. eauto 6. }
      apply String.eqb_neq in He. rewrite IH. split.
      * intros (p & Hin & Hp); eauto.
      * intros (p & [<- | Hin] & Hne & Hp); [tauto | eauto].
Qed.

Lemma validatePinFromSheet_result (pin : string) (w : world) :
  exists message,
    snd (PinList.validatePinFromSheet pin w)
    = Ret (PinList.Validation
             (scanOf PinList.scanStored pin (StoredPins.ofPinList w)) message).
Proof.
  unfold PinList.validatePinFromSheet, StoredPins.ofPinList, tryCatch, bind,
    openById, commit, ret, scanOf.
  destruct (stores w !! PinList.SHEET_ID) as [ss|]; simpl; [|eauto].
  destruct (PinList.getOrCreatePinSheet ss) as [ss' [i|]]; simpl; [|eauto].
  destruct (_ <? _)%nat; simpl; [eauto|].
  destruct (PinList.scanStored _ _); simpl; eauto.
Qed.

Lemma validatePin_result (pin : string) (w : world) :
  AccessRequests.validatePin pin w
  = (w, Ret (negb (String.eqb pin "")
             && scanOf AccessRequests.scanStored pin (StoredPins.ofAccessRequests w))).
Proof.
  unfold AccessRequests.validatePin, StoredPins.ofAccessRequests, tryCatch, bind,
    openById, ret, scanOf.
  destruct (String.eqb pin ""); simpl; [reflexivity|].
  destruct (stores w !! AccessRequests.PIN_SHEET_ID) as [ss|]; simpl; [|reflexivity].
  destruct (AccessRequests.findPinSheet ss) as [i|]; simpl; [|reflexivity].
  destruct (getLastRow (gridAt ss i) <? 1)%nat; simpl; [reflexivity|].
  destruct (getLastRow (gridAt ss i) <? _)%nat; reflexivity.
Qed.

Lemma validateInline_result (pinSheetName pin : string) (w : world) :
  Legacy.validateInline pinSheetName pin w
  = (w, Ret (scanOf Legacy.scanStored pin (StoredPins.ofLegacy pinSheetName w))).
Proof.
  unfold Legacy.validateInline, StoredPins.ofLegacy, tryCatch, bind, openById, ret,
    scanOf.
  destruct (stores w !! Legacy.PIN_ACCESS_SHEET_ID) as [ss|]; simpl; [|reflexivity].
  destruct (getSheetByName ss pinSheetName) as [i|]; reflexivity.
Qed.

Lemma PinCheck_doPost_result (e : event) (data : payload) (w : world) :
  isPreflight e = false -> e_postData e = Some (Json data) ->
  PinCheck.doPost e w
  = (w, match StoredPins.ofPinCheck w with
        | Some L =>
            let isValid := Legacy.scanStored (trim (field (p_pin data) "")) L in
            Legacy.jsonOutput
              [("status", JStr (if isValid then "success" else "failure"));
               ("message", JStr (if isValid then "PIN valid"
                                 else "Invalid PIN/Password"))]
        | None =>
            Legacy.errorResponse
              (match stores w !! Legacy.PIN_ACCESS_SHEET_ID with
               | Some _ => Legacy.sheetNotFound "PINs"
               | None => openByIdError Legacy.PIN_ACCESS_SHEET_ID
               end)
        end).
Proof.
  intros Hpre Hdata.
  unfold PinCheck.doPost, Legacy.handler, StoredPins.ofPinCheck.
  rewrite Hpre, Hdata. unfold bind, openById, ret, throw; simpl.
  destruct (stores w !! Legacy.PIN_ACCESS_SHEET_ID) as [ss|]; simpl; [|reflexivity].
  destruct (getSheetByName ss "PINs") as [i|]; reflexivity.
Qed.

(** C1, as the code has it.  A candidate [c] is accepted
    - by [validatePinFromSheet] of pin_list.js exactly when a stored value
      [p] that is not empty has [trim p] equal to [trim c], as it stands or
      after [toUpperCase] of both;
    - by [validatePin] of access_requests.js exactly when [c] is not empty and
      a stored value that is not empty has [trim p] equal to [trim c];
    - by the inline validation of the two URL loggers, and by the PIN
      checker answering the body [{pin: c}] with success, exactly when a
      stored value has a [trim p] that is not empty and equal to [trim c].
    The stored values are those of the range the validator reads in the
    world. *)
Theorem C1_validators_accept_iff (c : string) (w : world) :
  (PinList.isValid <$> returned (snd (PinList.validatePinFromSheet c w)) = Some true
   <-> exists L p, StoredPins.ofPinList w = Some L /\ In p L /\ p <> "" /\
         (trim p = trim c \/ toUpperCase (trim p) = toUpperCase (trim c)))
  /\ (returned (snd (AccessRequests.validatePin c w)) = Some true
      <-> c <> "" /\
          exists L p, StoredPins.ofAccessRequests w = Some L /\ In p L /\ p <> "" /\
            trim p = trim c)
  /\ (forall pinSheetName,
        returned (snd (Legacy.validateInline pinSheetName c w)) = Some true
        <-> exists L p, StoredPins.ofLegacy pinSheetName w = Some L /\ In p L /\
              trim p <> "" /\ trim p = trim c)
  /\ (statusOf (snd (PinCheck.doPost (jsonPost (pinOnly c)) w)) = Some "success"
      <-> exists L p, StoredPins.ofPinCheck w = Some L /\ In p L /\
            trim p <> "" /\ trim p = trim c).
Proof.
  split; [|split; [|split]].
  - destruct (validatePinFromSheet_result c w) as [m ->]; simpl.
    unfold scanOf. split.
    + destruct (StoredPins.ofPinList w) as [L|]; [|discriminate].
      intros [= Hs]. apply PinList_scanStored_iff in Hs as (p & Hp); eauto.
    + intros (L & p & -> & Hp). f_equal. apply PinList_scanStored_iff; eauto.
  - rewrite validatePin_result; simpl. unfold scanOf. split.
    + intros [= Hv]. apply andb_prop in Hv as [Hc Hs]. split.
      * intros ->. discriminate.
      * destruct (StoredPins.ofAccessRequests w) as [L|]; [|discriminate].
        apply AccessRequests_scanStored_iff in Hs as (p & Hp); eauto.
    + intros (Hc & L & p & -> & Hp). f_equal. apply andb_true_intro; split.
      * apply negb_true_iff, String.eqb_neq, Hc.
      * apply AccessRequests_scanStored_iff; eauto.
  - intros pinSheetName. rewrite validateInline_result; simpl. unfold scanOf.
    split.
    + destruct (StoredPins.ofLegacy pinSheetName w) as [L|]; [|discriminate].
      intros [= Hs]. apply Legacy_scanStored_iff in Hs as (p & Hp); eauto.
    + intros (L & p & -> & Hp). f_equal. apply Legacy_scanStored_iff; eauto.
  - rewrite (PinCheck_doPost_result _ (pinOnly c)) by reflexivity.
    cbn [snd pinOnly p_pin field]. rewrite orElse_same. split.
    + destruct (StoredPins.ofPinCheck w) as [L|]; [|discriminate].
      cbv zeta. destruct (Legacy.scanStored (trim c) L) eqn:Hs; [|discriminate].
      intros _. apply Legacy_scanStored_iff in Hs as (p & Hp); eauto.
    + intros (L & p & -> & Hp). cbv zeta.
      assert (Hs : Legacy.scanStored (trim c) L = true)
        by (apply Legacy_scanStored_iff; eauto).
      rewrite Hs. reflexivity.
Qed.

End PinValidation.

(** ** Reading the cells of a grid after a write *)

Ltac bool_cases :=
  repeat match goal with
    | |- context [(?a =? ?b)%nat] => destruct (Nat.eqb_spec a b)
    | |- context [(?a <=? ?b)%nat] => destruct (Nat.leb_spec a b)
    | |- context [(?a <? ?b)%nat] => destruct (Nat.ltb_spec a b)
    end;
  cbn [andb orb negb]; try lia; try reflexivity.

Section GridLemmas.

Lemma default_padTo {A} (n : nat) (d : A) (l : list A) (i : nat) :
  default d (padTo n d l !! i) = default d (l !! i).
Proof.
  unfold padTo. destruct (decide (i < length l)) as [Hlt|Hge].
  - rewrite lookup_app_l by lia. reflexivity.
  - rewrite lookup_app_r by lia. rewrite (lookup_ge_None_2 l i) by lia. simpl.
    destruct (replicate _ _ !! _) as [x|] eqn:Hx; [|reflexivity].
    apply lookup_replicate in Hx as [-> _]. reflexivity.
Qed.

Lemma length_padTo {A} (n : nat) (d : A) (l : list A) : n <= length (padTo n d l).
Proof. unfold padTo. rewrite length_app, length_replicate. lia. Qed.

Lemma cell_0_l (g : grid) (c : nat) : cell g 0 c = blank.
Proof. reflexivity. Qed.

Lemma cell_0_r (g : grid) (r : nat) : cell g r 0 = blank.
Proof. destruct r; reflexivity. Qed.

Lemma cell_setCell (g : grid) (r c : nat) (v : value) (r' c' : nat) :
  1 <= r -> 1 <= c ->
  cell (setCell g r c v) r' c'
  = if (r =? r')%nat && (c =? c')%nat then v else cell g r' c'.
Proof.
  intros Hr Hc. destruct r as [|r]; [lia|]. destruct c as [|c]; [lia|].
  destruct r' as [|r']; [reflexivity|].
  destruct c' as [|c']; [rewrite andb_false_r; reflexivity|].
  unfold setCell, cell. lazy beta iota zeta.
  pose proof (length_padTo (S r) [] g) as Hlen.
  change (S r =? S r')%nat with (r =? r')%nat.
  change (S c =? S c')%nat with (c =? c')%nat.
  destruct (Nat.eqb_spec r r') as [<-|Hne]; lazy beta iota zeta.
  - rewrite list_lookup_insert_eq by lia. change (default [] (Some ?x)) with x.
    destruct (Nat.eqb_spec c c') as [<-|Hnc]; lazy beta iota zeta.
    + rewrite list_lookup_insert_eq; [reflexivity|].
      pose proof (length_padTo (S c) blank (default [] (padTo (S r) [] g !! r))). lia.
    + rewrite list_lookup_insert_ne by congruence.
      rewrite default_padTo. rewrite default_padTo. reflexivity.
  - rewrite list_lookup_insert_ne by congruence.
    rewrite default_padTo. reflexivity.
Qed.

Lemma cell_setRowValues (vs : list value) (g : grid) (r c r' c' : nat) :
  1 <= r -> 1 <= c ->
  cell (setRowValues g r c vs) r' c'
  = if (r =? r')%nat && (c <=? c')%nat && (c' <? c + length vs)%nat
    then default blank (vs !! (c' - c)) else cell g r' c'.
Proof.
  revert g c. induction vs as [|v vs IH]; intros g c Hr Hc;
    cbn [setRowValues length].
  - bool_cases.
  - rewrite IH by lia. rewrite cell_setCell by lia. bool_cases.
    + subst. rewrite Nat.sub_diag. reflexivity.
    + replace (c' - c) with (S (c' - S c)) by lia. reflexivity.
Qed.

Lemma cell_setColumnValues (col : list value) (g : grid) (r r' c' : nat) :
  1 <= r ->
  cell (setColumnValues g r col) r' c'
  = if (c' =? 1)%nat && (r <=? r')%nat && (r' <? r + length col)%nat
    then default blank (col !! (r' - r)) else cell g r' c'.
Proof.
  revert g r. induction col as [|v col IH]; intros g r Hr;
    cbn [setColumnValues length].
  - bool_cases.
  - rewrite IH by lia. rewrite cell_setCell by lia. bool_cases.
    + subst. rewrite Nat.sub_diag. reflexivity.
    + replace (r' - r) with (S (r' - S r)) by lia. reflexivity.
Qed.

Lemma cell_clearContent (g : grid) (r c numRows numColumns r' c' : nat) :
  cell (clearContent g r c numRows numColumns) r' c'
  = if inRange r numRows r' && inRange c numColumns c' then blank else cell g r' c'.
Proof.
  destruct r' as [|r']; [destruct (_ && _); reflexivity|].
  destruct c' as [|c']; [destruct (_ && _); reflexivity|].
  unfold clearContent, cell. rewrite list_lookup_imap.
  destruct (g !! r') as [row|]; simpl; [|destruct (_ && _); reflexivity].
  destruct (inRange r numRows (S r')); simpl; [|reflexivity].
  rewrite list_lookup_imap.
  destruct (row !! c') as [v|]; simpl; destruct (inRange c numColumns (S c')); reflexivity.
Qed.

End GridLemmas.

Section LastRow.

Lemma lastWhere_le_length {A} (p : A -> bool) (l : list A) :
  lastWhere p l <= length l.
Proof.
  induction l as [|x l IH]; simpl; [lia|].
  destruct (lastWhere p l); [destruct (p x)|]; lia.
Qed.

Lemma lastWhere_after {A} (p : A -> bool) (l : list A) (i : nat) (x : A) :
  lastWhere p l <= i -> l !! i = Some x -> p x = false.
Proof.
  revert i. induction l as [|y l IH]; intros i Hle Hx; [discriminate|].
  simpl in Hle. destruct i as [|i]; simpl in Hx.
  - injection Hx as ->. destruct (lastWhere p l); [|lia].
    destruct (p x); [lia | reflexivity].
  - apply (IH i); [|exact Hx].
    destruct (lastWhere p l); [lia|lia].
Qed.

Lemma lastWhere_at {A} (p : A -> bool) (l : list A) (n : nat) :
  lastWhere p l = S n -> exists x, l !! n = Some x /\ p x = true.
Proof.
  revert n. induction l as [|y l IH]; intros n Hn; [discriminate|].
  simpl in Hn. destruct (lastWhere p l) as [|m] eqn:Hm.
  - destruct (p y) eqn:Hy; [|discriminate]. injection Hn as <-. eauto.
  - injection Hn as <-. destruct (IH m eq_refl) as (x & Hx & Hp). eauto.
Qed.

Lemma lastWhere_unique {A} (p : A -> bool) (l : list A) (n : nat) :
  (forall i x, n <= i -> l !! i = Some x -> p x = false) ->
  (n = 0 \/ exists x, l !! (n - 1) = Some x /\ p x = true) ->
  lastWhere p l = n.
Proof.
  intros Hafter Hat.
  destruct (lastWhere p l) as [|m] eqn:Hm.
  - destruct Hat as [->|(x & Hx & Hp)]; [reflexivity|].
    destruct n as [|n]; [reflexivity|]. simpl in Hx. rewrite Nat.sub_0_r in Hx.
    rewrite (lastWhere_after p l n x) in Hp; [discriminate | lia | exact Hx].
  - destruct (lastWhere_at p l m Hm) as (y & Hy & Hpy).
    destruct (Nat.lt_trichotomy (S m) n) as [Hlt|[Heq|Hgt]]; [|exact Heq|].
    + destruct Hat as [->|(x & Hx & Hp)]; [lia|].
      rewrite (lastWhere_after p l (n - 1) x) in Hp; [discriminate | lia | exact Hx].
    + rewrite (Hafter m y) in Hpy; [discriminate | lia | exact Hy].
Qed.

Lemma lastWhere_snoc {A} (p : A -> bool) (l : list A) (x : A) :
  p x = true -> lastWhere p (l ++ [x]) = S (length l).
Proof.
  intros Hp. apply lastWhere_unique.
  - intros i y Hi Hy. apply lookup_lt_Some in Hy. rewrite length_app in Hy.
    simpl in Hy. lia.
  - right. exists x. split; [|exact Hp]. simpl. rewrite Nat.sub_0_r.
    rewrite lookup_app_r by lia. rewrite Nat.sub_diag. reflexivity.
Qed.

Lemma isBlank_true (v : value) : isBlank v = true <-> v = blank.
Proof.
  destruct v; simpl; try (split; discriminate).
  rewrite String.eqb_eq. split; [intros ->; reflexivity | intros [= ->]; reflexivity].
Qed.

Lemma rowLast_0 (row : list value) :
  rowLast row = 0 <-> forall j, default blank (row !! j) = blank.
Proof.
  split.
  - intros H0 j. destruct (row !! j) as [v|] eqn:Hv; [|reflexivity]. simpl.
    apply isBlank_true. apply negb_false_iff.
    apply (lastWhere_after (fun v => negb (isBlank v)) row j v);
      [unfold rowLast in H0; lia | exact Hv].
  - intros Hall. apply lastWhere_unique; [|left; reflexivity].
    intros i x _ Hx. specialize (Hall i). rewrite Hx in Hall. simpl in Hall.
    subst x. reflexivity.
Qed.

Lemma cell_lookup (g : grid) (r c : nat) :
  cell g (S r) (S c) = default blank (default [] (g !! r) !! c).
Proof. reflexivity. Qed.

(** Below the last row every cell is blank. *)
Lemma cell_below_lastRow (g : grid) (r c : nat) :
  getLastRow g < r -> cell g r c = blank.
Proof.
  intros Hr. destruct r as [|r]; [lia|]. destruct c as [|c]; [reflexivity|].
  rewrite cell_lookup. destruct (g !! r) as [row|] eqn:Hrow; [|reflexivity]. simpl.
  assert (H0 : rowLast row = 0).
  { apply Nat.eqb_eq, negb_false_iff.
    apply (lastWhere_after (fun row => negb (rowLast row =? 0)%nat) g r row);
      [unfold getLastRow in Hr; lia | exact Hrow]. }
  apply rowLast_0. exact H0.
Qed.

Lemma lastRow_ge (g : grid) (r c : nat) :
  cell g r c <> blank -> r <= getLastRow g.
Proof.
  intros Hne. destruct (Nat.le_gt_cases r (getLastRow g)) as [|Hgt]; [assumption|].
  exfalso. apply Hne. apply cell_below_lastRow. exact Hgt.
Qed.

(** The last row is the one row with content below which all is blank. *)
Lemma getLastRow_unique (g : grid) (n : nat) :
  (forall r c, n < r -> cell g r c = blank) ->
  (n = 0 \/ exists c, cell g n c <> blank) ->
  getLastRow g = n.
Proof.
  intros Hafter Hat. apply lastWhere_unique.
  - intros i row Hi Hrow. apply negb_false_iff, Nat.eqb_eq, rowLast_0.
    intros j. specialize (Hafter (S i) (S j) ltac:(lia)).
    rewrite cell_lookup, Hrow in Hafter. exact Hafter.
  - destruct Hat as [->|(c & Hc)]; [left; reflexivity|right].
    destruct n as [|n]; [contradiction Hc; reflexivity|].
    destruct c as [|c]; [contradiction Hc; apply cell_0_r|].
    rewrite cell_lookup in Hc. simpl. rewrite Nat.sub_0_r.
    destruct (g !! n) as [row|] eqn:Hrow; [|contradiction Hc; reflexivity].
    exists row. split; [reflexivity|].
    apply negb_true_iff, Nat.eqb_neq. intros H0. apply Hc.
    simpl. apply rowLast_0. exact H0.
Qed.

Lemma getLastRow_le_length (g : grid) : getLastRow g <= length g.
Proof. apply lastWhere_le_length. Qed.

(** Beyond the last column every cell is blank. *)
Lemma cell_beyond_lastColumn (g : grid) (r c : nat) :
  getLastColumn g < c -> cell g r c = blank.
Proof.
  intros Hc. destruct r as [|r]; [reflexivity|]. destruct c as [|c]; [lia|].
  rewrite cell_lookup. revert r. induction g as [|row g IH]; intros r; [reflexivity|].
  simpl in Hc. destruct r as [|r]; simpl.
  - destruct (row !! c) as [v|] eqn:Hv; [|reflexivity]. simpl.
    apply isBlank_true, negb_false_iff.
    apply (lastWhere_after (fun v => negb (isBlank v)) row c v);
      [unfold rowLast in Hc; lia | exact Hv].
  - apply IH. lia.
Qed.

Lemma lastColumn_ge (g : grid) (r c : nat) :
  cell g r c <> blank -> c <= getLastColumn g.
Proof.
  intros Hne. destruct (Nat.le_gt_cases c (getLastColumn g)) as [|Hgt]; [assumption|].
  exfalso. apply Hne. apply cell_beyond_lastColumn. exact Hgt.
Qed.

(** What the cells read after [appendRow]. *)
Lemma cell_appendRow (g : grid) (row : list value) (r c : nat) :
  1 <= r -> 1 <= c ->
  cell (appendRow g row) r c
  = if (r <=? getLastRow g)%nat then cell g r c
    else if (r =? S (getLastRow g))%nat then default blank (row !! (c - 1))
    else blank.
Proof.
  intros Hr Hc. destruct r as [|r]; [lia|]. destruct c as [|c]; [lia|].
  pose proof (getLastRow_le_length g) as Hlen.
  unfold appendRow. rewrite !cell_lookup.
  bool_cases.
  - rewrite lookup_app_r by (rewrite length_take; lia).
    rewrite length_take. replace (r - _) with 0 by lia. simpl.
    rewrite Nat.sub_0_r. reflexivity.
  - rewrite lookup_app_l by (rewrite length_take; lia).
    rewrite lookup_take_lt by lia. reflexivity.
  - rewrite (lookup_ge_None_2 (take (getLastRow g) g ++ [row]) r); [reflexivity|].
    rewrite length_app, length_take. simpl. lia.
Qed.

Lemma getLastRow_appendRow (g : grid) (row : list value) :
  rowLast row <> 0 -> getLastRow (appendRow g row) = S (getLastRow g).
Proof.
  intros Hrow. unfold appendRow, getLastRow at 1.
  rewrite lastWhere_snoc.
  - rewrite length_take. pose proof (getLastRow_le_length g). lia.
  - apply negb_true_iff, Nat.eqb_neq. exact Hrow.
Qed.

End LastRow.

(** ** What the URL loggers do with a request *)

Section Loggers.
Context `{Host}.

Lemma getSheetByName_from_names (ss ss' : spreadsheet) (k : nat) (name : string) :
  map getName ss = map getName ss' ->
  getSheetByName_from k ss name = getSheetByName_from k ss' name.
Proof.
  revert ss' k. induction ss as [|sh ss IH]; intros [|sh' ss'] k Hnames;
    try discriminate; [reflexivity|].
  simpl in Hnames. injection Hnames as Hn Hrest. simpl. rewrite Hn.
  destruct (String.eqb (getName sh') name); [reflexivity|]. apply IH. exact Hrest.
Qed.

Lemma names_setGridAt (ss : spreadsheet) (i : nat) (g : grid) :
  map getName (setGridAt ss i g) = map getName ss.
Proof.
  unfold setGridAt. destruct (ss !! i) as [sh|] eqn:Hi; [|reflexivity].
  apply list_eq. intros j. rewrite !list_lookup_fmap.
  destruct (decide (i = j)) as [<-|Hne].
  - rewrite list_lookup_insert_eq by (eapply lookup_lt_Some; eauto).
    rewrite Hi. reflexivity.
  - rewrite list_lookup_insert_ne by exact Hne. reflexivity.
Qed.

Lemma getSheetByName_setGridAt (ss : spreadsheet) (i : nat) (g : grid) (name : string) :
  getSheetByName (setGridAt ss i g) name = getSheetByName ss name.
Proof. apply getSheetByName_from_names, names_setGridAt. Qed.

Lemma getSheetByName_from_lt (ss : spreadsheet) (k : nat) (name : string) (i : nat) :
  getSheetByName_from k ss name = Some i -> k <= i /\ i < k + length ss.
Proof.
  revert k. induction ss as [|sh ss IH]; intros k Hi; [discriminate|].
  simpl in Hi. destruct (String.eqb (getName sh) name).
  - injection Hi as <-. simpl. lia.
  - apply IH in Hi. simpl. lia.
Qed.

Lemma getSheetByName_lt (ss : spreadsheet) (name : string) (i : nat) :
  getSheetByName ss name = Some i -> i < length ss.
Proof. intros Hi. apply getSheetByName_from_lt in Hi. lia. Qed.

Lemma gridAt_setGridAt (ss : spreadsheet) (i : nat) (g : grid) :
  i < length ss -> gridAt (setGridAt ss i g) i = g.
Proof.
  intros Hi. unfold gridAt, setGridAt.
  destruct (lookup_lt_is_Some_2 ss i Hi) as [sh Hsh]. rewrite Hsh.
  rewrite list_lookup_insert_eq by exact Hi. reflexivity.
Qed.

Lemma UrlLogger_doPost_logged (e : event) (data : payload) (w : world)
    (ss : spreadsheet) (sheet : nat) :
  isPreflight e = false ->
  e_postData e = Some (Json data) ->
  stores w !! Legacy.ACCESS_SHEET_ID = Some ss ->
  getSheetByName ss "Sheet1" = Some sheet ->
  let url := field (p_url data) "N/A" in
  let title := field (p_title data) "Untitled Page" in
  let timestamp := field (p_timestamp data) (Date_toISOString (clock w)) in
  let userEmail := field (p_userEmail data) "Unknown" in
  let userId := field (p_userId data) "Unknown" in
  let pin := field (p_pin data) "Not Provided" in
  let isValidPin := scanOf Legacy.scanStored pin (StoredPins.ofLegacy "PINs" w) in
  let g := gridAt ss sheet in
  let isDuplicate := Legacy.checkDuplicate isValidPin url (Date_parse timestamp) g in
  UrlLogger.doPost e w
  = (written w Legacy.ACCESS_SHEET_ID ss sheet
       (appendRow g [VStr url; VStr title; VStr timestamp; VStr userEmail;
                     VStr userId; VStr pin;
                     VStr (UrlLogger.statusText isValidPin isDuplicate)]),
     Legacy.respond "URL already requested within last 5 minutes."
       isValidPin isDuplicate).
Proof.
  intros Hpre Hdata Hss Hsheet. cbv zeta.
  unfold UrlLogger.doPost, Legacy.handler. rewrite Hpre, Hdata.
  unfold bind at 1. cbn [default from_option id parse ret].
  unfold bind at 1. cbn [getClock].
  unfold bind at 1. unfold openById at 1. rewrite Hss, Hsheet.
  unfold bind at 1. rewrite validateInline_result.
  unfold bind, commit, ret, written. reflexivity.
Qed.

Lemma ofLegacy_written (name : string) (w : world) (ss : spreadsheet)
    (sheet : nat) (g : grid) :
  StoredPins.ofLegacy name (written w Legacy.ACCESS_SHEET_ID ss sheet g)
  = StoredPins.ofLegacy name w.
Proof.
  unfold StoredPins.ofLegacy, written; simpl.
  rewrite lookup_insert_ne by discriminate. reflexivity.
Qed.

Lemma setGridAt_setGridAt (ss : spreadsheet) (i : nat) (g g' : grid) :
  setGridAt (setGridAt ss i g) i g' = setGridAt ss i g'.
Proof.
  unfold setGridAt. destruct (ss !! i) as [sh|] eqn:Hi.
  - rewrite list_lookup_insert_eq by (eapply lookup_lt_Some; eauto). simpl.
    rewrite list_insert_insert_eq. reflexivity.
  - rewrite Hi. reflexivity.
Qed.

Lemma written_written (w : world) (id : string) (ss : spreadsheet) (sheet : nat)
    (g g' : grid) :
  written (written w id ss sheet g) id ss sheet g' = written w id ss sheet g'.
Proof. unfold written; simpl. rewrite insert_insert_eq. reflexivity. Qed.

Lemma UrlLoggerPst_doPost_logged (e : event) (data : payload) (w : world)
    (ss : spreadsheet) (sheet : nat) (timestamp : string) :
  isPreflight e = false ->
  e_postData e = Some (Json data) ->
  stores w !! Legacy.ACCESS_SHEET_ID = Some ss ->
  getSheetByName ss "Sheet1" = Some sheet ->
  let rawTimestamp := field (p_timestamp data) (Date_toISOString (clock w)) in
  pstTimestamp rawTimestamp = Ret timestamp ->
  let url := field (p_url data) "N/A" in
  let title := field (p_title data) "Untitled Page" in
  let userEmail := field (p_userEmail data) "Unknown" in
  let pin := field (p_pin data) "Not Provided" in
  let isValidPin := scanOf Legacy.scanStored pin (StoredPins.ofLegacy "Sheet1" w) in
  let g := UrlLoggerPst.ensureHeaders (gridAt ss sheet) in
  let isDuplicate :=
    Legacy.checkDuplicate isValidPin url (Date_parse rawTimestamp) g in
  UrlLoggerPst.doPost e w
  = (written w Legacy.ACCESS_SHEET_ID ss sheet
       (appendRow g [VStr timestamp; VStr userEmail; VStr title; VStr url;
                     VStr pin;
                     VStr (UrlLoggerPst.statusText isValidPin isDuplicate)]),
     Legacy.respond "URL already requested within last 1 minute."
       isValidPin isDuplicate).
Proof.
  intros Hpre Hdata Hss Hsheet raw Hts. cbv zeta.
  unfold UrlLoggerPst.doPost, Legacy.handler. rewrite Hpre, Hdata.
  unfold bind at 1. cbn [default from_option id parse ret].
  unfold bind at 1. cbn [getClock].
  unfold bind at 1. unfold lift at 1. unfold pstTimestamp in Hts.
  change (field (p_timestamp data) (Date_toISOString (clock w))) with raw.
  destruct (Date_parse raw) as [t|] eqn:Ht.
  - injection Hts as <-.
    unfold bind at 1. unfold openById at 1. rewrite Hss, Hsheet.
    unfold bind at 1. unfold commit at 1.
    unfold bind at 1. rewrite validateInline_result.
    fold (written w Legacy.ACCESS_SHEET_ID ss sheet
            (UrlLoggerPst.ensureHeaders (gridAt ss sheet))).
    rewrite ofLegacy_written.
    unfold bind, commit, ret. cbn [stores clock written].
    rewrite insert_insert_eq. reflexivity.
  - rewrite Hts.
    unfold bind at 1. unfold openById at 1. rewrite Hss, Hsheet.
    unfold bind at 1. unfold commit at 1.
    unfold bind at 1. rewrite validateInline_result.
    fold (written w Legacy.ACCESS_SHEET_ID ss sheet
            (UrlLoggerPst.ensureHeaders (gridAt ss sheet))).
    rewrite ofLegacy_written.
    unfold bind, commit, ret. cbn [stores clock written].
    rewrite insert_insert_eq. reflexivity.
Qed.

(** [getOrCreateAccessRequestSheet] finds or creates a sheet: it does not
    throw, since a sheet named "AccessRequests" is found by its name. *)
Lemma getOrCreateAccessRequestSheet_returns (ss : spreadsheet) :
  exists ss1 sheet,
    AccessRequests.getOrCreateAccessRequestSheet ss = Ret (ss1, sheet).
Proof.
  unfold AccessRequests.getOrCreateAccessRequestSheet.
  destruct (AccessRequests.findAccessRequestSheet ss) as [i|] eqn:Hfind; [eauto|].
  unfold insertSheet, AccessRequests.PREFERRED_ACCESS_SHEET_NAME.
  destruct (getSheetByName ss "AccessRequests") as [i|] eqn:Hname; [|eauto].
  exfalso. unfold AccessRequests.findAccessRequestSheet in Hfind.
  cbn [AccessRequests.accessSheetNames List.find] in Hfind.
  rewrite Hname in Hfind.
  rewrite bool_decide_eq_true_2 in Hfind by eauto. rewrite Hname in Hfind.
  discriminate.
Qed.

Lemma logAccessRequest_result (rd : AccessRequests.requestData) (w : world)
    (ss : spreadsheet) :
  stores w !! AccessRequests.SHEET_ID = Some ss ->
  exists ss1 sheet,
    AccessRequests.getOrCreateAccessRequestSheet ss = Ret (ss1, sheet)
    /\ AccessRequests.logAccessRequest rd w
       = (written w AccessRequests.SHEET_ID ss1 sheet
            (AccessRequests.autoFixTimestampFormats (clock w)
               (appendRow (AccessRequests.ensureHeaders (gridAt ss1 sheet))
                  (AccessRequests.rowData (clock w) rd))),
          Ret (AccessRequests.LogResult true "Access request logged successfully.")).
Proof.
  intros Hss. destruct (getOrCreateAccessRequestSheet_returns ss) as (ss1 & sheet & Hget).
  exists ss1, sheet. split; [exact Hget|].
  unfold AccessRequests.logAccessRequest, tryCatch.
  unfold bind at 1. unfold openById at 1. rewrite Hss.
  unfold bind at 1. unfold lift at 1. rewrite Hget.
  unfold bind, getClock, commit, ret, written. reflexivity.
Qed.

Lemma logAccessRequest_unavailable (rd : AccessRequests.requestData) (w : world) :
  stores w !! AccessRequests.SHEET_ID = None ->
  AccessRequests.logAccessRequest rd w
  = (w, Ret (AccessRequests.LogResult false
               ("Error logging access request: "
                ++ openByIdError AccessRequests.SHEET_ID))).
Proof.
  intros Hss. unfold AccessRequests.logAccessRequest, tryCatch.
  unfold bind at 1. unfold openById at 1. rewrite Hss. reflexivity.
Qed.

End Loggers.

(** ** The duplicate loop of the URL loggers *)

Section Duplicates.
Context `{Host}.

Lemma scanRecent_iff (url : string) (currentTime : option Z) (rows : grid) :
  Legacy.scanRecent url currentTime rows = true
  <-> exists newer row older,
        rows = newer ++ row :: older
        /\ matches url currentTime row
        /\ Forall (passes currentTime) newer.
Proof.
  induction rows as [|r rows IH].
  - split; [discriminate|]. intros (newer & row & older & Heq & _).
    destruct newer; discriminate.
  - cbn [Legacy.scanRecent].
    assert (Hskip : timeRead r = None ->
              (Legacy.scanRecent url currentTime rows = true
               <-> exists newer row older,
                     r :: rows = newer ++ row :: older
                     /\ matches url currentTime row
                     /\ Forall (passes currentTime) newer)).
    { intros Hnone. rewrite IH. split.
      - intros (newer & row & older & -> & Hm & Hp).
        exists (r :: newer), row, older.
        split; [reflexivity | split; [exact Hm|]].
        constructor; [|assumption]. intros t Ht. congruence.
      - intros (newer & row & older & Heq & Hm & Hp).
        destruct newer as [|r' newer]; simpl in Heq; injection Heq as <- ->.
        + destruct Hm as (_ & t & Ht & _). congruence.
        + inversion Hp; subst. eauto 6. }
    destruct (truthy (default blank (r !! 1))) eqn:Htruthy; cbn [negb].
    2: { apply Hskip. unfold timeRead. rewrite Htruthy. reflexivity. }
    destruct (Legacy.rowTimeOf (default blank (r !! 1))) as [t|] eqn:Htime.
    2: { apply Hskip. unfold timeRead. rewrite Htruthy. exact Htime. }
    assert (Hr : timeRead r = Some t) by (unfold timeRead; rewrite Htruthy; exact Htime).
    destruct (Legacy.tooOld currentTime t) eqn:Hold.
    { split; [discriminate|]. intros (newer & row & older & Heq & Hm & Hp).
      destruct newer as [|r' newer]; simpl in Heq; injection Heq as <- ->.
      - destruct Hm as (_ & t' & Ht' & Hfresh). congruence.
      - inversion Hp as [|? ? Hpr]; subst. specialize (Hpr t Hr). congruence. }
    fold (urlCell r). destruct (strictEqStr (urlCell r) url) eqn:Hurl.
    { split; [intros _|reflexivity]. exists [], r, rows.
      split; [reflexivity | split; [|constructor]].
      split; [exact Hurl | eauto]. }
    rewrite IH. split.
    + intros (newer & row & older & -> & Hm & Hp).
      exists (r :: newer), row, older.
      split; [reflexivity | split; [exact Hm|]].
      constructor; [|assumption]. intros t' Ht'. congruence.
    + intros (newer & row & older & Heq & Hm & Hp).
      destruct newer as [|r' newer]; simpl in Heq; injection Heq as <- ->.
      * destruct Hm as (Hu & _). congruence.
      * inversion Hp; subst. eauto 6.
Qed.

Lemma checkDuplicate_iff (isValidPin : bool) (url : string)
    (currentTime : option Z) (g : grid) :
  Legacy.checkDuplicate isValidPin url currentTime g = true
  <-> isValidPin = true /\ duplicateIn url currentTime (Legacy.lastRowsOf g).
Proof.
  unfold Legacy.checkDuplicate. destruct isValidPin.
  2: { split; [discriminate | intros [? _]; discriminate]. }
  rewrite scanRecent_iff. split.
  - intros (newer & row & older & Heq & Hm & Hp). split; [reflexivity|].
    exists (rev older), row, (rev newer). split; [|split; [exact Hm|]].
    + apply (f_equal (@rev _)) in Heq. rewrite rev_involutive in Heq.
      rewrite Heq, rev_app_distr. simpl. rewrite <- app_assoc. reflexivity.
    + apply Forall_rev. exact Hp.
  - intros (_ & older & row & newer & Heq & Hm & Hp).
    exists (rev newer), row, (rev older). split; [|split; [exact Hm|]].
    + rewrite Heq, rev_app_distr. simpl. rewrite <- app_assoc. reflexivity.
    + apply Forall_rev. exact Hp.
Qed.

Lemma statusOf_respond (message : string) (isValidPin isDuplicate : bool) :
  statusOf (Legacy.respond message isValidPin isDuplicate)
  = Some (if negb isValidPin then "failure"
          else if isDuplicate then "duplicate" else "success").
Proof. destruct isValidPin, isDuplicate; reflexivity. Qed.

Lemma AccessRequests_doPost_result (e : event) (data : payload) (w : world) :
  isPreflight e = false ->
  e_postData e = Some (Json data) ->
  let pin := field (p_pin data) "" in
  let logged := AccessRequests.logAccessRequest (requestDataOf data w) w in
  AccessRequests.doPost e w
  = (fst logged,
     AccessRequests.createJsonResponse
       [("status",
         JStr (match snd logged with
               | Ret logResult =>
                   if AccessRequests.success logResult then "success" else "error"
               | Throw _ => "error"
               end));
        ("message",
         JStr (match snd logged with
               | Ret logResult => AccessRequests.message logResult
               | Throw error => "Internal server error: " ++ error
               end));
        ("pinValid", JBool (isPinValidIn pin w));
        ("pinProvided", JBool (negb (String.eqb pin "")));
        ("timestamp", JStr (AccessRequests.createReadableTimestamp (clock w)))]).
Proof.
  intros Hpre Hdata. cbv zeta.
  unfold AccessRequests.doPost. rewrite Hpre, Hdata.
  cbn [default from_option id parse].
  unfold bind at 1. cbn [ret]. unfold bind at 1. cbn [getClock].
  unfold bind at 1.
  assert (Hv : (if negb (String.eqb (field (p_pin data) "") "")
                then AccessRequests.validatePin (field (p_pin data) "")
                else ret false) w
               = (w, Ret (isPinValidIn (field (p_pin data) "") w))).
  { unfold isPinValidIn.
    destruct (negb (String.eqb (field (p_pin data) "") "")) eqn:Hpin.
    - rewrite validatePin_result. rewrite Hpin. reflexivity.
    - reflexivity. }
  rewrite Hv. unfold bind at 1. fold (requestDataOf data w).
  destruct (stores w !! AccessRequests.SHEET_ID) as [ss|] eqn:Hss.
  - destruct (logAccessRequest_result (requestDataOf data w) w ss Hss)
      as (ss1 & sheet & _ & ->).
    reflexivity.
  - rewrite logAccessRequest_unavailable by exact Hss. reflexivity.
Qed.

Lemma AccessRequests_doPost_malformed (e : event) (error : string) (w : world) :
  isPreflight e = false ->
  e_postData e = Some (Malformed error) ->
  AccessRequests.doPost e w
  = (w, AccessRequests.createJsonResponse
          [("status", JStr "error");
           ("message", JStr ("Internal server error: " ++ error));
           ("timestamp", JStr (AccessRequests.createReadableTimestamp (clock w)))]).
Proof.
  intros Hpre Hdata. unfold AccessRequests.doPost. rewrite Hpre, Hdata. reflexivity.
Qed.

Lemma AccessRequests_doPost_status (e : event) (w : world) :
  isPreflight e = false ->
  statusOf (snd (AccessRequests.doPost e w)) = Some "success"
  \/ statusOf (snd (AccessRequests.doPost e w)) = Some "error".
Proof.
  intros Hpre. destruct (e_postData e) as [[error|data]|] eqn:Hdata.
  - rewrite (AccessRequests_doPost_malformed e error w Hpre Hdata). right. reflexivity.
  - rewrite (AccessRequests_doPost_result e data w Hpre Hdata). cbn [snd].
    destruct (snd (AccessRequests.logAccessRequest (requestDataOf data w) w))
      as [[[] ?]|]; [left | right | right]; reflexivity.
  - unfold isPreflight in Hpre. rewrite Hdata in Hpre.
    rewrite orb_true_r in Hpre. discriminate.
Qed.

End Duplicates.

Section DuplicateScan.
Context `{Host}.

(** What the duplicate loop of the two URL loggers decides, by the cells
    it reads: the first cell of a row as its URL and the second as its
    time.  A submission that reaches the log is answered as a duplicate
    exactly when its PIN validated and, among the rows below the header in
    their order from the oldest to the most recent, some row matches (its
    first cell is the submitted URL and its second cell reads as a time no
    older than the 5 minutes of the cooldown) and every more recent row
    passes (its second cell reads as no time, or as one no older than the
    cooldown).  The [doPost] of access_requests.js, which logs through
    [logAccessRequest], never answers duplicate. *)
Lemma duplicate_scan_cells :
  (forall (e : event) (data : payload) (w : world) (ss : spreadsheet) (sheet : nat),
      isPreflight e = false ->
      e_postData e = Some (Json data) ->
      stores w !! Legacy.ACCESS_SHEET_ID = Some ss ->
      getSheetByName ss "Sheet1" = Some sheet ->
      statusOf (snd (UrlLogger.doPost e w)) = Some "duplicate"
      <-> scanOf Legacy.scanStored (field (p_pin data) "Not Provided")
            (StoredPins.ofLegacy "PINs" w) = true
          /\ duplicateIn (field (p_url data) "N/A")
               (Date_parse (field (p_timestamp data) (Date_toISOString (clock w))))
               (Legacy.lastRowsOf (gridAt ss sheet)))
  /\ (forall (e : event) (data : payload) (w : world) (ss : spreadsheet)
        (sheet : nat) (timestamp : string),
        isPreflight e = false ->
        e_postData e = Some (Json data) ->
        stores w !! Legacy.ACCESS_SHEET_ID = Some ss ->
        getSheetByName ss "Sheet1" = Some sheet ->
        pstTimestamp (field (p_timestamp data) (Date_toISOString (clock w)))
        = Ret timestamp ->
        statusOf (snd (UrlLoggerPst.doPost e w)) = Some "duplicate"
        <-> scanOf Legacy.scanStored (field (p_pin data) "Not Provided")
              (StoredPins.ofLegacy "Sheet1" w) = true
            /\ duplicateIn (field (p_url data) "N/A")
                 (Date_parse (field (p_timestamp data) (Date_toISOString (clock w))))
                 (Legacy.lastRowsOf (UrlLoggerPst.ensureHeaders (gridAt ss sheet))))
  /\ (forall (e : event) (w : world),
        isPreflight e = false ->
        statusOf (snd (AccessRequests.doPost e w)) <> Some "duplicate").
Proof.
  split; [|split].
  - intros e data w ss sheet Hpre Hdata Hss Hsheet.
    rewrite (UrlLogger_doPost_logged e data w ss sheet Hpre Hdata Hss Hsheet).
    cbn [snd]. rewrite statusOf_respond, <- checkDuplicate_iff.
    destruct (scanOf _ _ _); cbn [negb].
    + destruct (Legacy.checkDuplicate _ _ _ _); split; congruence.
    + split; [discriminate | intros Hd; discriminate Hd].
  - intros e data w ss sheet timestamp Hpre Hdata Hss Hsheet Hts.
    rewrite (UrlLoggerPst_doPost_logged e data w ss sheet timestamp
               Hpre Hdata Hss Hsheet Hts).
    cbn [snd]. rewrite statusOf_respond, <- checkDuplicate_iff.
    destruct (scanOf _ _ _); cbn [negb].
    + destruct (Legacy.checkDuplicate _ _ _ _); split; congruence.
    + split; [discriminate | intros Hd; discriminate Hd].
  - intros e w Hpre.
    destruct (AccessRequests_doPost_status e w Hpre) as [-> | ->]; discriminate.
Qed.

End DuplicateScan.

(** ** Strings in the readable timestamp format *)

Section Readable.
Local Open Scope string_scope.

Lemma append_String (c : ascii) (a b : string) :
  String c a ++ b = String c (a ++ b).
Proof. reflexivity. Qed.

Lemma substring_all (s : string) : substring 0 (String.length s) s = s.
Proof. induction s as [|c s IH]; simpl; [reflexivity | f_equal; exact IH]. Qed.

Lemma prefix_app (p s : string) :
  String.prefix p s = true ->
  s = p ++ substring (String.length p) (String.length s - String.length p) s.
Proof.
  revert s. induction p as [|a p IH]; intros s Hp.
  - simpl. rewrite Nat.sub_0_r, substring_all. reflexivity.
  - destruct s as [|b s]; [discriminate|]. simpl in Hp.
    destruct (ascii_dec a b) as [->|]; [|discriminate].
    rewrite append_String. simpl. f_equal. apply IH. exact Hp.
Qed.

Lemma lit_app (p s r : string) : AccessRequests.lit p s = Some r -> s = p ++ r.
Proof.
  unfold AccessRequests.lit. destruct (String.prefix p s) eqn:Hp; [|discriminate].
  intros [= <-]. apply prefix_app. exact Hp.
Qed.

Lemma oneOf_app (alts : list string) (s r : string) :
  AccessRequests.oneOf alts s = Some r -> exists a, In a alts /\ s = a ++ r.
Proof.
  induction alts as [|a alts IH]; [discriminate|]. simpl.
  destruct (AccessRequests.lit a s) as [r'|] eqn:Hlit.
  - intros [= <-]. exists a. split; [left; reflexivity | apply lit_app; exact Hlit].
  - intros Hr. destruct (IH Hr) as (b & Hb & Hs). eauto.
Qed.

Lemma digitsN_app (n : nat) (s r : string) :
  AccessRequests.digitsN n s = Some r -> exists d, s = d ++ r.
Proof.
  revert s. induction n as [|n IH]; intros s; simpl.
  - intros [= <-]. exists "". reflexivity.
  - destruct s as [|c s]; [discriminate|]. destruct (isDigit c); [|discriminate].
    intros Hr. destruct (IH s Hr) as (d & ->). exists (String c d). reflexivity.
Qed.

Lemma digits1or2_app (s r : string) :
  AccessRequests.digits1or2 s = Some r -> exists d, s = d ++ r.
Proof.
  unfold AccessRequests.digits1or2.
  destruct (AccessRequests.digitsN 2 s) eqn:H2.
  - intros [= <-]. eapply digitsN_app; eauto.
  - apply digitsN_app.
Qed.

Lemma solid_app (x y : string) : solid y -> solid (x ++ y).
Proof.
  intros [Hfix Hne]. induction x as [|c x [IHfix IHne]]; [split; assumption|].
  rewrite append_String. split; [|discriminate]. simpl. rewrite IHfix.
  destruct (x ++ y) eqn:Hxy; [contradiction IHne; reflexivity | reflexivity].
Qed.

Lemma readable_solid (s : string) :
  AccessRequests.isReadableTimestampFormat s = true -> solid s.
Proof.
  unfold AccessRequests.isReadableTimestampFormat, AccessRequests.fullMatch.
  destruct (AccessRequests.run _ s) as [r|] eqn:Hrun; [|discriminate].
  intros Hr. apply String.eqb_eq in Hr. subst r.
  cbn [AccessRequests.run] in Hrun.
  repeat match type of Hrun with
         | match ?step ?x with _ => _ end = _ =>
             let r := fresh "r" in
             let Hs := fresh "Hs" in
             destruct (step x) as [r|] eqn:Hs; [|discriminate Hrun]
         end.
  injection Hrun as Hend.
  apply oneOf_app in Hs11 as (ap & Hap & ->).
  apply lit_app in Hs10 as ->. apply digitsN_app in Hs9 as (? & ->).
  apply lit_app in Hs8 as ->. apply digits1or2_app in Hs7 as (? & ->).
  apply lit_app in Hs6 as ->. apply digitsN_app in Hs5 as (? & ->).
  apply lit_app in Hs4 as ->. apply digitsN_app in Hs3 as (? & ->).
  apply lit_app in Hs2 as ->. apply oneOf_app in Hs1 as (? & _ & ->).
  apply lit_app in Hs0 as ->. apply oneOf_app in Hs as (? & _ & ->).
  subst r11. do 12 apply solid_app.
  destruct Hap as [<-|[<-|[]]]; vm_compute; (split; [reflexivity | discriminate]).
Qed.

Lemma readable_trimStart (s : string) :
  AccessRequests.isReadableTimestampFormat s = true -> trimStart s = s.
Proof.
  unfold AccessRequests.isReadableTimestampFormat, AccessRequests.fullMatch.
  destruct (AccessRequests.run _ s) as [r|] eqn:Hrun; [|discriminate].
  intros _. cbn [AccessRequests.run] in Hrun.
  destruct (AccessRequests.oneOf AccessRequests.weekdays s) as [r0|] eqn:Hs;
    [|discriminate Hrun].
  apply oneOf_app in Hs as (wd & Hwd & ->).
  repeat (destruct Hwd as [<-|Hwd]; [reflexivity|]). destruct Hwd.
Qed.

(** A string in the readable format carries no white space around it. *)
Lemma readable_trim (s : string) :
  AccessRequests.isReadableTimestampFormat s = true -> trim s = s /\ s <> "".
Proof.
  intros Hs. unfold trim. rewrite (readable_trimStart s Hs).
  exact (readable_solid s Hs).
Qed.

End Readable.

(** ** The access log after a submission (C5, C6, C9) *)

Section AccessLog.
Context `{Host}.

Lemma column0_getValues (g : grid) (r c n : nat) :
  column0 (getValues g r c n 1) = map (fun i => cell g (r + i) c) (seq 0 n).
Proof.
  unfold column0, getValues. rewrite map_map. apply map_ext. intros i.
  simpl. rewrite Nat.add_0_r. reflexivity.
Qed.

(** The timestamp repair rewrites column A below the header, cell by
    cell, and nothing else. *)
Lemma cell_autoFixTimestampFormats (now : Z) (g : grid) (r c : nat) :
  cell (AccessRequests.autoFixTimestampFormats now g) r c
  = if (c =? 1)%nat && (2 <=? r)%nat && (r <=? getLastRow g)%nat
    then AccessRequests.fixedCell now (cell g r 1)
    else cell g r c.
Proof.
  unfold AccessRequests.autoFixTimestampFormats.
  destruct (Nat.leb_spec (getLastRow g) 1) as [Hle|Hgt].
  { bool_cases. }
  rewrite column0_getValues.
  destruct (Nat.eqb_spec c 1) as [->|Hc]; cbn [andb].
  2: { destruct (existsb _ _); [|reflexivity].
       rewrite cell_setColumnValues by lia. bool_cases. }
  destruct (Nat.leb_spec 2 r) as [Hr2|Hr2]; cbn [andb].
  2: { destruct (existsb _ _); [|reflexivity].
       rewrite cell_setColumnValues by lia. bool_cases. }
  destruct (Nat.leb_spec r (getLastRow g)) as [Hrl|Hrl].
  2: { destruct (existsb _ _); [|reflexivity].
       rewrite cell_setColumnValues by lia. rewrite !length_map, length_seq.
       bool_cases. }
  assert (Hin : In (cell g r 1)
                  (map (fun i => cell g (2 + i) 1) (seq 0 (getLastRow g - 1)))).
  { apply in_map_iff. exists (r - 2). split; [f_equal; lia|].
    apply in_seq. lia. }
  destruct (existsb _ _) eqn:Hex.
  - rewrite cell_setColumnValues by lia. rewrite !length_map, length_seq.
    bool_cases. rewrite list_lookup_fmap, list_lookup_fmap.
    rewrite lookup_seq_lt by lia.
    replace (cell g r 1) with (cell g (2 + (0 + (r - 2))) 1) by (f_equal; lia).
    reflexivity.
  - unfold AccessRequests.fixedCell.
    destruct (strictEqStr (cell g r 1) _) eqn:Heq; [reflexivity|].
    assert (Hcontra : existsb
              (fun currentValue =>
                 negb (strictEqStr currentValue
                         (AccessRequests.detectAndFixTimestamp now currentValue)))
              (map (fun i => cell g (2 + i) 1) (seq 0 (getLastRow g - 1))) = true).
    { apply existsb_exists. exists (cell g r 1). split; [exact Hin|].
      rewrite Heq. reflexivity. }
    congruence.
Qed.

Lemma getLastRow_autoFixTimestampFormats (now : Z) (g : grid) (c : nat) :
  c <> 1 -> cell g (getLastRow g) c <> blank ->
  getLastRow (AccessRequests.autoFixTimestampFormats now g) = getLastRow g.
Proof.
  intros Hc Hcell. apply getLastRow_unique.
  - intros r c' Hr. rewrite cell_autoFixTimestampFormats.
    bool_cases; apply cell_below_lastRow; exact Hr.
  - right. exists c. rewrite cell_autoFixTimestampFormats.
    destruct (Nat.eqb_spec c 1); [contradiction|]. exact Hcell.
Qed.

Lemma cell_beyond_length (g : grid) (r c : nat) : length g < r -> cell g r c = blank.
Proof.
  intros Hr. apply cell_below_lastRow. pose proof (getLastRow_le_length g). lia.
Qed.

Lemma strictEqStr_true (v : value) (s : string) :
  strictEqStr v s = true <-> v = VStr s.
Proof.
  destruct v; simpl; try (split; discriminate).
  rewrite String.eqb_eq. split; [intros ->; reflexivity | intros [= ->]; reflexivity].
Qed.

Lemma ensureHeaders_row1 (g : grid) :
  getValues (AccessRequests.ensureHeaders g) 1 1 1 8 = headerRow.
Proof.
  unfold AccessRequests.ensureHeaders.
  destruct (AccessRequests.headersNeedUpdate g) eqn:Hneed.
  - unfold getValues. cbn [seq map Nat.add].
    rewrite !cell_setRowValues by lia. reflexivity.
  - unfold AccessRequests.headersNeedUpdate in Hneed.
    apply orb_false_elim in Hneed as [Hneed Hwide].
    apply orb_false_elim in Hneed as [Hlen Hsame].
    apply negb_false_iff, Nat.eqb_eq in Hlen.
    destruct ((1 <=? getLastRow g)%nat && (0 <? getLastColumn g)%nat);
      [|discriminate Hlen].
    unfold getValues in Hlen, Hsame. cbn [seq map head default from_option id] in Hlen, Hsame.
    rewrite length_map, length_seq in Hlen. cbn [length AccessRequests.expectedHeaders] in Hlen.
    rewrite Hlen in Hsame. cbn [seq map zip zip_with existsb AccessRequests.expectedHeaders] in Hsame.
    unfold getValues, headerRow. cbn [seq map AccessRequests.expectedHeaders].
    repeat (apply orb_false_elim in Hsame as [Hx Hsame];
            apply negb_false_iff, strictEqStr_true in Hx; rewrite Hx; clear Hx).
    reflexivity.
Qed.

Lemma ensureHeaders_beyond (g : grid) (r c : nat) :
  8 < c -> cell (AccessRequests.ensureHeaders g) r c = blank.
Proof.
  intros Hc. unfold AccessRequests.ensureHeaders.
  destruct (AccessRequests.headersNeedUpdate g) eqn:Hneed.
  - rewrite cell_setRowValues by lia.
    cbn [length map AccessRequests.expectedHeaders].
    replace ((1 =? r)%nat && (1 <=? c)%nat && (c <? 1 + 8)%nat) with false
      by (bool_cases).
    assert (Hfirst : forall g', (forall r', cell g' r' c = blank) ->
              cell (if (0 <? getLastColumn g')%nat
                    then clearContent g' 1 1 1 (Nat.max (getLastColumn g') 8)
                    else g') r c = blank).
    { intros g' Hg'. destruct (0 <? getLastColumn g')%nat; [|apply Hg'].
      rewrite cell_clearContent. destruct (_ && _); [reflexivity | apply Hg']. }
    apply Hfirst. intros r'.
    destruct (Nat.ltb_spec 8 (getLastColumn g)) as [Hwide|Hnarrow].
    + rewrite cell_clearContent. unfold inRange, getMaxRows.
      destruct (Nat.le_gt_cases c (getLastColumn g)) as [Hin|Hout].
      * destruct (Nat.le_gt_cases r' (length g)) as [Hrow|Hrow].
        -- destruct r' as [|r']; [bool_cases|]. bool_cases.
        -- destruct (_ && _); [reflexivity | apply cell_beyond_length; exact Hrow].
      * destruct (_ && _); [reflexivity | apply cell_beyond_lastColumn; exact Hout].
    + apply cell_beyond_lastColumn. lia.
  - unfold AccessRequests.headersNeedUpdate in Hneed.
    apply orb_false_elim in Hneed as [_ Hwide].
    apply Nat.ltb_ge in Hwide. apply cell_beyond_lastColumn. lia.
Qed.

Lemma ensureHeaders_below (g : grid) (r c : nat) :
  2 <= r -> c <= 8 -> cell (AccessRequests.ensureHeaders g) r c = cell g r c.
Proof.
  intros Hr Hc. unfold AccessRequests.ensureHeaders.
  destruct (AccessRequests.headersNeedUpdate g); [|reflexivity].
  rewrite cell_setRowValues by lia.
  replace ((1 =? r)%nat) with false by bool_cases. cbn [andb].
  assert (Hfirst : forall g',
            cell (if (0 <? getLastColumn g')%nat
                  then clearContent g' 1 1 1 (Nat.max (getLastColumn g') 8)
                  else g') r c = cell g' r c).
  { intros g'. destruct (0 <? getLastColumn g')%nat; [|reflexivity].
    rewrite cell_clearContent. unfold inRange. bool_cases. }
  rewrite Hfirst. destruct (8 <? getLastColumn g)%nat; [|reflexivity].
  rewrite cell_clearContent. unfold inRange. bool_cases.
Qed.

Lemma getValues_lookup (g : grid) (r c numRows numColumns i j : nat) :
  i < numRows -> j < numColumns ->
  default blank (default [] (getValues g r c numRows numColumns !! i) !! j)
  = cell g (r + i) (c + j).
Proof.
  intros Hi Hj. unfold getValues.
  rewrite list_lookup_fmap, lookup_seq_lt by exact Hi. cbn [fmap option_fmap option_map default from_option id].
  rewrite list_lookup_fmap, lookup_seq_lt by exact Hj. reflexivity.
Qed.

Lemma ensureHeaders_lastRow (g : grid) : 1 <= getLastRow (AccessRequests.ensureHeaders g).
Proof.
  apply (lastRow_ge _ 1 1).
  rewrite <- (getValues_lookup _ 1 1 1 8 0 0) by lia.
  rewrite ensureHeaders_row1. discriminate.
Qed.

Lemma detectAndFixTimestamp_readable (now : Z) (s : string) :
  AccessRequests.isReadableTimestampFormat s = true ->
  AccessRequests.detectAndFixTimestamp now (VStr s) = s.
Proof.
  intros Hs. destruct (readable_trim s Hs) as [Htrim Hne].
  unfold AccessRequests.detectAndFixTimestamp. cbn [truthy toString].
  rewrite (proj2 (String.eqb_neq s "") Hne). cbn [negb].
  rewrite Htrim, Hs. reflexivity.
Qed.

(** The clock is read for a falsy value only. *)
Lemma detectAndFixTimestamp_clock (now now' : Z) (v : value) :
  truthy v = true ->
  AccessRequests.detectAndFixTimestamp now' v
  = AccessRequests.detectAndFixTimestamp now v.
Proof.
  intros Hv. unfold AccessRequests.detectAndFixTimestamp. rewrite Hv.
  reflexivity.
Qed.

Lemma trimStart_head (s : string) :
  match trimStart s with
  | String c _ => isWhiteSpace c = false
  | EmptyString => True
  end.
Proof.
  induction s as [|c s IH]; [exact I|]. cbn [trimStart].
  destruct (isWhiteSpace c) eqn:Hc; [exact IH | exact Hc].
Qed.

Lemma trimEnd_trimEnd (s : string) : trimEnd (trimEnd s) = trimEnd s.
Proof.
  induction s as [|c s IH]; [reflexivity|]. cbn [trimEnd].
  destruct (trimEnd s) as [|d t] eqn:Ht.
  - destruct (isWhiteSpace c) eqn:Hc; [reflexivity|].
    cbn [trimEnd]. rewrite Hc. reflexivity.
  - cbn [trimEnd]. cbn [trimEnd] in IH.
    destruct (trimEnd t) as [|d' t'] eqn:Ht'.
    + destruct (isWhiteSpace d); [discriminate IH|].
      injection IH as <-. reflexivity.
    + rewrite IH. reflexivity.
Qed.

(** [trim] leaves a trimmed string as it is. *)
Lemma trim_trim (s : string) : trim (trim s) = trim s.
Proof.
  unfold trim. pose proof (trimStart_head s) as Hhead.
  destruct (trimStart s) as [|c x]; [reflexivity|].
  assert (Hstart : trimStart (trimEnd (String c x)) = trimEnd (String c x)).
  { cbn [trimEnd]. destruct (trimEnd x); rewrite ?Hhead; cbn [trimStart];
      rewrite Hhead; reflexivity. }
  rewrite Hstart. apply trimEnd_trimEnd.
Qed.

(** [detectAndFixTimestamp] by the date it reads. *)
Lemma detectAndFixTimestamp_dateOf (now : Z) (v : value) :
  AccessRequests.detectAndFixTimestamp now v
  = if negb (truthy v) then AccessRequests.createReadableTimestamp now
    else
      let stringValue := trim (toString v) in
      if AccessRequests.isReadableTimestampFormat stringValue then stringValue
      else match dateOf v with
           | None => stringValue
           | Some t => formatDate t getScriptTimeZone AccessRequests.readableFormat
           end.
Proof. reflexivity. Qed.

(** A string that does not read as a number above 10^9, before and after
    the trim, is read again as it was read: the test on the length of the
    text is not reached. *)
Lemma dateOf_reread (s : string) :
  readsAbove s = false -> readsAbove (trim s) = false ->
  dateOf (VStr (trim s)) = dateOf (VStr s).
Proof.
  unfold readsAbove, dateOf. cbn [toString AccessRequests.toNumber].
  rewrite trim_trim. intros Hs Htrim.
  destruct (AccessRequests.isIso8601 (trim s)); [reflexivity|].
  destruct (Number_ofString s) as [n|], (Number_ofString (trim s)) as [n'|];
    rewrite ?Hs, ?Htrim; reflexivity.
Qed.

Lemma fixedCell_VStr (now : Z) (s : string) :
  AccessRequests.fixedCell now (VStr s)
  = VStr (AccessRequests.detectAndFixTimestamp now (VStr s)).
Proof.
  unfold AccessRequests.fixedCell.
  destruct (strictEqStr _ _) eqn:Heq; [|reflexivity].
  apply strictEqStr_true in Heq. exact Heq.
Qed.

Lemma length_setGridAt (ss : spreadsheet) (i : nat) (g : grid) :
  length (setGridAt ss i g) = length ss.
Proof.
  unfold setGridAt. destruct (ss !! i); [apply length_insert | reflexivity].
Qed.

Lemma find_positions_lt (p : nat -> bool) (ss : spreadsheet) (i : nat) :
  List.find p (seq 0 (length ss)) = Some i -> i < length ss.
Proof. intros Hi. apply find_some in Hi as [Hin _]. apply in_seq in Hin. lia. Qed.

Lemma findAccessRequestSheet_lt (ss : spreadsheet) (i : nat) :
  AccessRequests.findAccessRequestSheet ss = Some i -> i < length ss.
Proof.
  unfold AccessRequests.findAccessRequestSheet, AccessRequests.positions.
  destruct (List.find _ AccessRequests.accessSheetNames) as [name|].
  { apply getSheetByName_lt. }
  destruct (List.find _ (seq 0 (length ss))) as [j|] eqn:Hj.
  { intros [= <-]. eapply find_positions_lt; eauto. }
  apply find_positions_lt.
Qed.

Lemma getOrCreateAccessRequestSheet_lt (ss ss1 : spreadsheet) (sheet : nat) :
  AccessRequests.getOrCreateAccessRequestSheet ss = Ret (ss1, sheet) ->
  sheet < length ss1.
Proof.
  unfold AccessRequests.getOrCreateAccessRequestSheet.
  destruct (AccessRequests.findAccessRequestSheet ss) as [i|] eqn:Hfind.
  - intros [= <- <-]. apply findAccessRequestSheet_lt. exact Hfind.
  - unfold insertSheet. destruct (getSheetByName ss _); [discriminate|].
    pose proof (length_setGridAt (ss ++ [Sheet AccessRequests.PREFERRED_ACCESS_SHEET_NAME []])
                  (length ss)
                  (setRowValues
                     (gridAt (ss ++ [Sheet AccessRequests.PREFERRED_ACCESS_SHEET_NAME []])
                        (length ss)) 1 1 (map VStr AccessRequests.expectedHeaders)))
      as Hlen.
    set (created := setGridAt _ _ _) in *. clearbody created.
    intros [= <- <-]. rewrite Hlen, length_app. simpl. lia.
Qed.

(** The log after [logAccessRequest]: the sheet the writer resolved, its
    grid after the header step, and its grid when the writer returns. *)
Lemma logAccessRequest_log (rd : AccessRequests.requestData) (w : world)
    (ss : spreadsheet) :
  stores w !! AccessRequests.SHEET_ID = Some ss ->
  exists ss1 sheet ss',
    AccessRequests.getOrCreateAccessRequestSheet ss = Ret (ss1, sheet)
    /\ stores (fst (AccessRequests.logAccessRequest rd w))
         !! AccessRequests.SHEET_ID = Some ss'
    /\ gridAt ss' sheet
       = AccessRequests.autoFixTimestampFormats (clock w)
           (appendRow (AccessRequests.ensureHeaders (gridAt ss1 sheet))
              (AccessRequests.rowData (clock w) rd)).
Proof.
  intros Hss.
  destruct (logAccessRequest_result rd w ss Hss) as (ss1 & sheet & Hget & ->).
  exists ss1, sheet. eexists. split; [exact Hget|]. cbn [fst written stores].
  split; [apply lookup_insert_eq|].
  apply gridAt_setGridAt. eapply getOrCreateAccessRequestSheet_lt; eauto.
Qed.

Lemma rowLast_rowData (now : Z) (rd : AccessRequests.requestData) :
  rowLast (AccessRequests.rowData now rd) <> 0.
Proof.
  unfold AccessRequests.rowData, rowLast. cbn [lastWhere isBlank String.eqb negb].
  repeat match goal with |- context [lastWhere ?p ?l] => destruct (lastWhere p l) end;
    repeat match goal with |- context [if ?b then _ else _] => destruct b end;
    discriminate.
Qed.

(** The cells of the log when [logAccessRequest] returns, by the cells
    of the grid [g] after the header step. *)
Lemma cell_logged (now : Z) (rd : AccessRequests.requestData) (g : grid) (r c : nat) :
  1 <= getLastRow g -> 1 <= r -> 1 <= c ->
  cell (AccessRequests.autoFixTimestampFormats now
          (appendRow g (AccessRequests.rowData now rd))) r c
  = if (c =? 1)%nat && (2 <=? r)%nat && (r <=? S (getLastRow g))%nat
    then AccessRequests.fixedCell now
           (if (r <=? getLastRow g)%nat then cell g r 1
            else default blank (AccessRequests.rowData now rd !! 0))
    else if (r <=? getLastRow g)%nat then cell g r c
    else if (r =? S (getLastRow g))%nat
         then default blank (AccessRequests.rowData now rd !! (c - 1))
         else blank.
Proof.
  intros Hg Hr Hc. rewrite cell_autoFixTimestampFormats.
  rewrite getLastRow_appendRow by apply rowLast_rowData.
  rewrite !cell_appendRow by lia. bool_cases.
Qed.

Lemma getLastRow_logged (now : Z) (rd : AccessRequests.requestData) (g : grid) :
  1 <= getLastRow g ->
  getLastRow (AccessRequests.autoFixTimestampFormats now
                (appendRow g (AccessRequests.rowData now rd)))
  = S (getLastRow g).
Proof.
  intros Hg. rewrite (getLastRow_autoFixTimestampFormats now _ 6).
  - apply getLastRow_appendRow, rowLast_rowData.
  - discriminate.
  - rewrite getLastRow_appendRow by apply rowLast_rowData.
    rewrite cell_appendRow by lia. bool_cases. discriminate.
Qed.

Lemma cell_logged_last (now : Z) (rd : AccessRequests.requestData) (g : grid) (c : nat) :
  1 <= getLastRow g -> 1 <= c ->
  cell (AccessRequests.autoFixTimestampFormats now
          (appendRow g (AccessRequests.rowData now rd))) (S (getLastRow g)) c
  = if (c =? 1)%nat
    then AccessRequests.fixedCell now
           (default blank (AccessRequests.rowData now rd !! 0))
    else default blank (AccessRequests.rowData now rd !! (c - 1)).
Proof. intros Hg Hc. rewrite cell_logged by lia. bool_cases. Qed.

Lemma getValues_row (g : grid) (r n : nat) :
  getValues g r 1 1 n = [map (fun j => cell g r (S j)) (seq 0 n)].
Proof. unfold getValues. cbn [seq map]. rewrite Nat.add_0_r. reflexivity. Qed.

Lemma rowLast_pos (row : list value) (j : nat) (v : value) :
  row !! j = Some v -> v <> blank -> rowLast row <> 0.
Proof.
  intros Hj Hv H0. apply Hv. pose proof (proj1 (rowLast_0 row) H0 j) as Hb.
  rewrite Hj in Hb. exact Hb.
Qed.

(** A row of plain cells reads back as it was appended. *)
Lemma getValues_appendRow (g : grid) (row : list value) :
  getValues (appendRow g row) (S (getLastRow g)) 1 1 (length row) = [row].
Proof.
  unfold getValues. cbn [seq map]. f_equal.
  apply list_eq. intros j. rewrite list_lookup_fmap.
  destruct (decide (j < length row)) as [Hlt|Hge].
  - rewrite lookup_seq_lt by exact Hlt. cbn [fmap option_fmap option_map].
    rewrite cell_appendRow by lia. bool_cases.
    replace (1 + (0 + j) - 1) with j by lia.
    destruct (lookup_lt_is_Some_2 row j Hlt) as [v ->]. reflexivity.
  - rewrite lookup_seq_ge by lia. rewrite lookup_ge_None_2 by lia. reflexivity.
Qed.

Lemma cell_appendRow_above (g : grid) (row : list value) (r c : nat) :
  1 <= r <= getLastRow g -> 1 <= c -> cell (appendRow g row) r c = cell g r c.
Proof. intros Hr Hc. rewrite cell_appendRow by lia. bool_cases. Qed.

End AccessLog.

Ltac read_appended :=
  match goal with
  | |- getValues (appendRow ?g ?row) _ _ _ _ = _ => exact (getValues_appendRow g row)
  end.

Section AccessLogClaims.
Context `{Host}.

(** C9.  A POST that reaches the logging step appends one row, whatever
    the outcome: in the two URL loggers the sheet after the request is the
    sheet (after the header step of the second logger) with one row
    appended below its last row, for a failure, a duplicate and a success
    alike; [doPost] of access_requests.js appends its one row through
    [logAccessRequest] whether or not the PIN validated. *)
Theorem C9_logged_post_appends_one_row :
  (forall (e : event) (data : payload) (w : world) (ss : spreadsheet) (sheet : nat),
      isPreflight e = false -> e_postData e = Some (Json data) ->
      stores w !! Legacy.ACCESS_SHEET_ID = Some ss ->
      getSheetByName ss "Sheet1" = Some sheet ->
      let g := gridAt ss sheet in
      exists row status,
        stores (fst (UrlLogger.doPost e w)) !! Legacy.ACCESS_SHEET_ID
        = Some (setGridAt ss sheet (appendRow g row))
        /\ getLastRow (appendRow g row) = S (getLastRow g)
        /\ (forall r c, 1 <= r <= getLastRow g -> 1 <= c ->
              cell (appendRow g row) r c = cell g r c)
        /\ statusOf (snd (UrlLogger.doPost e w)) = Some status
        /\ In status ["failure"; "duplicate"; "success"])
  /\ (forall (e : event) (data : payload) (w : world) (ss : spreadsheet)
        (sheet : nat) (timestamp : string),
        isPreflight e = false -> e_postData e = Some (Json data) ->
        stores w !! Legacy.ACCESS_SHEET_ID = Some ss ->
        getSheetByName ss "Sheet1" = Some sheet ->
        pstTimestamp (field (p_timestamp data) (Date_toISOString (clock w)))
        = Ret timestamp ->
        let g := UrlLoggerPst.ensureHeaders (gridAt ss sheet) in
        exists row status,
          stores (fst (UrlLoggerPst.doPost e w)) !! Legacy.ACCESS_SHEET_ID
          = Some (setGridAt ss sheet (appendRow g row))
          /\ getLastRow (appendRow g row) = S (getLastRow g)
          /\ (forall r c, 1 <= r <= getLastRow g -> 1 <= c ->
                cell (appendRow g row) r c = cell g r c)
          /\ statusOf (snd (UrlLoggerPst.doPost e w)) = Some status
          /\ In status ["failure"; "duplicate"; "success"])
  /\ (forall (e : event) (data : payload) (w : world) (ss : spreadsheet),
        isPreflight e = false -> e_postData e = Some (Json data) ->
        stores w !! AccessRequests.SHEET_ID = Some ss ->
        exists ss1 sheet ss',
          AccessRequests.getOrCreateAccessRequestSheet ss = Ret (ss1, sheet)
          /\ stores (fst (AccessRequests.doPost e w)) !! AccessRequests.SHEET_ID
             = Some ss'
          /\ let g := AccessRequests.ensureHeaders (gridAt ss1 sheet) in
             getLastRow (gridAt ss' sheet) = S (getLastRow g)
             /\ (forall r c, 1 <= r <= getLastRow g -> 2 <= c ->
                   cell (gridAt ss' sheet) r c = cell g r c)
             /\ getValues (gridAt ss' sheet) (S (getLastRow g)) 5 1 1
                = [[VStr (field (p_url data) "")]]).
Proof.
  split; [|split].
  - intros e data w ss sheet Hpre Hdata Hss Hsheet g.
    rewrite (UrlLogger_doPost_logged e data w ss sheet Hpre Hdata Hss Hsheet).
    cbn [fst snd written stores]. eexists _, _.
    split; [apply lookup_insert_eq|].
    split; [|split; [intros r c; apply cell_appendRow_above|]].
    + apply getLastRow_appendRow.
      eapply (rowLast_pos _ 6); [reflexivity|].
      unfold UrlLogger.statusText.
      repeat match goal with |- context [if ?b then _ else _] => destruct b end;
        discriminate.
    + rewrite statusOf_respond. split; [reflexivity|].
      repeat match goal with |- context [if ?b then _ else _] => destruct b end;
        simpl; tauto.
  - intros e data w ss sheet timestamp Hpre Hdata Hss Hsheet Hts g.
    rewrite (UrlLoggerPst_doPost_logged e data w ss sheet timestamp
               Hpre Hdata Hss Hsheet Hts).
    cbn [fst snd written stores]. eexists _, _.
    split; [apply lookup_insert_eq|].
    split; [|split; [intros r c; apply cell_appendRow_above|]].
    + apply getLastRow_appendRow.
      eapply (rowLast_pos _ 5); [reflexivity|].
      unfold UrlLoggerPst.statusText.
      repeat match goal with |- context [if ?b then _ else _] => destruct b end;
        discriminate.
    + rewrite statusOf_respond. split; [reflexivity|].
      repeat match goal with |- context [if ?b then _ else _] => destruct b end;
        simpl; tauto.
  - intros e data w ss Hpre Hdata Hss.
    rewrite (AccessRequests_doPost_result e data w Hpre Hdata). cbn [fst].
    destruct (logAccessRequest_log (requestDataOf data w) w ss Hss)
      as (ss1 & sheet & ss' & Hget & Hss' & Hgrid).
    exists ss1, sheet, ss'. split; [exact Hget | split; [exact Hss'|]].
    cbv zeta. rewrite Hgrid.
    pose proof (ensureHeaders_lastRow (gridAt ss1 sheet)) as Hrow1.
    split; [apply getLastRow_logged; exact Hrow1|]. split.
    + intros r c Hr Hc. rewrite cell_logged by lia. bool_cases.
    + unfold getValues. cbn [seq map]. rewrite cell_logged by lia.
      bool_cases.
Qed.

(** C5, as the code has it.  [logAccessRequest] appends one row of eight
    cells in the order timestamp, pin, userEmail, title, url and three times
    PENDING, an empty timestamp being replaced by the readable time of the
    clock and an empty pin by NO PIN; read back at once the row is as
    written.  When [logAccessRequest] returns, its timestamp repair has gone
    over column A: the row is the last row of the sheet and reads back with
    its cells 2 to 8 as written and with [detectAndFixTimestamp] of the
    written timestamp in cell 1, which is the written timestamp when that is
    in the readable format.  The two URL loggers append rows of seven and of
    six cells in their own order, which read back as written. *)
Theorem C5_row_written_and_read_back :
  (forall (rd : AccessRequests.requestData) (w : world) (ss : spreadsheet),
      stores w !! AccessRequests.SHEET_ID = Some ss ->
      exists ss1 sheet ss',
        AccessRequests.getOrCreateAccessRequestSheet ss = Ret (ss1, sheet)
        /\ stores (fst (AccessRequests.logAccessRequest rd w))
             !! AccessRequests.SHEET_ID = Some ss'
        /\ let g := AccessRequests.ensureHeaders (gridAt ss1 sheet) in
           let timestamp :=
             orElse (AccessRequests.rd_timestamp rd)
               (AccessRequests.createReadableTimestamp (clock w)) in
           let rest :=
             [VStr (orElse (AccessRequests.rd_pin rd) "NO PIN");
              VStr (AccessRequests.rd_userEmail rd);
              VStr (AccessRequests.rd_title rd);
              VStr (AccessRequests.rd_url rd);
              VStr "PENDING"; VStr "PENDING"; VStr "PENDING"] in
           AccessRequests.rowData (clock w) rd = VStr timestamp :: rest
           /\ getValues (appendRow g (VStr timestamp :: rest))
                (S (getLastRow g)) 1 1 8
              = [VStr timestamp :: rest]
           /\ getLastRow (gridAt ss' sheet) = S (getLastRow g)
           /\ getValues (gridAt ss' sheet) (S (getLastRow g)) 1 1 8
              = [VStr (AccessRequests.detectAndFixTimestamp (clock w)
                         (VStr timestamp)) :: rest]
           /\ (AccessRequests.isReadableTimestampFormat timestamp = true ->
               getValues (gridAt ss' sheet) (S (getLastRow g)) 1 1 8
               = [VStr timestamp :: rest]))
  /\ (forall (e : event) (data : payload) (w : world) (ss : spreadsheet)
        (sheet : nat),
        isPreflight e = false -> e_postData e = Some (Json data) ->
        stores w !! Legacy.ACCESS_SHEET_ID = Some ss ->
        getSheetByName ss "Sheet1" = Some sheet ->
        let g := gridAt ss sheet in
        exists status,
          let row :=
            [VStr (field (p_url data) "N/A");
             VStr (field (p_title data) "Untitled Page");
             VStr (field (p_timestamp data) (Date_toISOString (clock w)));
             VStr (field (p_userEmail data) "Unknown");
             VStr (field (p_userId data) "Unknown");
             VStr (field (p_pin data) "Not Provided");
             VStr status] in
          stores (fst (UrlLogger.doPost e w)) !! Legacy.ACCESS_SHEET_ID
          = Some (setGridAt ss sheet (appendRow g row))
          /\ getValues (appendRow g row) (S (getLastRow g)) 1 1 7 = [row])
  /\ (forall (e : event) (data : payload) (w : world) (ss : spreadsheet)
        (sheet : nat) (timestamp : string),
        isPreflight e = false -> e_postData e = Some (Json data) ->
        stores w !! Legacy.ACCESS_SHEET_ID = Some ss ->
        getSheetByName ss "Sheet1" = Some sheet ->
        pstTimestamp (field (p_timestamp data) (Date_toISOString (clock w)))
        = Ret timestamp ->
        let g := UrlLoggerPst.ensureHeaders (gridAt ss sheet) in
        exists status,
          let row :=
            [VStr timestamp;
             VStr (field (p_userEmail data) "Unknown");
             VStr (field (p_title data) "Untitled Page");
             VStr (field (p_url data) "N/A");
             VStr (field (p_pin data) "Not Provided");
             VStr status] in
          stores (fst (UrlLoggerPst.doPost e w)) !! Legacy.ACCESS_SHEET_ID
          = Some (setGridAt ss sheet (appendRow g row))
          /\ getValues (appendRow g row) (S (getLastRow g)) 1 1 6 = [row]).
Proof.
  split; [|split].
  - intros rd w ss Hss.
    destruct (logAccessRequest_log rd w ss Hss)
      as (ss1 & sheet & ss' & Hget & Hss' & Hgrid).
    exists ss1, sheet, ss'. split; [exact Hget | split; [exact Hss'|]].
    cbv zeta. rewrite Hgrid.
    pose proof (ensureHeaders_lastRow (gridAt ss1 sheet)) as Hrow1.
    set (g := AccessRequests.ensureHeaders (gridAt ss1 sheet)) in *.
    split; [reflexivity|].
    split; [read_appended|].
    split; [apply getLastRow_logged; exact Hrow1|].
    assert (Hread :
      getValues (AccessRequests.autoFixTimestampFormats (clock w)
                   (appendRow g (AccessRequests.rowData (clock w) rd)))
        (S (getLastRow g)) 1 1 8
      = [[VStr (AccessRequests.detectAndFixTimestamp (clock w)
                  (VStr (orElse (AccessRequests.rd_timestamp rd)
                           (AccessRequests.createReadableTimestamp (clock w)))));
          VStr (orElse (AccessRequests.rd_pin rd) "NO PIN");
          VStr (AccessRequests.rd_userEmail rd);
          VStr (AccessRequests.rd_title rd);
          VStr (AccessRequests.rd_url rd);
          VStr "PENDING"; VStr "PENDING"; VStr "PENDING"]]).
    { rewrite getValues_row. cbn [seq map].
      rewrite !cell_logged_last by lia. cbn [Nat.eqb].
      unfold AccessRequests.rowData at 1. cbn [lookup list_lookup default from_option id].
      rewrite fixedCell_VStr. reflexivity. }
    split; [exact Hread|].
    intros Hreadable. rewrite Hread.
    rewrite detectAndFixTimestamp_readable by exact Hreadable. reflexivity.
  - intros e data w ss sheet Hpre Hdata Hss Hsheet g.
    rewrite (UrlLogger_doPost_logged e data w ss sheet Hpre Hdata Hss Hsheet).
    cbn [fst written stores]. eexists. cbv zeta.
    split; [apply lookup_insert_eq|].
    read_appended.
  - intros e data w ss sheet timestamp Hpre Hdata Hss Hsheet Hts g.
    rewrite (UrlLoggerPst_doPost_logged e data w ss sheet timestamp
               Hpre Hdata Hss Hsheet Hts).
    cbn [fst written stores]. eexists. cbv zeta.
    split; [apply lookup_insert_eq|].
    read_appended.
Qed.

(** C6, as the code has it.  When [logAccessRequest] returns, row 1 of
    the sheet it wrote to holds the eight canonical headers in columns 1 to
    8 and nothing beyond column 8.  The second URL logger keeps headers of
    its own: it leaves a row 1 that reads as its six headers (compared
    trimmed and without case) and otherwise inserts a row with them, blank
    beyond column 6, above the rows of the sheet, which move down by one. *)
Theorem C6_header_row_after_logging :
  (forall (rd : AccessRequests.requestData) (w : world) (ss : spreadsheet),
      stores w !! AccessRequests.SHEET_ID = Some ss ->
      exists ss1 sheet ss',
        AccessRequests.getOrCreateAccessRequestSheet ss = Ret (ss1, sheet)
        /\ stores (fst (AccessRequests.logAccessRequest rd w))
             !! AccessRequests.SHEET_ID = Some ss'
        /\ getValues (gridAt ss' sheet) 1 1 1 8
           = [map VStr AccessRequests.expectedHeaders]
        /\ (forall c, 8 < c -> cell (gridAt ss' sheet) 1 c = blank))
  /\ (forall (g : grid),
        (UrlLoggerPst.headersMatch g = true -> UrlLoggerPst.ensureHeaders g = g)
        /\ (UrlLoggerPst.headersMatch g = false ->
            getValues (UrlLoggerPst.ensureHeaders g) 1 1 1 6
            = [map VStr UrlLoggerPst.expectedHeaders]
            /\ (forall c, 7 <= c ->
                  cell (UrlLoggerPst.ensureHeaders g) 1 c = blank)
            /\ (forall r c, 1 <= r -> 1 <= c ->
                  cell (UrlLoggerPst.ensureHeaders g) (S r) c = cell g r c))).
Proof.
  split.
  - intros rd w ss Hss.
    destruct (logAccessRequest_log rd w ss Hss)
      as (ss1 & sheet & ss' & Hget & Hss' & Hgrid).
    exists ss1, sheet, ss'. split; [exact Hget | split; [exact Hss'|]].
    rewrite Hgrid.
    pose proof (ensureHeaders_lastRow (gridAt ss1 sheet)) as Hrow1.
    assert (Hcell : forall c, 1 <= c ->
              cell (AccessRequests.autoFixTimestampFormats (clock w)
                      (appendRow (AccessRequests.ensureHeaders (gridAt ss1 sheet))
                         (AccessRequests.rowData (clock w) rd))) 1 c
              = cell (AccessRequests.ensureHeaders (gridAt ss1 sheet)) 1 c).
    { intros c Hc. rewrite cell_logged by lia. bool_cases. }
    split.
    + transitivity
        (getValues (AccessRequests.ensureHeaders (gridAt ss1 sheet)) 1 1 1 8);
        [|apply ensureHeaders_row1].
      rewrite !getValues_row. cbn [seq map]. rewrite !Hcell by lia. reflexivity.
    + intros c Hc. rewrite Hcell by lia. apply ensureHeaders_beyond. exact Hc.
  - intros g. unfold UrlLoggerPst.ensureHeaders. split.
    + intros ->. reflexivity.
    + intros ->. split; [|split].
      * unfold getValues. cbn [seq map]. rewrite !cell_setRowValues by lia.
        reflexivity.
      * intros c Hc. rewrite cell_setRowValues by lia.
        cbn [length map UrlLoggerPst.expectedHeaders].
        replace ((1 =? 1)%nat && (1 <=? c)%nat && (c <? 1 + 6)%nat) with false
          by bool_cases.
        destruct c; reflexivity.
      * intros r c Hr Hc. rewrite cell_setRowValues by lia.
        destruct r as [|r]; [lia|]. destruct c as [|c]; [lia|]. reflexivity.
Qed.

End AccessLogClaims.

(** ** Responses and failures (C4, C7, C8, C10) *)

Section Responses.
Context `{Host}.

Lemma isPreflight_postData (e : event) :
  isPreflight e = false -> exists c, e_postData e = Some c.
Proof.
  unfold isPreflight. destruct (e_postData e) as [c|]; [eauto|].
  rewrite orb_true_r. discriminate.
Qed.

(** The ways [doPost] of part_000 ends: its catch-all answered an error
    and nothing was written, or the request was logged and answered. *)
Lemma UrlLogger_doPost_cases (e : event) (w : world) :
  isPreflight e = false ->
  (exists error, UrlLogger.doPost e w = (w, Legacy.errorResponse error))
  \/ (exists ss sheet g isValidPin isDuplicate,
        UrlLogger.doPost e w
        = (written w Legacy.ACCESS_SHEET_ID ss sheet g,
           Legacy.respond "URL already requested within last 5 minutes."
             isValidPin isDuplicate)).
Proof.
  intros Hpre. destruct (isPreflight_postData e Hpre) as [[error|data] Hdata].
  - left. exists error. unfold UrlLogger.doPost, Legacy.handler.
    rewrite Hpre, Hdata. reflexivity.
  - destruct (stores w !! Legacy.ACCESS_SHEET_ID) as [ss|] eqn:Hss.
    + destruct (getSheetByName ss "Sheet1") as [sheet|] eqn:Hsheet.
      * right. rewrite (UrlLogger_doPost_logged e data w ss sheet Hpre Hdata Hss Hsheet).
        eauto 10.
      * left. eexists. unfold UrlLogger.doPost, Legacy.handler.
        rewrite Hpre, Hdata. unfold bind at 1. cbn [default from_option id parse ret].
        unfold bind at 1. cbn [getClock]. unfold bind at 1. unfold openById.
        rewrite Hss, Hsheet. reflexivity.
    + left. eexists. unfold UrlLogger.doPost, Legacy.handler.
      rewrite Hpre, Hdata. unfold bind at 1. cbn [default from_option id parse ret].
      unfold bind at 1. cbn [getClock]. unfold bind at 1. unfold openById.
      rewrite Hss. reflexivity.
Qed.

Lemma UrlLoggerPst_doPost_cases (e : event) (w : world) :
  isPreflight e = false ->
  (exists error, UrlLoggerPst.doPost e w = (w, Legacy.errorResponse error))
  \/ (exists ss sheet g isValidPin isDuplicate,
        UrlLoggerPst.doPost e w
        = (written w Legacy.ACCESS_SHEET_ID ss sheet g,
           Legacy.respond "URL already requested within last 1 minute."
             isValidPin isDuplicate)).
Proof.
  intros Hpre. destruct (isPreflight_postData e Hpre) as [[error|data] Hdata].
  - left. exists error. unfold UrlLoggerPst.doPost, Legacy.handler.
    rewrite Hpre, Hdata. reflexivity.
  - destruct (pstTimestamp (field (p_timestamp data) (Date_toISOString (clock w))))
      as [timestamp|error] eqn:Hts.
    + destruct (stores w !! Legacy.ACCESS_SHEET_ID) as [ss|] eqn:Hss.
      * destruct (getSheetByName ss "Sheet1") as [sheet|] eqn:Hsheet.
        -- right.
           rewrite (UrlLoggerPst_doPost_logged e data w ss sheet timestamp
                      Hpre Hdata Hss Hsheet Hts).
           eauto 10.
        -- left. eexists. unfold UrlLoggerPst.doPost, Legacy.handler.
           rewrite Hpre, Hdata. unfold bind at 1. cbn [default from_option id parse ret].
           unfold bind at 1. cbn [getClock]. unfold bind at 1. unfold lift.
           unfold pstTimestamp in Hts. rewrite Hts.
           unfold bind at 1. unfold openById. rewrite Hss, Hsheet. reflexivity.
      * left. eexists. unfold UrlLoggerPst.doPost, Legacy.handler.
        rewrite Hpre, Hdata. unfold bind at 1. cbn [default from_option id parse ret].
        unfold bind at 1. cbn [getClock]. unfold bind at 1. unfold lift.
        unfold pstTimestamp in Hts. rewrite Hts.
        unfold bind at 1. unfold openById. rewrite Hss. reflexivity.
    + left. eexists. unfold UrlLoggerPst.doPost, Legacy.handler.
      rewrite Hpre, Hdata. unfold bind at 1. cbn [default from_option id parse ret].
      unfold bind at 1. cbn [getClock]. unfold bind at 1. unfold lift.
      unfold pstTimestamp in Hts. rewrite Hts. reflexivity.
Qed.

Lemma doPost_preflight (e : event) (w : world) :
  isPreflight e = true ->
  UrlLogger.doPost e w = (w, Legacy.handleCors)
  /\ UrlLoggerPst.doPost e w = (w, Legacy.handleCors)
  /\ PinCheck.doPost e w = (w, Legacy.handleCors)
  /\ PinList.doPost e w = (w, PinList.handleCors)
  /\ AccessRequests.doPost e w = (w, AccessRequests.handleCors).
Proof.
  intros Hpre.
  unfold UrlLogger.doPost, UrlLoggerPst.doPost, PinCheck.doPost, PinList.doPost,
    AccessRequests.doPost, Legacy.handler.
  rewrite Hpre. repeat split; reflexivity.
Qed.

Lemma world_unchanged (w : world) (id : string) (ss : spreadsheet) :
  stores w !! id = Some ss -> World (<[ id := ss ]> (stores w)) (clock w) = w.
Proof. intros Hss. destruct w as [st c]. simpl in *. rewrite insert_id by exact Hss. reflexivity. Qed.

Lemma gridAt_snoc (ss : spreadsheet) (sh : sheet) : gridAt (ss ++ [sh]) (length ss) = cells sh.
Proof.
  unfold gridAt. rewrite lookup_app_r by lia. rewrite Nat.sub_diag. reflexivity.
Qed.

Lemma setGridAt_snoc (ss : spreadsheet) (sh : sheet) (g : grid) :
  setGridAt (ss ++ [sh]) (length ss) g = ss ++ [Sheet (getName sh) g].
Proof.
  unfold setGridAt. rewrite lookup_app_r by lia. rewrite Nat.sub_diag. simpl.
  rewrite insert_app_r_alt by lia. rewrite Nat.sub_diag. reflexivity.
Qed.

Lemma getOrCreatePinSheet_cases (ss : spreadsheet) :
  match PinList.findPinSheet ss with
  | Some i => PinList.getOrCreatePinSheet ss = (ss, Some i)
  | None =>
      match getSheetByName ss "PINs" with
      | Some _ => PinList.getOrCreatePinSheet ss = (ss, None)
      | None =>
          PinList.getOrCreatePinSheet ss = (ss ++ [createdPinSheet], Some (length ss))
      end
  end.
Proof.
  unfold PinList.getOrCreatePinSheet, insertSheet, PinList.PREFERRED_PIN_SHEET_NAME.
  destruct (PinList.findPinSheet ss); [reflexivity|].
  destruct (getSheetByName ss "PINs"); [reflexivity|].
  rewrite gridAt_snoc, setGridAt_snoc. reflexivity.
Qed.

(** The world after [validatePinFromSheet]. *)
Lemma validatePinFromSheet_world (pin : string) (w : world) :
  fst (PinList.validatePinFromSheet pin w)
  = match stores w !! PinList.SHEET_ID with
    | Some ss =>
        World (<[ PinList.SHEET_ID := fst (PinList.getOrCreatePinSheet ss) ]> (stores w))
              (clock w)
    | None => w
    end.
Proof.
  unfold PinList.validatePinFromSheet, tryCatch, bind, openById, commit, ret.
  destruct (stores w !! PinList.SHEET_ID) as [ss|]; [|reflexivity].
  destruct (PinList.getOrCreatePinSheet ss) as [ss' [i|]]; cbn [fst]; [|reflexivity].
  destruct (_ <? _)%nat; [reflexivity|].
  destruct (PinList.scanStored _ _); reflexivity.
Qed.

Lemma PinList_doPost_result (e : event) (data : payload) (w : world)
    (v : PinList.validation) :
  isPreflight e = false -> e_postData e = Some (Json data) ->
  let pin := field (p_pin data) "" in
  snd (PinList.validatePinFromSheet pin w) = Ret v ->
  PinList.doPost e w
  = (fst (PinList.validatePinFromSheet pin w),
     PinList.createJsonResponse
       [("status", JStr (if PinList.isValid v then "success" else "error"));
        ("message", JStr (PinList.message v));
        ("pin", JStr pin);
        ("timestamp",
         JStr (Date_toISOString
                 (clock (fst (PinList.validatePinFromSheet pin w)))))]).
Proof.
  intros Hpre Hdata pin Hv. unfold PinList.doPost. rewrite Hpre, Hdata.
  cbn [default from_option id parse]. unfold bind at 1. cbn [ret].
  unfold bind at 1. fold pin.
  destruct (PinList.validatePinFromSheet pin w) as [w' o]. cbn [fst snd] in *.
  subst o. reflexivity.
Qed.

Lemma PinList_doPost_malformed (e : event) (error : string) (w : world) :
  isPreflight e = false -> e_postData e = Some (Malformed error) ->
  PinList.doPost e w
  = (w, PinList.createJsonResponse
          [("status", JStr "error");
           ("message", JStr ("Internal server error: " ++ error));
           ("timestamp", JStr (Date_toISOString (clock w)))]).
Proof.
  intros Hpre Hdata. unfold PinList.doPost. rewrite Hpre, Hdata. reflexivity.
Qed.

Lemma PinCheck_doPost_cases (e : event) (w : world) :
  isPreflight e = false ->
  (exists error, PinCheck.doPost e w = (w, Legacy.errorResponse error))
  \/ (exists isValid : bool,
        PinCheck.doPost e w
        = (w, Legacy.jsonOutput
                [("status", JStr (if isValid then "success" else "failure"));
                 ("message", JStr (if isValid then "PIN valid"
                                   else "Invalid PIN/Password"))])).
Proof.
  intros Hpre. destruct (isPreflight_postData e Hpre) as [[error|data] Hdata].
  - left. exists error. unfold PinCheck.doPost, Legacy.handler.
    rewrite Hpre, Hdata. reflexivity.
  - rewrite (PinCheck_doPost_result e data w Hpre Hdata).
    destruct (StoredPins.ofPinCheck w) as [L|];
      [right | left]; eexists; reflexivity.
Qed.

Lemma validatePinFromSheet_clock (pin : string) (w : world) :
  clock (fst (PinList.validatePinFromSheet pin w)) = clock w.
Proof.
  rewrite validatePinFromSheet_world.
  destruct (stores w !! PinList.SHEET_ID); reflexivity.
Qed.

(** The messages of [validatePinFromSheet]. *)
Lemma validatePinFromSheet_answer (pin : string) (w : world) :
  let valid := scanOf PinList.scanStored pin (StoredPins.ofPinList w) in
  exists message,
    snd (PinList.validatePinFromSheet pin w) = Ret (PinList.Validation valid message)
    /\ (valid = true -> message = "PIN validated successfully.")
    /\ (valid = false ->
        In message ["PIN validation sheet not available."; "No PIN data available.";
                    "Invalid PIN. Please check your PIN and try again.";
                    ("Error validating PIN: "
                     ++ openByIdError PinList.SHEET_ID)%string])
    /\ (stores w !! PinList.SHEET_ID = None ->
        message
        = ("Error validating PIN: " ++ openByIdError PinList.SHEET_ID)%string).
Proof.
  unfold PinList.validatePinFromSheet, StoredPins.ofPinList, tryCatch, bind,
    openById, commit, ret, scanOf.
  destruct (stores w !! PinList.SHEET_ID) as [ss|]; simpl.
  - destruct (PinList.getOrCreatePinSheet ss) as [ss' [i|]]; simpl.
    + destruct (_ <? _)%nat; simpl.
      * eexists. split; [reflexivity|].
        split; [discriminate|]. split; [tauto | discriminate].
      * destruct (PinList.scanStored _ _); simpl; eexists;
          (split; [reflexivity|]);
          (split; [try discriminate; reflexivity|]);
          (split; [try discriminate; tauto | discriminate]).
    + eexists. split; [reflexivity|].
      split; [discriminate|]. split; [tauto | discriminate].
  - eexists. split; [reflexivity|].
    split; [discriminate|]. split; [tauto | reflexivity].
Qed.

Lemma UrlLogger_doPost_thrown (e : event) (data : payload) (w : world) :
  isPreflight e = false -> e_postData e = Some (Json data) ->
  (stores w !! Legacy.ACCESS_SHEET_ID = None ->
   UrlLogger.doPost e w
   = (w, Legacy.errorResponse (openByIdError Legacy.ACCESS_SHEET_ID)))
  /\ (forall ss, stores w !! Legacy.ACCESS_SHEET_ID = Some ss ->
        getSheetByName ss "Sheet1" = None ->
        UrlLogger.doPost e w
        = (w, Legacy.errorResponse (Legacy.sheetNotFound "Sheet1"))).
Proof.
  intros Hpre Hdata. split.
  - intros Hss. unfold UrlLogger.doPost, Legacy.handler. rewrite Hpre, Hdata.
    unfold bind, openById; cbn. rewrite Hss. reflexivity.
  - intros ss Hss Hsheet. unfold UrlLogger.doPost, Legacy.handler.
    rewrite Hpre, Hdata. unfold bind, openById; cbn. rewrite Hss, Hsheet.
    reflexivity.
Qed.

Lemma UrlLoggerPst_doPost_thrown (e : event) (data : payload) (w : world) :
  isPreflight e = false -> e_postData e = Some (Json data) ->
  let rawTimestamp := field (p_timestamp data) (Date_toISOString (clock w)) in
  (forall error, pstTimestamp rawTimestamp = Throw error ->
     UrlLoggerPst.doPost e w = (w, Legacy.errorResponse error))
  /\ (forall timestamp, pstTimestamp rawTimestamp = Ret timestamp ->
        stores w !! Legacy.ACCESS_SHEET_ID = None ->
        UrlLoggerPst.doPost e w
        = (w, Legacy.errorResponse (openByIdError Legacy.ACCESS_SHEET_ID)))
  /\ (forall timestamp ss, pstTimestamp rawTimestamp = Ret timestamp ->
        stores w !! Legacy.ACCESS_SHEET_ID = Some ss ->
        getSheetByName ss "Sheet1" = None ->
        UrlLoggerPst.doPost e w
        = (w, Legacy.errorResponse (Legacy.sheetNotFound "Sheet1"))).
Proof.
  intros Hpre Hdata raw. unfold pstTimestamp. repeat apply conj.
  - intros error Hts. unfold UrlLoggerPst.doPost, Legacy.handler. rewrite Hpre, Hdata.
    unfold bind at 1. cbn [default from_option id parse ret].
    unfold bind at 1. cbn [getClock].
    unfold bind at 1. unfold lift at 1. fold raw. rewrite Hts. reflexivity.
  - intros timestamp Hts Hss. unfold UrlLoggerPst.doPost, Legacy.handler.
    rewrite Hpre, Hdata.
    unfold bind at 1. cbn [default from_option id parse ret].
    unfold bind at 1. cbn [getClock].
    unfold bind at 1. unfold lift at 1. fold raw. rewrite Hts.
    unfold bind at 1. unfold openById at 1. rewrite Hss. reflexivity.
  - intros timestamp ss Hts Hss Hsheet. unfold UrlLoggerPst.doPost, Legacy.handler.
    rewrite Hpre, Hdata.
    unfold bind at 1. cbn [default from_option id parse ret].
    unfold bind at 1. cbn [getClock].
    unfold bind at 1. unfold lift at 1. fold raw. rewrite Hts.
    unfold bind at 1. unfold openById at 1. rewrite Hss, Hsheet. reflexivity.
Qed.

(** C4, as the code has it.  For a POST that is no preflight, the two URL
    loggers answer one of the four bodies.  The PIN checker answers
    [{status, message}] with success and PIN valid, failure and Invalid
    PIN/Password, or error and the text of the exception.  [doPost] of
    pin_list.js answers [{status, message, pin, timestamp}], with the status
    success for a PIN that validates and the status error for every other
    PIN, and [doPost] of access_requests.js answers
    [{status, message, pinValid, pinProvided, timestamp}], with the status
    success when the log spreadsheet opens and error when it does not.  No
    handler lets an exception out: a body that does not parse, a
    spreadsheet that does not open, a sheet that is missing and a date that
    the formatter refuses are each answered with the status error and the
    text of the exception. *)
Theorem C4_post_responses (e : event) (w : world) :
  isPreflight e = false ->
  (isClaimedBody (r_output (snd (UrlLogger.doPost e w))) = true
   /\ isClaimedBody (r_output (snd (UrlLoggerPst.doPost e w))) = true)
  /\ (r_output (snd (PinCheck.doPost e w))
      = Object [("status", JStr "success"); ("message", JStr "PIN valid")]
      \/ r_output (snd (PinCheck.doPost e w))
         = Object [("status", JStr "failure");
                   ("message", JStr "Invalid PIN/Password")]
      \/ exists error,
           r_output (snd (PinCheck.doPost e w))
           = Object [("status", JStr "error"); ("message", JStr error)])
  /\ (forall data, e_postData e = Some (Json data) ->
        let pin := field (p_pin data) "" in
        let valid := scanOf PinList.scanStored pin (StoredPins.ofPinList w) in
        exists message,
          r_output (snd (PinList.doPost e w))
          = Object [("status", JStr (if valid then "success" else "error"));
                    ("message", JStr message);
                    ("pin", JStr pin);
                    ("timestamp", JStr (Date_toISOString (clock w)))]
          /\ (valid = true -> message = "PIN validated successfully.")
          /\ (valid = false ->
              In message ["PIN validation sheet not available.";
                          "No PIN data available.";
                          "Invalid PIN. Please check your PIN and try again.";
                          ("Error validating PIN: "
                           ++ openByIdError PinList.SHEET_ID)%string])
          /\ (stores w !! PinList.SHEET_ID = None ->
              message
              = ("Error validating PIN: "
                 ++ openByIdError PinList.SHEET_ID)%string))
  /\ (forall data, e_postData e = Some (Json data) ->
        let pin := field (p_pin data) "" in
        r_output (snd (AccessRequests.doPost e w))
        = Object [("status",
                   JStr (match stores w !! AccessRequests.SHEET_ID with
                         | Some _ => "success"
                         | None => "error"
                         end));
                  ("message",
                   JStr (match stores w !! AccessRequests.SHEET_ID with
                         | Some _ => "Access request logged successfully."
                         | None => "Error logging access request: "
                                   ++ openByIdError AccessRequests.SHEET_ID
                         end));
                  ("pinValid", JBool (isPinValidIn pin w));
                  ("pinProvided", JBool (negb (String.eqb pin "")));
                  ("timestamp",
                   JStr (AccessRequests.createReadableTimestamp (clock w)))])
  /\ (forall error, e_postData e = Some (Malformed error) ->
        snd (UrlLogger.doPost e w) = Legacy.errorResponse error
        /\ snd (UrlLoggerPst.doPost e w) = Legacy.errorResponse error
        /\ snd (PinCheck.doPost e w) = Legacy.errorResponse error
        /\ r_output (snd (PinList.doPost e w))
           = Object [("status", JStr "error");
                     ("message", JStr ("Internal server error: " ++ error));
                     ("timestamp", JStr (Date_toISOString (clock w)))]
        /\ r_output (snd (AccessRequests.doPost e w))
           = Object [("status", JStr "error");
                     ("message", JStr ("Internal server error: " ++ error));
                     ("timestamp",
                      JStr (AccessRequests.createReadableTimestamp (clock w)))])
  /\ (forall data, e_postData e = Some (Json data) ->
        let rawTimestamp := field (p_timestamp data) (Date_toISOString (clock w)) in
        (stores w !! Legacy.ACCESS_SHEET_ID = None ->
         snd (UrlLogger.doPost e w)
         = Legacy.errorResponse (openByIdError Legacy.ACCESS_SHEET_ID)
         /\ (forall timestamp, pstTimestamp rawTimestamp = Ret timestamp ->
               snd (UrlLoggerPst.doPost e w)
               = Legacy.errorResponse (openByIdError Legacy.ACCESS_SHEET_ID)))
        /\ (forall ss, stores w !! Legacy.ACCESS_SHEET_ID = Some ss ->
              getSheetByName ss "Sheet1" = None ->
              snd (UrlLogger.doPost e w)
              = Legacy.errorResponse (Legacy.sheetNotFound "Sheet1")
              /\ (forall timestamp, pstTimestamp rawTimestamp = Ret timestamp ->
                    snd (UrlLoggerPst.doPost e w)
                    = Legacy.errorResponse (Legacy.sheetNotFound "Sheet1")))
        /\ (forall error, pstTimestamp rawTimestamp = Throw error ->
              snd (UrlLoggerPst.doPost e w) = Legacy.errorResponse error)
        /\ (stores w !! Legacy.PIN_ACCESS_SHEET_ID = None ->
            snd (PinCheck.doPost e w)
            = Legacy.errorResponse (openByIdError Legacy.PIN_ACCESS_SHEET_ID))
        /\ (forall ss, stores w !! Legacy.PIN_ACCESS_SHEET_ID = Some ss ->
              getSheetByName ss "PINs" = None ->
              snd (PinCheck.doPost e w)
              = Legacy.errorResponse (Legacy.sheetNotFound "PINs"))).
Proof.
  intros Hpre. split; [split|split; [|split; [|split; [|split]]]].
  - destruct (UrlLogger_doPost_cases e w Hpre)
      as [(error & ->) | (ss & sheet & g & v & d & ->)]; [reflexivity|].
    destruct v, d; reflexivity.
  - destruct (UrlLoggerPst_doPost_cases e w Hpre)
      as [(error & ->) | (ss & sheet & g & v & d & ->)]; [reflexivity|].
    destruct v, d; reflexivity.
  - destruct (PinCheck_doPost_cases e w Hpre) as [(error & ->) | ([] & ->)];
      [right; right; exists error; reflexivity
      | left; reflexivity | right; left; reflexivity].
  - intros data Hdata pin valid.
    destruct (validatePinFromSheet_answer pin w)
      as (message & Hv & Hvalid & Hinvalid & Hstore).
    exists message. fold valid in Hv, Hvalid, Hinvalid.
    rewrite (PinList_doPost_result e data w _ Hpre Hdata Hv).
    cbn [snd r_output PinList.createJsonResponse PinList.isValid PinList.message].
    rewrite validatePinFromSheet_clock. auto.
  - intros data Hdata pin.
    rewrite (AccessRequests_doPost_result e data w Hpre Hdata). cbn [snd].
    destruct (stores w !! AccessRequests.SHEET_ID) as [ss|] eqn:Hss.
    + destruct (logAccessRequest_result (requestDataOf data w) w ss Hss)
        as (ss1 & sheet & _ & ->).
      reflexivity.
    + rewrite logAccessRequest_unavailable by exact Hss. reflexivity.
  - intros error Hdata.
    rewrite (PinList_doPost_malformed e error w Hpre Hdata).
    rewrite (AccessRequests_doPost_malformed e error w Hpre Hdata).
    unfold UrlLogger.doPost, UrlLoggerPst.doPost, PinCheck.doPost, Legacy.handler.
    rewrite Hpre, Hdata. repeat split; reflexivity.
  - intros data Hdata raw.
    destruct (UrlLogger_doPost_thrown e data w Hpre Hdata) as [Hstore Hsheet].
    destruct (UrlLoggerPst_doPost_thrown e data w Hpre Hdata)
      as (Hdate & Hstore' & Hsheet').
    fold raw in Hdate, Hstore', Hsheet'.
    split; [|split; [|split; [|split]]].
    + intros Hss. rewrite (Hstore Hss). split; [reflexivity|].
      intros timestamp Hts. rewrite (Hstore' timestamp Hts Hss). reflexivity.
    + intros ss Hss Hnone. rewrite (Hsheet ss Hss Hnone). split; [reflexivity|].
      intros timestamp Hts. rewrite (Hsheet' timestamp ss Hts Hss Hnone).
      reflexivity.
    + intros error Hts. rewrite (Hdate error Hts). reflexivity.
    + intros Hss. rewrite (PinCheck_doPost_result e data w Hpre Hdata).
      cbn [snd]. unfold StoredPins.ofPinCheck. rewrite Hss. reflexivity.
    + intros ss Hss Hnone. rewrite (PinCheck_doPost_result e data w Hpre Hdata).
      cbn [snd]. unfold StoredPins.ofPinCheck. rewrite Hss. simpl.
      rewrite Hnone. reflexivity.
Qed.

(** C7.  When the PIN spreadsheet cannot be opened, the error stays inside
    the validation and the PIN is invalid, whatever the candidate:
    [validatePin] returns false, [validatePinFromSheet] returns a result
    that is not valid, the inline validation of the URL loggers leaves
    [isValidPin] false, and a URL logger appends the row with its status for
    an invalid PIN and answers failure. *)
Theorem C7_pin_store_failure_is_invalid_pin :
  (forall (pin : string) (w : world),
      stores w !! AccessRequests.PIN_SHEET_ID = None ->
      AccessRequests.validatePin pin w = (w, Ret false))
  /\ (forall (pin : string) (w : world),
        stores w !! PinList.SHEET_ID = None ->
        PinList.validatePinFromSheet pin w
        = (w, Ret (PinList.Validation false
                     ("Error validating PIN: " ++ openByIdError PinList.SHEET_ID))))
  /\ (forall (pinSheetName pin : string) (w : world),
        stores w !! Legacy.PIN_ACCESS_SHEET_ID = None ->
        Legacy.validateInline pinSheetName pin w = (w, Ret false))
  /\ (forall (e : event) (data : payload) (w : world) (ss : spreadsheet)
        (sheet : nat),
        isPreflight e = false -> e_postData e = Some (Json data) ->
        stores w !! Legacy.ACCESS_SHEET_ID = Some ss ->
        getSheetByName ss "Sheet1" = Some sheet ->
        stores w !! Legacy.PIN_ACCESS_SHEET_ID = None ->
        UrlLogger.doPost e w
        = (written w Legacy.ACCESS_SHEET_ID ss sheet
             (appendRow (gridAt ss sheet)
                [VStr (field (p_url data) "N/A");
                 VStr (field (p_title data) "Untitled Page");
                 VStr (field (p_timestamp data) (Date_toISOString (clock w)));
                 VStr (field (p_userEmail data) "Unknown");
                 VStr (field (p_userId data) "Unknown");
                 VStr (field (p_pin data) "Not Provided");
                 VStr "Failed (Invalid PIN)"]),
           Legacy.jsonOutput
             [("status", JStr "failure");
              ("message", JStr "Invalid PIN/Password")]))
  /\ (forall (e : event) (data : payload) (w : world) (ss : spreadsheet)
        (sheet : nat) (timestamp : string),
        isPreflight e = false -> e_postData e = Some (Json data) ->
        stores w !! Legacy.ACCESS_SHEET_ID = Some ss ->
        getSheetByName ss "Sheet1" = Some sheet ->
        pstTimestamp (field (p_timestamp data) (Date_toISOString (clock w)))
        = Ret timestamp ->
        stores w !! Legacy.PIN_ACCESS_SHEET_ID = None ->
        UrlLoggerPst.doPost e w
        = (written w Legacy.ACCESS_SHEET_ID ss sheet
             (appendRow (UrlLoggerPst.ensureHeaders (gridAt ss sheet))
                [VStr timestamp;
                 VStr (field (p_userEmail data) "Unknown");
                 VStr (field (p_title data) "Untitled Page");
                 VStr (field (p_url data) "N/A");
                 VStr (field (p_pin data) "Not Provided");
                 VStr "Invalid PIN"]),
           Legacy.jsonOutput
             [("status", JStr "failure");
              ("message", JStr "Invalid PIN/Password")])).
Proof.
  repeat apply conj.
  - intros pin w Hpins. rewrite validatePin_result.
    unfold StoredPins.ofAccessRequests. rewrite Hpins. cbn [mbind option_bind scanOf].
    rewrite andb_false_r. reflexivity.
  - intros pin w Hpins.
    unfold PinList.validatePinFromSheet, tryCatch, bind, openById.
    rewrite Hpins. reflexivity.
  - intros name pin w Hpins. rewrite validateInline_result.
    unfold StoredPins.ofLegacy. rewrite Hpins. reflexivity.
  - intros e data w ss sheet Hpre Hdata Hss Hsheet Hpins.
    rewrite (UrlLogger_doPost_logged e data w ss sheet Hpre Hdata Hss Hsheet).
    unfold StoredPins.ofLegacy. rewrite Hpins. reflexivity.
  - intros e data w ss sheet timestamp Hpre Hdata Hss Hsheet Hts Hpins.
    rewrite (UrlLoggerPst_doPost_logged e data w ss sheet timestamp
               Hpre Hdata Hss Hsheet Hts).
    unfold StoredPins.ofLegacy. rewrite Hpins. reflexivity.
Qed.

(** C8, as the code has it.  [validatePin], the inline validation of the
    URL loggers and the PIN checker write nothing.  The scripts that log
    write to their log spreadsheet only: every spreadsheet under another
    id, the PIN spreadsheet among them when its id is not the id of the
    log, is left as it was.  [validatePinFromSheet] of pin_list.js leaves
    the spreadsheet as it was when it finds a PIN sheet in it; when it
    finds none, it adds a sheet named PINs that holds the header PIN and
    the example codes 123456, 789012 and 000000, unless a sheet of that
    name exists.  It changes or deletes no sheet. *)
Theorem C8_pin_store_writes :
  (forall (pin : string) (w : world), fst (AccessRequests.validatePin pin w) = w)
  /\ (forall (pinSheetName pin : string) (w : world),
        fst (Legacy.validateInline pinSheetName pin w) = w)
  /\ (forall (e : event) (w : world), fst (PinCheck.doPost e w) = w)
  /\ (forall (e : event) (w : world) (id : string),
        id <> AccessRequests.SHEET_ID ->
        stores (fst (AccessRequests.doPost e w)) !! id = stores w !! id)
  /\ (forall (e : event) (w : world) (id : string),
        id <> Legacy.ACCESS_SHEET_ID ->
        stores (fst (UrlLogger.doPost e w)) !! id = stores w !! id
        /\ stores (fst (UrlLoggerPst.doPost e w)) !! id = stores w !! id)
  /\ (forall (pin : string) (w : world),
        match stores w !! PinList.SHEET_ID with
        | None => fst (PinList.validatePinFromSheet pin w) = w
        | Some ss =>
            match PinList.findPinSheet ss, getSheetByName ss "PINs" with
            | None, None =>
                fst (PinList.validatePinFromSheet pin w)
                = World (<[ PinList.SHEET_ID := ss ++ [createdPinSheet] ]> (stores w))
                        (clock w)
            | _, _ => fst (PinList.validatePinFromSheet pin w) = w
            end
        end).
Proof.
  repeat apply conj.
  - intros pin w. rewrite validatePin_result. reflexivity.
  - intros name pin w. rewrite validateInline_result. reflexivity.
  - intros e w. destruct (isPreflight e) eqn:Hpre.
    + destruct (doPost_preflight e w Hpre) as (_ & _ & -> & _). reflexivity.
    + destruct (PinCheck_doPost_cases e w Hpre) as [(error & ->) | (b & ->)];
        reflexivity.
  - intros e w id Hid. destruct (isPreflight e) eqn:Hpre.
    + destruct (doPost_preflight e w Hpre) as (_ & _ & _ & _ & ->). reflexivity.
    + destruct (isPreflight_postData e Hpre) as [[error|data] Hdata].
      * rewrite (AccessRequests_doPost_malformed e error w Hpre Hdata). reflexivity.
      * rewrite (AccessRequests_doPost_result e data w Hpre Hdata). cbn [fst].
        destruct (stores w !! AccessRequests.SHEET_ID) as [ss|] eqn:Hss.
        -- destruct (logAccessRequest_result (requestDataOf data w) w ss Hss)
             as (ss1 & sheet & _ & ->).
           cbn [fst written stores]. apply lookup_insert_ne. congruence.
        -- rewrite logAccessRequest_unavailable by exact Hss. reflexivity.
  - intros e w id Hid. destruct (isPreflight e) eqn:Hpre.
    + destruct (doPost_preflight e w Hpre) as (-> & -> & _). split; reflexivity.
    + split.
      * destruct (UrlLogger_doPost_cases e w Hpre)
          as [(error & ->) | (ss & sheet & g & v & d & ->)]; [reflexivity|].
        cbn [fst written stores]. apply lookup_insert_ne. congruence.
      * destruct (UrlLoggerPst_doPost_cases e w Hpre)
          as [(error & ->) | (ss & sheet & g & v & d & ->)]; [reflexivity|].
        cbn [fst written stores]. apply lookup_insert_ne. congruence.
  - intros pin w. rewrite validatePinFromSheet_world.
    destruct (stores w !! PinList.SHEET_ID) as [ss|] eqn:Hss; [|reflexivity].
    pose proof (getOrCreatePinSheet_cases ss) as Hcases.
    destruct (PinList.findPinSheet ss) as [i|].
    + rewrite Hcases. apply world_unchanged. exact Hss.
    + destruct (getSheetByName ss "PINs") as [i|]; rewrite Hcases.
      * apply world_unchanged. exact Hss.
      * reflexivity.
Qed.

(** C10, as the code has it.  An output of [detectAndFixTimestamp] is
    returned unchanged when the function is applied to it, at any time of
    the clock, when it is in the readable format, and also when the value
    was truthy and unparsable with a text that is not blank and that is
    unparsable when it is read again as a string.  A string that does not
    read as a number above 10^9, before and after the trim, is read again
    as it was read.  For a truthy unparsable value whose text is blank the
    output is the empty string, and the function applied to it returns the
    readable time of the clock. *)
Theorem C10_output_is_fixed (now now' : Z) (v : value) :
  let out := AccessRequests.detectAndFixTimestamp now v in
  (AccessRequests.isReadableTimestampFormat out = true
   \/ (truthy v = true /\ trim (toString v) <> "" /\ dateOf v = None
       /\ dateOf (VStr (trim (toString v))) = None) ->
   AccessRequests.detectAndFixTimestamp now' (VStr out) = out)
  /\ (forall s, v = VStr s ->
        readsAbove s = false -> readsAbove (trim s) = false ->
        dateOf (VStr (trim (toString v))) = dateOf v)
  /\ (truthy v = true -> trim (toString v) = "" -> dateOf v = None ->
      out = ""
      /\ AccessRequests.detectAndFixTimestamp now' (VStr out)
         = AccessRequests.createReadableTimestamp now').
Proof.
  cbv zeta. split; [|split].
  - intros [Hreadable | (Hv & Hne & Hdate & Hagain)].
    + apply detectAndFixTimestamp_readable. exact Hreadable.
    + rewrite (detectAndFixTimestamp_dateOf now v), Hv. cbn [negb]. cbv zeta.
      destruct (AccessRequests.isReadableTimestampFormat (trim (toString v)))
        eqn:Hreadable.
      * apply detectAndFixTimestamp_readable. exact Hreadable.
      * rewrite Hdate. rewrite detectAndFixTimestamp_dateOf. cbn [truthy toString].
        rewrite (proj2 (String.eqb_neq _ "") Hne). cbn [negb]. cbv zeta.
        rewrite trim_trim, Hreadable, Hagain. reflexivity.
  - intros s -> Hs Htrim. apply dateOf_reread; assumption.
  - intros Hv Hblank Hdate.
    rewrite (detectAndFixTimestamp_dateOf now v), Hv. cbn [negb]. cbv zeta.
    rewrite Hblank, Hdate. split; [reflexivity|]. reflexivity.
Qed.

End Responses.

(** * The functions beside the request handlers: properties *)

(** ** Grids that hold the same cells *)

Section SameCells.

(** The last row with content holds content. *)
Lemma lastRow_attained (g : grid) (n : nat) :
  getLastRow g = S n -> exists c, cell g (S n) c <> blank.
Proof.
  intros Hlast. unfold getLastRow in Hlast.
  apply lastWhere_at in Hlast as (row & Hrow & Hp).
  apply negb_true_iff, Nat.eqb_neq in Hp.
  destruct (rowLast row) as [|j] eqn:Hj; [congruence|].
  unfold rowLast in Hj. apply lastWhere_at in Hj as (v & Hv & Hnb).
  exists (S j). rewrite cell_lookup, Hrow. cbn [default from_option id].
  rewrite Hv. cbn [default from_option id]. intros ->. discriminate.
Qed.

Lemma lastColumn_attained (g : grid) (n : nat) :
  getLastColumn g = S n -> exists r, cell g r (S n) <> blank.
Proof.
  induction g as [|row g IH]; [discriminate|].
  cbn [getLastColumn]. intros Hmax.
  destruct (Nat.max_dec (rowLast row) (getLastColumn g)) as [Hl | Hr].
  - rewrite Hl in Hmax. unfold rowLast in Hmax.
    apply lastWhere_at in Hmax as (v & Hv & Hnb).
    exists 1. rewrite cell_lookup. cbn [lookup list_lookup default from_option id].
    rewrite Hv. cbn [default from_option id]. intros ->. discriminate.
  - rewrite Hr in Hmax. destruct (IH Hmax) as (r & Hcell).
    destruct r as [|r]; [rewrite cell_0_l in Hcell; congruence|].
    exists (S (S r)). rewrite cell_lookup in *. exact Hcell.
Qed.

Lemma getLastColumn_unique (g : grid) (n : nat) :
  (forall r c, n < c -> cell g r c = blank) ->
  (n = 0 \/ exists r, cell g r n <> blank) ->
  getLastColumn g = n.
Proof.
  intros Hbeyond Hat.
  assert (Hle : getLastColumn g <= n).
  { destruct (getLastColumn g) as [|m] eqn:Hm; [lia|].
    destruct (lastColumn_attained g m Hm) as (r & Hcell).
    destruct (Nat.le_gt_cases (S m) n) as [Hok|Hgt]; [exact Hok|].
    elim Hcell. apply Hbeyond. exact Hgt. }
  destruct Hat as [-> | (r & Hcell)]; [lia|].
  apply lastColumn_ge in Hcell. lia.
Qed.

Lemma sameCells_lastRow (g g' : grid) : sameCells g g' -> getLastRow g = getLastRow g'.
Proof.
  intros Hsame. symmetry. apply getLastRow_unique.
  - intros r c Hr. rewrite <- Hsame. apply cell_below_lastRow. exact Hr.
  - destruct (getLastRow g) as [|n] eqn:Hn; [left; reflexivity | right].
    destruct (lastRow_attained g n Hn) as (c & Hc). exists c.
    rewrite <- Hsame. exact Hc.
Qed.

Lemma sameCells_lastColumn (g g' : grid) :
  sameCells g g' -> getLastColumn g = getLastColumn g'.
Proof.
  intros Hsame. symmetry. apply getLastColumn_unique.
  - intros r c Hc. rewrite <- Hsame. apply cell_beyond_lastColumn. exact Hc.
  - destruct (getLastColumn g) as [|n] eqn:Hn; [left; reflexivity | right].
    destruct (lastColumn_attained g n Hn) as (r & Hr). exists r.
    rewrite <- Hsame. exact Hr.
Qed.

Lemma sameCells_getValues (g g' : grid) (r c numRows numColumns : nat) :
  sameCells g g' ->
  getValues g r c numRows numColumns = getValues g' r c numRows numColumns.
Proof.
  intros Hsame. unfold getValues. apply map_ext. intros i.
  apply map_ext. intros j. apply Hsame.
Qed.

End SameCells.

(** ** Deleting rows and writing blocks *)

Section Blocks.

Lemma cell_deleteRows (g : grid) (rowPosition howMany r c : nat) :
  1 <= rowPosition ->
  cell (deleteRows g rowPosition howMany) r c
  = if (r <? rowPosition)%nat then cell g r c else cell g (r + howMany) c.
Proof.
  intros Hp. destruct c as [|c].
  { rewrite !cell_0_r. destruct (_ <? _)%nat; reflexivity. }
  destruct r as [|r].
  { rewrite cell_0_l. destruct (Nat.ltb_spec 0 rowPosition); [|lia]. symmetry. apply cell_0_l. }
  unfold deleteRows.
  destruct (Nat.ltb_spec (S r) rowPosition) as [Hlt|Hge].
  - rewrite !cell_lookup.
    assert (Hrow : (take (rowPosition - 1) g ++ drop (rowPosition - 1 + howMany) g) !! r
                   = g !! r).
    { destruct (Nat.lt_ge_cases r (length g)) as [Hin|Hout].
      - rewrite lookup_app_l by (rewrite length_take; lia).
        apply lookup_take_lt. lia.
      - rewrite (lookup_ge_None_2 g r) by lia. apply lookup_ge_None_2.
        rewrite length_app, length_take, length_drop. lia. }
    rewrite Hrow. reflexivity.
  - replace (S r + howMany) with (S (r + howMany)) by lia.
    rewrite !cell_lookup.
    assert (Hrow : (take (rowPosition - 1) g ++ drop (rowPosition - 1 + howMany) g) !! r
                   = g !! (r + howMany)).
    { destruct (Nat.le_gt_cases (rowPosition - 1) (length g)) as [Hin|Hout].
      - rewrite lookup_app_r by (rewrite length_take; lia).
        rewrite length_take, lookup_drop. f_equal. lia.
      - rewrite (lookup_ge_None_2 g (r + howMany)) by lia. apply lookup_ge_None_2.
        rewrite length_app, length_take, length_drop. lia. }
    rewrite Hrow. reflexivity.
Qed.

Lemma cell_setValues (rows : grid) (g : grid) (r c r' c' : nat) :
  1 <= r -> 1 <= c ->
  cell (setValues g r c rows) r' c'
  = let row := default [] (rows !! (r' - r)) in
    if (r <=? r')%nat && (c <=? c')%nat && (c' <? c + length row)%nat
    then default blank (row !! (c' - c)) else cell g r' c'.
Proof.
  revert g r. induction rows as [|row rows IH]; intros g r Hr Hc.
  - cbn [setValues lookup list_lookup default from_option id length].
    rewrite lookup_nil. cbn [default from_option id length].
    replace ((r <=? r')%nat && (c <=? c')%nat && (c' <? c + 0)%nat) with false
      by bool_cases.
    reflexivity.
  - cbn [setValues]. rewrite IH by lia. cbv zeta.
    rewrite cell_setRowValues by lia.
    destruct (Nat.eq_dec r r') as [<- | Hne].
    + replace (r - S r) with 0 by lia. replace (r - r) with 0 by lia.
      cbn [lookup list_lookup default from_option id].
      replace (S r <=? r)%nat with false by bool_cases. cbn [andb].
      replace (r =? r)%nat with true by bool_cases.
      replace (r <=? r)%nat with true by bool_cases. reflexivity.
    + replace (r =? r')%nat with false by bool_cases. cbn [andb].
      destruct (Nat.le_gt_cases (S r) r') as [Hle|Hgt].
      * replace (r' - r) with (S (r' - S r)) by lia.
        cbn [lookup list_lookup].
        replace (r <=? r')%nat with true by bool_cases.
        replace (S r <=? r')%nat with true by bool_cases. reflexivity.
      * replace (S r <=? r')%nat with false by bool_cases.
        replace (r <=? r')%nat with false by bool_cases. reflexivity.
Qed.

End Blocks.

(** ** The header utilities *)

Section HeaderUtilities.
Context `{Host}.
Import AccessTools.

Lemma fixHeaders_row1 (g : grid) : getValues (fixHeaders g) 1 1 1 8 = headerRow.
Proof.
  unfold fixHeaders, getValues. cbn [seq map Nat.add].
  rewrite !cell_setRowValues by lia. reflexivity.
Qed.

Lemma fixHeaders_beyond (g : grid) (r c : nat) :
  8 < c -> cell (fixHeaders g) r c = blank.
Proof.
  intros Hc. unfold fixHeaders. rewrite cell_setRowValues by lia.
  cbn [length map AccessRequests.expectedHeaders].
  replace ((1 =? r)%nat && (1 <=? c)%nat && (c <? 1 + 8)%nat) with false
    by (bool_cases).
  assert (Hfirst : forall g', (forall r', cell g' r' c = blank) ->
            cell (if (0 <? getLastColumn g')%nat
                  then clearContent g' 1 1 1 (Nat.max (getLastColumn g') 8)
                  else g') r c = blank).
  { intros g' Hg'. destruct (0 <? getLastColumn g')%nat; [|apply Hg'].
    rewrite cell_clearContent. destruct (_ && _); [reflexivity | apply Hg']. }
  apply Hfirst. intros r'.
  destruct (Nat.ltb_spec 8 (getLastColumn g)) as [Hwide|Hnarrow].
  - rewrite cell_clearContent. unfold inRange, getMaxRows.
    destruct (Nat.le_gt_cases c (getLastColumn g)) as [Hin|Hout].
    + destruct (Nat.le_gt_cases r' (length g)) as [Hrow|Hrow].
      * destruct r' as [|r']; [bool_cases|]. bool_cases.
      * destruct (_ && _); [reflexivity | apply cell_beyond_length; exact Hrow].
    + destruct (_ && _); [reflexivity | apply cell_beyond_lastColumn; exact Hout].
  - apply cell_beyond_lastColumn. lia.
Qed.

Lemma fixHeaders_below (g : grid) (r c : nat) :
  2 <= r -> c <= 8 -> cell (fixHeaders g) r c = cell g r c.
Proof.
  intros Hr Hc. unfold fixHeaders. rewrite cell_setRowValues by lia.
  replace ((1 =? r)%nat) with false by bool_cases. cbn [andb].
  assert (Hfirst : forall g',
            cell (if (0 <? getLastColumn g')%nat
                  then clearContent g' 1 1 1 (Nat.max (getLastColumn g') 8)
                  else g') r c = cell g' r c).
  { intros g'. destruct (0 <? getLastColumn g')%nat; [|reflexivity].
    rewrite cell_clearContent. unfold inRange. bool_cases. }
  rewrite Hfirst. destruct (8 <? getLastColumn g)%nat; [|reflexivity].
  rewrite cell_clearContent. unfold inRange. bool_cases.
Qed.

(** A sheet whose row 1 holds the headers and that holds nothing beyond
    column H passes the header check of [logAccessRequest]. *)
Lemma canonical_lastColumn (g : grid) :
  getValues g 1 1 1 8 = headerRow ->
  (forall r c, 8 < c -> cell g r c = blank) ->
  getLastColumn g = 8.
Proof.
  intros Hrow Hbeyond. apply getLastColumn_unique; [exact Hbeyond|].
  right. exists 1. change (cell g 1 8) with (cell g (1 + 0) (1 + 7)).
  rewrite <- (getValues_lookup g 1 1 1 8 0 7) by lia.
  rewrite Hrow. discriminate.
Qed.

Lemma canonical_lastRow (g : grid) :
  getValues g 1 1 1 8 = headerRow -> 1 <= getLastRow g.
Proof.
  intros Hrow. apply (lastRow_ge _ 1 1).
  rewrite <- (getValues_lookup _ 1 1 1 8 0 0) by lia.
  rewrite Hrow. discriminate.
Qed.

Lemma headersNeedUpdate_canonical (g : grid) :
  getValues g 1 1 1 8 = headerRow ->
  (forall r c, 8 < c -> cell g r c = blank) ->
  AccessRequests.headersNeedUpdate g = false.
Proof.
  intros Hrow Hbeyond. unfold AccessRequests.headersNeedUpdate.
  rewrite (canonical_lastColumn g Hrow Hbeyond).
  pose proof (canonical_lastRow g Hrow) as Hlast.
  destruct (Nat.leb_spec 1 (getLastRow g)); [|lia].
  cbn [Nat.ltb Nat.leb andb Nat.min]. rewrite Hrow. reflexivity.
Qed.

End HeaderUtilities.

(** ** The utilities of access_requests.js *)

Section Utilities.
Context `{Host}.
Import AccessTools.

Ltac open_sheet Hss Hget :=
  unfold tryCatch;
  unfold bind at 1; unfold openById at 1; rewrite Hss;
  unfold bind at 1; unfold lift at 1; rewrite Hget.

Lemma validateAndFixHeaders_result (w : world) (ss ss1 : spreadsheet) (sheet : nat) :
  stores w !! AccessRequests.SHEET_ID = Some ss ->
  AccessRequests.getOrCreateAccessRequestSheet ss = Ret (ss1, sheet) ->
  validateAndFixHeaders w
  = (written w AccessRequests.SHEET_ID ss1 sheet (fixHeaders (gridAt ss1 sheet)),
     Ret (AccessRequests.LogResult true "Headers validated and updated")).
Proof.
  intros Hss Hget. unfold validateAndFixHeaders. open_sheet Hss Hget.
  reflexivity.
Qed.

(** X4.  On a spreadsheet that opens, [validateAndFixHeaders] leaves the
    eight canonical headers in row 1 and no content beyond column H, keeps
    the cells of the rows from 2 in the columns A to H, and leaves a sheet
    in which the header check of [logAccessRequest] finds nothing to
    update. *)
Theorem validateAndFixHeaders_sets_headers (w : world) (ss : spreadsheet) :
  stores w !! AccessRequests.SHEET_ID = Some ss ->
  exists ss1 sheet ss',
    AccessRequests.getOrCreateAccessRequestSheet ss = Ret (ss1, sheet)
    /\ snd (AccessTools.validateAndFixHeaders w)
       = Ret (AccessRequests.LogResult true "Headers validated and updated")
    /\ stores (fst (AccessTools.validateAndFixHeaders w)) !! AccessRequests.SHEET_ID
       = Some ss'
    /\ getValues (gridAt ss' sheet) 1 1 1 8 = [map VStr AccessRequests.expectedHeaders]
    /\ (forall r c, 8 < c -> cell (gridAt ss' sheet) r c = blank)
    /\ (forall r c, 2 <= r -> c <= 8 ->
          cell (gridAt ss' sheet) r c = cell (gridAt ss1 sheet) r c)
    /\ AccessRequests.headersNeedUpdate (gridAt ss' sheet) = false.
Proof.
  intros Hss. destruct (getOrCreateAccessRequestSheet_returns ss) as (ss1 & sheet & Hget).
  exists ss1, sheet. eexists. split; [exact Hget|].
  rewrite (validateAndFixHeaders_result w ss ss1 sheet Hss Hget).
  cbn [fst snd written stores]. split; [reflexivity|].
  split; [apply lookup_insert_eq|].
  rewrite gridAt_setGridAt by (eapply getOrCreateAccessRequestSheet_lt; eauto).
  split; [apply fixHeaders_row1|].
  split; [intros r c; apply fixHeaders_beyond|].
  split; [intros r c; apply fixHeaders_below|].
  apply headersNeedUpdate_canonical; [apply fixHeaders_row1|].
  intros r c. apply fixHeaders_beyond.
Qed.

Lemma cleanupOldRequests_result (keepRecords : nat) (w : world)
    (ss ss1 : spreadsheet) (sheet : nat) :
  stores w !! AccessRequests.SHEET_ID = Some ss ->
  AccessRequests.getOrCreateAccessRequestSheet ss = Ret (ss1, sheet) ->
  let keep := if (keepRecords =? 0)%nat then 1000 else keepRecords in
  let g := gridAt ss1 sheet in
  cleanupOldRequests keepRecords w
  = (World (<[ AccessRequests.SHEET_ID :=
                 if (getLastRow g <=? keep + 1)%nat then ss1
                 else setGridAt ss1 sheet (deleteRows g 2 (getLastRow g - keep - 1)) ]>
              (stores w)) (clock w),
     Ret tt).
Proof.
  intros Hss Hget keep g. unfold cleanupOldRequests. open_sheet Hss Hget.
  fold keep. fold g. destruct (getLastRow g <=? keep + 1)%nat; reflexivity.
Qed.

(** X5.  [cleanupOldRequests(keepRecords)] keeps row 1 and the
    [keepRecords] most recent rows, in their order (1000 rows for a count
    of 0), and leaves a sheet of no more rows than that as it is. *)
Theorem cleanupOldRequests_keeps_recent (keepRecords : nat) (w : world)
    (ss : spreadsheet) :
  stores w !! AccessRequests.SHEET_ID = Some ss ->
  let keep := if (keepRecords =? 0)%nat then 1000 else keepRecords in
  exists ss1 sheet ss',
    AccessRequests.getOrCreateAccessRequestSheet ss = Ret (ss1, sheet)
    /\ stores (fst (AccessTools.cleanupOldRequests keepRecords w))
         !! AccessRequests.SHEET_ID = Some ss'
    /\ let g := gridAt ss1 sheet in
       let g' := gridAt ss' sheet in
       if (getLastRow g <=? keep + 1)%nat then g' = g
       else getLastRow g' = keep + 1
            /\ (forall c, cell g' 1 c = cell g 1 c)
            /\ (forall r c, 2 <= r ->
                  cell g' r c = cell g (r + (getLastRow g - keep - 1)) c).
Proof.
  intros Hss keep.
  destruct (getOrCreateAccessRequestSheet_returns ss) as (ss1 & sheet & Hget).
  exists ss1, sheet. eexists. split; [exact Hget|].
  rewrite (cleanupOldRequests_result keepRecords w ss ss1 sheet Hss Hget).
  cbn [fst stores]. fold keep. split; [apply lookup_insert_eq|]. cbv zeta.
  pose proof (getOrCreateAccessRequestSheet_lt ss ss1 sheet Hget) as Hlt.
  assert (Hkeep : 1 <= keep).
  { unfold keep. destruct (Nat.eqb_spec keepRecords 0); lia. }
  destruct (Nat.leb_spec (getLastRow (gridAt ss1 sheet)) (keep + 1)) as [Hle|Hgt];
    [reflexivity|].
  rewrite gridAt_setGridAt by exact Hlt.
  set (g := gridAt ss1 sheet) in *. set (n := getLastRow g - keep - 1).
  assert (Hcell : forall r c, 2 <= r -> cell (deleteRows g 2 n) r c = cell g (r + n) c).
  { intros r c Hr. rewrite cell_deleteRows by lia.
    destruct (Nat.ltb_spec r 2); [lia | reflexivity]. }
  split; [|split].
  - apply getLastRow_unique.
    + intros r c Hr. rewrite Hcell by lia. apply cell_below_lastRow. lia.
    + right. destruct (getLastRow g) as [|l] eqn:Hl; [lia|].
      destruct (lastRow_attained g l Hl) as (c & Hc). exists c.
      rewrite Hcell by lia. replace (keep + 1 + n) with (S l) by lia. exact Hc.
  - intros c. rewrite cell_deleteRows by lia. reflexivity.
  - exact Hcell.
Qed.

Lemma getRecentAccessRequests_result (limit : nat) (w : world)
    (ss ss1 : spreadsheet) (sheet : nat) :
  stores w !! AccessRequests.SHEET_ID = Some ss ->
  AccessRequests.getOrCreateAccessRequestSheet ss = Ret (ss1, sheet) ->
  let limit' := if (limit =? 0)%nat then 10 else limit in
  let g := gridAt ss1 sheet in
  getRecentAccessRequests limit w
  = (World (<[ AccessRequests.SHEET_ID := ss1 ]> (stores w)) (clock w),
     Ret (if (getLastRow g <=? 1)%nat then []
          else
            let startRow := Nat.max 2 (getLastRow g + 1 - limit') in
            getValues g startRow 1 (getLastRow g - startRow + 1) 8)).
Proof.
  intros Hss Hget limit' g. unfold getRecentAccessRequests. open_sheet Hss Hget.
  fold limit'. unfold bind, commit. fold g.
  destruct (getLastRow g <=? 1)%nat; reflexivity.
Qed.

(** X6.  [getRecentAccessRequests(limit)] returns the last [limit] rows
    below the header, or all of them when they are fewer, in their order
    and as their cells in the columns A to H (10 rows for a limit of 0). *)
Theorem getRecentAccessRequests_last_rows (limit : nat) (w : world)
    (ss : spreadsheet) :
  stores w !! AccessRequests.SHEET_ID = Some ss ->
  let limit' := if (limit =? 0)%nat then 10 else limit in
  exists ss1 sheet rows,
    AccessRequests.getOrCreateAccessRequestSheet ss = Ret (ss1, sheet)
    /\ snd (AccessTools.getRecentAccessRequests limit w) = Ret rows
    /\ let g := gridAt ss1 sheet in
       length rows = Nat.min limit' (getLastRow g - 1)
       /\ Forall (fun row => length row = 8) rows
       /\ forall i j, i < length rows -> j < 8 ->
            default blank (default [] (rows !! i) !! j)
            = cell g (getLastRow g - length rows + 1 + i) (S j).
Proof.
  intros Hss limit'.
  destruct (getOrCreateAccessRequestSheet_returns ss) as (ss1 & sheet & Hget).
  exists ss1, sheet. eexists. split; [exact Hget|].
  rewrite (getRecentAccessRequests_result limit w ss ss1 sheet Hss Hget).
  cbn [snd]. fold limit'. split; [reflexivity|]. cbv zeta.
  set (g := gridAt ss1 sheet).
  assert (Hlimit : 1 <= limit').
  { unfold limit'. destruct (Nat.eqb_spec limit 0); lia. }
  destruct (Nat.leb_spec (getLastRow g) 1) as [Hle|Hgt].
  { split; [cbn [length]; lia|]. split; [constructor|].
    intros i j Hi. cbn [length] in Hi. lia. }
  set (startRow := Nat.max 2 (getLastRow g + 1 - limit')).
  assert (Hlen : length (getValues g startRow 1 (getLastRow g - startRow + 1) 8)
                 = getLastRow g - startRow + 1).
  { unfold getValues. rewrite length_map, length_seq. reflexivity. }
  rewrite Hlen. split; [unfold startRow; lia|]. split.
  - unfold getValues. apply Forall_forall. intros row Hin.
    apply list_elem_of_In, in_map_iff in Hin as (i & <- & _).
    rewrite length_map, length_seq. reflexivity.
  - intros i j Hi Hj. rewrite getValues_lookup by assumption.
    f_equal; unfold startRow in *; lia.
Qed.

(** The cells of the sheet after [aggressiveFixColumnStructure]. *)
Lemma length_restoredRow (row : list value) : length (restoredRow row) = 8.
Proof.
  unfold restoredRow. rewrite length_app, length_replicate, length_take. lia.
Qed.

Lemma cell_aggressiveFix (g : grid) (r c : nat) :
  1 <= r -> 1 <= c ->
  cell (aggressiveFix g) r c
  = if (r =? 1)%nat
    then (if (c <=? 8)%nat
          then default blank (map VStr aggressiveHeaders !! (c - 1)) else blank)
    else if (r <=? getLastRow g)%nat
         then (if (c <=? Nat.min (getLastColumn g) 8)%nat then cell g r c
               else if (c <=? 8)%nat then VStr "PENDING" else blank)
         else blank.
Proof.
  intros Hr Hc. unfold aggressiveFix, clear.
  assert (Hhead : forall r' c',
            cell (setRowValues [] 1 1 (map VStr aggressiveHeaders)) r' c'
            = if (1 =? r')%nat && (1 <=? c')%nat && (c' <? 1 + 8)%nat
              then default blank (map VStr aggressiveHeaders !! (c' - 1))
              else blank).
  { intros r' c'. rewrite cell_setRowValues by lia.
    cbn [length map aggressiveHeaders].
    destruct (_ && _); [reflexivity|].
    destruct r' as [|r'], c' as [|c']; reflexivity. }
  destruct (Nat.ltb_spec 1 (getLastRow g)) as [Hdata|Hnone].
  - assert (Hlen : length (getValues g 2 1 (getLastRow g - 1)
                            (Nat.min (getLastColumn g) 8)) = getLastRow g - 1).
    { unfold getValues. rewrite length_map, length_seq. reflexivity. }
    rewrite Hlen.
    destruct (Nat.ltb_spec 0 (getLastRow g - 1)) as [_|]; [|lia].
    rewrite cell_setValues by lia. cbv zeta. rewrite Hhead.
    rewrite list_lookup_fmap.
    destruct (Nat.eqb_spec r 1) as [->|Hr1].
    + change (2 <=? 1)%nat with false. change (1 =? 1)%nat with true.
      cbn [andb]. bool_cases.
    + replace (1 =? r)%nat with false by bool_cases. cbn [andb].
      replace (2 <=? r)%nat with true by bool_cases. cbn [andb].
      replace (1 <=? c)%nat with true by bool_cases. cbn [andb].
      destruct (Nat.leb_spec r (getLastRow g)) as [Hin|Hout].
      * unfold getValues. rewrite list_lookup_fmap, lookup_seq_lt by lia.
        cbn [fmap option_fmap option_map default from_option id].
        rewrite length_restoredRow.
        set (kept := Nat.min (getLastColumn g) 8).
        unfold restoredRow.
        rewrite firstn_all2 by (rewrite length_map, length_seq; lia).
        rewrite length_map, length_seq.
        destruct (Nat.leb_spec c kept) as [Hk|Hk].
        -- replace (c <? 1 + 8)%nat with true by bool_cases.
           rewrite lookup_app_l by (rewrite length_map, length_seq; lia).
           rewrite list_lookup_fmap, lookup_seq_lt by lia.
           cbn [fmap option_fmap option_map default from_option id].
           f_equal; lia.
        -- destruct (Nat.leb_spec c 8) as [H8|H8].
           ++ replace (c <? 1 + 8)%nat with true by bool_cases.
              rewrite lookup_app_r by (rewrite length_map, length_seq; lia).
              rewrite length_map, length_seq.
              rewrite lookup_replicate_2 by lia. reflexivity.
           ++ replace (c <? 1 + 8)%nat with false by bool_cases. reflexivity.
      * unfold getValues. rewrite list_lookup_fmap.
        rewrite lookup_seq_ge by lia.
        cbn [fmap option_fmap option_map default from_option id length].
        replace (c <? 1 + 0)%nat with false by bool_cases. reflexivity.
  - cbn [length Nat.ltb Nat.leb]. rewrite Hhead.
    destruct (Nat.eqb_spec r 1) as [->|Hr1].
    + change (1 =? 1)%nat with true. cbn [andb]. bool_cases.
    + replace (1 =? r)%nat with false by bool_cases. cbn [andb].
      destruct (Nat.leb_spec r (getLastRow g)); [lia | reflexivity].
Qed.

Lemma aggressiveFix_row1 (g : grid) :
  getValues (aggressiveFix g) 1 1 1 8 = [map VStr aggressiveHeaders].
Proof.
  rewrite getValues_row. cbn [seq map].
  rewrite !cell_aggressiveFix by lia. reflexivity.
Qed.

Lemma aggressiveFix_beyond (g : grid) (r c : nat) :
  8 < c -> cell (aggressiveFix g) r c = blank.
Proof.
  intros Hc. destruct r as [|r]; [apply cell_0_l|].
  rewrite cell_aggressiveFix by lia.
  replace (c <=? 8)%nat with false by bool_cases.
  replace (c <=? Nat.min (getLastColumn g) 8)%nat with false by bool_cases.
  destruct (S r =? 1)%nat, (S r <=? getLastRow g)%nat; reflexivity.
Qed.

Lemma aggressiveFix_needs_update (g : grid) :
  AccessRequests.headersNeedUpdate (aggressiveFix g) = true.
Proof.
  unfold AccessRequests.headersNeedUpdate.
  assert (Hcol : getLastColumn (aggressiveFix g) = 8).
  { apply getLastColumn_unique; [intros r c; apply aggressiveFix_beyond|].
    right. exists 1. rewrite cell_aggressiveFix by lia. discriminate. }
  assert (Hrow : 1 <= getLastRow (aggressiveFix g)).
  { apply (lastRow_ge _ 1 1). rewrite cell_aggressiveFix by lia. discriminate. }
  rewrite Hcol. destruct (Nat.leb_spec 1 (getLastRow (aggressiveFix g))); [|lia].
  cbn [Nat.ltb Nat.leb andb Nat.min]. rewrite aggressiveFix_row1. reflexivity.
Qed.

Lemma aggressiveFixColumnStructure_result (w : world) (ss ss1 : spreadsheet)
    (sheet : nat) :
  stores w !! AccessRequests.SHEET_ID = Some ss ->
  AccessRequests.getOrCreateAccessRequestSheet ss = Ret (ss1, sheet) ->
  aggressiveFixColumnStructure w
  = (written w AccessRequests.SHEET_ID ss1 sheet (aggressiveFix (gridAt ss1 sheet)),
     Ret (AccessRequests.LogResult true
            "Column structure aggressively fixed and data restored")).
Proof.
  intros Hss Hget. unfold aggressiveFixColumnStructure. open_sheet Hss Hget.
  reflexivity.
Qed.

(** X7.  [aggressiveFixColumnStructure] keeps the cells of the rows from
    2 to the last row in the columns that held content, up to column H,
    fills the columns after them up to H with PENDING, and leaves nothing
    beyond column H or below the last row. *)
Theorem aggressiveFixColumnStructure_restores_data (w : world) (ss : spreadsheet) :
  stores w !! AccessRequests.SHEET_ID = Some ss ->
  exists ss1 sheet ss',
    AccessRequests.getOrCreateAccessRequestSheet ss = Ret (ss1, sheet)
    /\ stores (fst (AccessTools.aggressiveFixColumnStructure w))
         !! AccessRequests.SHEET_ID = Some ss'
    /\ let g := gridAt ss1 sheet in
       let g' := gridAt ss' sheet in
       let kept := Nat.min (getLastColumn g) 8 in
       (forall r c, 2 <= r <= getLastRow g -> 1 <= c <= kept ->
          cell g' r c = cell g r c)
       /\ (forall r c, 2 <= r <= getLastRow g -> kept < c <= 8 ->
             cell g' r c = VStr "PENDING")
       /\ (forall r c, 8 < c -> cell g' r c = blank)
       /\ (forall r c, Nat.max 1 (getLastRow g) < r -> cell g' r c = blank).
Proof.
  intros Hss. destruct (getOrCreateAccessRequestSheet_returns ss) as (ss1 & sheet & Hget).
  exists ss1, sheet. eexists. split; [exact Hget|].
  rewrite (aggressiveFixColumnStructure_result w ss ss1 sheet Hss Hget).
  cbn [fst written stores]. split; [apply lookup_insert_eq|].
  rewrite gridAt_setGridAt by (eapply getOrCreateAccessRequestSheet_lt; eauto).
  cbv zeta. set (g := gridAt ss1 sheet). repeat split.
  - intros r c Hr Hc. rewrite cell_aggressiveFix by lia. bool_cases.
  - intros r c Hr Hc. rewrite cell_aggressiveFix by lia. bool_cases.
  - intros r c. apply aggressiveFix_beyond.
  - intros r c Hr. destruct c as [|c]; [apply cell_0_r|].
    rewrite cell_aggressiveFix by lia. bool_cases.
Qed.

(** X8.  The headers [aggressiveFixColumnStructure] leaves in row 1 are
    the canonical ones with Media Type and Request Status exchanged, so
    that the header check of [logAccessRequest] asks for an update of the
    sheet it leaves. *)
Theorem aggressiveFixColumnStructure_headers (w : world) (ss : spreadsheet) :
  stores w !! AccessRequests.SHEET_ID = Some ss ->
  exists ss1 sheet ss',
    AccessRequests.getOrCreateAccessRequestSheet ss = Ret (ss1, sheet)
    /\ stores (fst (AccessTools.aggressiveFixColumnStructure w))
         !! AccessRequests.SHEET_ID = Some ss'
    /\ getValues (gridAt ss' sheet) 1 1 1 8
       = [[VStr "Timestamp"; VStr "PIN Number"; VStr "User Email"; VStr "Title";
           VStr "URL"; VStr "Media Type"; VStr "Request Status";
           VStr "Access Link"]]
    /\ AccessRequests.headersNeedUpdate (gridAt ss' sheet) = true.
Proof.
  intros Hss. destruct (getOrCreateAccessRequestSheet_returns ss) as (ss1 & sheet & Hget).
  exists ss1, sheet. eexists. split; [exact Hget|].
  rewrite (aggressiveFixColumnStructure_result w ss ss1 sheet Hss Hget).
  cbn [fst written stores]. split; [apply lookup_insert_eq|].
  rewrite gridAt_setGridAt by (eapply getOrCreateAccessRequestSheet_lt; eauto).
  split; [apply aggressiveFix_row1 | apply aggressiveFix_needs_update].
Qed.

Lemma setGridAt_gridAt (ss : spreadsheet) (i : nat) : setGridAt ss i (gridAt ss i) = ss.
Proof.
  unfold setGridAt, gridAt. destruct (ss !! i) as [[name g]|] eqn:Hi; [|reflexivity].
  apply list_insert_id. exact Hi.
Qed.

(** A log whose timestamps are readable needs no repair. *)
Lemma autoFixTimestampFormats_readable (now : Z) (g : grid) :
  (forall r, 2 <= r <= getLastRow g ->
     exists s, cell g r 1 = VStr s
               /\ AccessRequests.isReadableTimestampFormat s = true) ->
  AccessRequests.autoFixTimestampFormats now g = g /\ fixedCount now g = 0.
Proof.
  intros Hreadable.
  assert (Hsame : forall v,
            In v (column0 (getValues g 2 1 (getLastRow g - 1) 1)) ->
            negb (strictEqStr v (AccessRequests.detectAndFixTimestamp now v)) = false).
  { intros v Hin. rewrite column0_getValues in Hin.
    apply in_map_iff in Hin as (i & <- & Hi). apply in_seq in Hi.
    destruct (Hreadable (2 + i) ltac:(lia)) as (s & -> & Hs).
    rewrite detectAndFixTimestamp_readable by exact Hs.
    cbn [strictEqStr]. rewrite String.eqb_refl. reflexivity. }
  unfold AccessRequests.autoFixTimestampFormats, fixedCount.
  destruct (getLastRow g <=? 1)%nat; [split; reflexivity|].
  split.
  - destruct (existsb _ _) eqn:Hex; [|reflexivity].
    apply existsb_exists in Hex as (v & Hin & Hv). rewrite (Hsame v Hin) in Hv.
    discriminate.
  - destruct (List.filter _ _) as [|v rest] eqn:Hf; [reflexivity|].
    assert (Hin : In v (List.filter
                          (fun currentValue =>
                             negb (strictEqStr currentValue
                                     (AccessRequests.detectAndFixTimestamp now
                                        currentValue)))
                          (column0 (getValues g 2 1 (getLastRow g - 1) 1))))
      by (rewrite Hf; left; reflexivity).
    apply filter_In in Hin as [Hin Hv]. rewrite (Hsame v Hin) in Hv. discriminate.
Qed.

Lemma fixAllTimestampFormats_result (w : world) (ss ss1 : spreadsheet) (sheet : nat) :
  stores w !! AccessRequests.SHEET_ID = Some ss ->
  AccessRequests.getOrCreateAccessRequestSheet ss = Ret (ss1, sheet) ->
  fixAllTimestampFormats w
  = (written w AccessRequests.SHEET_ID ss1 sheet
       (AccessRequests.autoFixTimestampFormats (clock w) (gridAt ss1 sheet)),
     Ret (FixResult (fixedCount (clock w) (gridAt ss1 sheet)) 0)).
Proof.
  intros Hss Hget. unfold fixAllTimestampFormats. open_sheet Hss Hget.
  reflexivity.
Qed.

(** X9.  On a log whose timestamps below the header are all in the
    readable format, [fixAllTimestampFormats] reports no fix and no error
    and changes no sheet; when the spreadsheet does not open it reports one
    error and writes nothing. *)
Theorem fixAllTimestampFormats_clean_log (w : world) :
  (forall ss ss1 sheet,
      stores w !! AccessRequests.SHEET_ID = Some ss ->
      AccessRequests.getOrCreateAccessRequestSheet ss = Ret (ss1, sheet) ->
      (forall r, 2 <= r <= getLastRow (gridAt ss1 sheet) ->
         exists s, cell (gridAt ss1 sheet) r 1 = VStr s
                   /\ AccessRequests.isReadableTimestampFormat s = true) ->
      AccessTools.fixAllTimestampFormats w
      = (World (<[ AccessRequests.SHEET_ID := ss1 ]> (stores w)) (clock w),
         Ret (AccessTools.FixResult 0 0)))
  /\ (stores w !! AccessRequests.SHEET_ID = None ->
      AccessTools.fixAllTimestampFormats w = (w, Ret (AccessTools.FixResult 0 1))).
Proof.
  split.
  - intros ss ss1 sheet Hss Hget Hreadable.
    rewrite (fixAllTimestampFormats_result w ss ss1 sheet Hss Hget).
    destruct (autoFixTimestampFormats_readable (clock w) _ Hreadable) as [-> ->].
    unfold written. rewrite setGridAt_gridAt. reflexivity.
  - intros Hss. unfold fixAllTimestampFormats, tryCatch.
    unfold bind at 1. unfold openById at 1. rewrite Hss. reflexivity.
Qed.

(** X10.  [autoFixTimestampFormats] changes no cell outside column A of
    the rows from 2 to the last row, and a cell of that range is kept or
    replaced by the text [detectAndFixTimestamp] makes of it. *)
Theorem autoFixTimestampFormats_frame (now : Z) (g : grid) :
  (forall r c, c <> 1 \/ r < 2 \/ getLastRow g < r ->
     cell (AccessRequests.autoFixTimestampFormats now g) r c = cell g r c)
  /\ (forall r, 2 <= r <= getLastRow g ->
        cell (AccessRequests.autoFixTimestampFormats now g) r 1 = cell g r 1
        \/ cell (AccessRequests.autoFixTimestampFormats now g) r 1
           = VStr (AccessRequests.detectAndFixTimestamp now (cell g r 1))).
Proof.
  split.
  - intros r c Hout. rewrite cell_autoFixTimestampFormats.
    replace ((c =? 1)%nat && (2 <=? r)%nat && (r <=? getLastRow g)%nat) with false
      by bool_cases.
    reflexivity.
  - intros r Hr. rewrite cell_autoFixTimestampFormats.
    replace ((1 =? 1)%nat && (2 <=? r)%nat && (r <=? getLastRow g)%nat) with true
      by bool_cases.
    unfold AccessRequests.fixedCell. destruct (strictEqStr _ _); [left | right];
      reflexivity.
Qed.

End Utilities.

(** ** The sheet of the access log is found again *)

Section FoundAgain.
Context `{Host}.

Lemma find_same {A} (p q : A -> bool) (l : list A) :
  (forall x, p x = q x) -> List.find p l = List.find q l.
Proof.
  intros Hpq. induction l as [|x l IH]; [reflexivity|].
  cbn [List.find]. rewrite Hpq, IH. reflexivity.
Qed.

Lemma find_still {A} (p q : A -> bool) (l : list A) (i : A) :
  List.find p l = Some i -> q i = true -> (forall j, j <> i -> q j = p j) ->
  List.find q l = Some i.
Proof.
  intros Hfind Hi Hother. induction l as [|x l IH]; [discriminate|].
  cbn [List.find] in *. destruct (p x) eqn:Hpx.
  - injection Hfind as ->. rewrite Hi. reflexivity.
  - assert (Hne : x <> i).
    { intros ->. apply find_some in Hfind as [_ Hpi]. congruence. }
    rewrite (Hother x Hne), Hpx. apply IH. exact Hfind.
Qed.

Lemma getName'_setGridAt (ss : spreadsheet) (i j : nat) (g : grid) :
  getName' (setGridAt ss i g) j = getName' ss j.
Proof.
  unfold getName', setGridAt. destruct (ss !! i) as [sh|] eqn:Hi; [|reflexivity].
  destruct (Nat.eq_dec i j) as [<- | Hne].
  - rewrite list_lookup_insert_eq by (eapply lookup_lt_Some; eauto).
    rewrite Hi. reflexivity.
  - rewrite list_lookup_insert_ne by exact Hne. reflexivity.
Qed.

Lemma gridAt_setGridAt_ne (ss : spreadsheet) (i j : nat) (g : grid) :
  i <> j -> gridAt (setGridAt ss i g) j = gridAt ss j.
Proof.
  intros Hne. unfold gridAt, setGridAt. destruct (ss !! i); [|reflexivity].
  rewrite list_lookup_insert_ne by exact Hne. reflexivity.
Qed.

Lemma findAccessRequestSheet_setGridAt (ss : spreadsheet) (i : nat) (g : grid) :
  AccessRequests.findAccessRequestSheet ss = Some i ->
  AccessRequests.hasAccessHeaders g = true ->
  AccessRequests.findAccessRequestSheet (setGridAt ss i g) = Some i.
Proof.
  intros Hfind Hg. pose proof (findAccessRequestSheet_lt ss i Hfind) as Hlt.
  unfold AccessRequests.findAccessRequestSheet in *.
  rewrite (find_same
             (fun name => bool_decide (is_Some (getSheetByName (setGridAt ss i g) name)))
             (fun name => bool_decide (is_Some (getSheetByName ss name))))
    by (intros name; rewrite getSheetByName_setGridAt; reflexivity).
  destruct (List.find _ AccessRequests.accessSheetNames) as [name|].
  { rewrite getSheetByName_setGridAt. exact Hfind. }
  unfold AccessRequests.positions in *. rewrite length_setGridAt.
  rewrite (find_same
             (fun j =>
                let sheetName := toLowerCase (getName' (setGridAt ss i g) j) in
                existsb (fun name => String.eqb sheetName (toLowerCase name))
                        AccessRequests.accessSheetNames)
             (fun j =>
                let sheetName := toLowerCase (getName' ss j) in
                existsb (fun name => String.eqb sheetName (toLowerCase name))
                        AccessRequests.accessSheetNames))
    by (intros j; cbv zeta; rewrite getName'_setGridAt; reflexivity).
  destruct (List.find _ (seq 0 (length ss))) as [j|]; [exact Hfind|].
  apply (find_still (fun j => AccessRequests.hasAccessHeaders (gridAt ss j))).
  - exact Hfind.
  - rewrite gridAt_setGridAt by exact Hlt. exact Hg.
  - intros j Hne. rewrite gridAt_setGridAt_ne by congruence. reflexivity.
Qed.

Lemma getSheetByName_from_snoc (ss : spreadsheet) (k : nat) (name : string) (g : grid) :
  getSheetByName_from k ss name = None ->
  getSheetByName_from k (ss ++ [Sheet name g]) name = Some (k + length ss).
Proof.
  revert k. induction ss as [|sh ss IH]; intros k Hnone; cbn in *.
  - rewrite String.eqb_refl. f_equal. lia.
  - destruct (String.eqb (getName sh) name); [discriminate|].
    rewrite IH by exact Hnone. f_equal. lia.
Qed.

(** The sheet [getOrCreateAccessRequestSheet] returned is the one that is
    found again, whatever was written to it, when what was written shows
    the headers of an access log. *)
Lemma findAccessRequestSheet_again (ss ss1 : spreadsheet) (sheet : nat) (g : grid) :
  AccessRequests.getOrCreateAccessRequestSheet ss = Ret (ss1, sheet) ->
  AccessRequests.hasAccessHeaders g = true ->
  AccessRequests.findAccessRequestSheet (setGridAt ss1 sheet g) = Some sheet.
Proof.
  intros Hget Hg.
  unfold AccessRequests.getOrCreateAccessRequestSheet in Hget.
  destruct (AccessRequests.findAccessRequestSheet ss) as [i|] eqn:Hfind.
  - injection Hget as <- <-. apply findAccessRequestSheet_setGridAt; assumption.
  - unfold insertSheet, AccessRequests.PREFERRED_ACCESS_SHEET_NAME in Hget.
    destruct (getSheetByName ss "AccessRequests") as [i|] eqn:Hname;
      [discriminate|].
    set (created := setGridAt _ _ _) in Hget.
    injection Hget as <- <-. subst created.
    rewrite setGridAt_snoc, setGridAt_snoc.
    cbn [getName]. unfold AccessRequests.findAccessRequestSheet.
    cbn [AccessRequests.accessSheetNames List.find].
    unfold getSheetByName in *.
    rewrite (getSheetByName_from_snoc ss 0 "AccessRequests" g Hname).
    rewrite bool_decide_eq_true_2 by eauto.
    apply (getSheetByName_from_snoc ss 0 "AccessRequests" g Hname).
Qed.

Lemma getOrCreateAccessRequestSheet_again (ss ss1 : spreadsheet) (sheet : nat)
    (g : grid) :
  AccessRequests.getOrCreateAccessRequestSheet ss = Ret (ss1, sheet) ->
  AccessRequests.hasAccessHeaders g = true ->
  AccessRequests.getOrCreateAccessRequestSheet (setGridAt ss1 sheet g)
  = Ret (setGridAt ss1 sheet g, sheet).
Proof.
  intros Hget Hg. unfold AccessRequests.getOrCreateAccessRequestSheet.
  rewrite (findAccessRequestSheet_again ss ss1 sheet g Hget Hg). reflexivity.
Qed.

End FoundAgain.

(** ** A log after a log *)

Section LogAgain.
Context `{Host}.
Import AccessTools.

Lemma lowersHeaders_hasAccessHeaders :
  lowersHeaders -> AccessRequests.hasAccessHeaders headerRow = true.
Proof.
  unfold lowersHeaders. intros Hlower. unfold AccessRequests.hasAccessHeaders.
  change (getLastRow headerRow) with 1. change (getLastColumn headerRow) with 8.
  cbn [Nat.leb andb Nat.min].
  change (default [] (head (getValues headerRow 1 1 1 8)))
    with (map VStr AccessRequests.expectedHeaders).
  change (join "|" (map toString (map VStr AccessRequests.expectedHeaders)))
    with (join "|" AccessRequests.expectedHeaders).
  rewrite Hlower. reflexivity.
Qed.

Lemma hasAccessHeaders_canonical (g : grid) :
  getValues g 1 1 1 8 = headerRow ->
  (forall r c, 8 < c -> cell g r c = blank) ->
  AccessRequests.hasAccessHeaders g = AccessRequests.hasAccessHeaders headerRow.
Proof.
  intros Hrow Hbeyond. unfold AccessRequests.hasAccessHeaders.
  rewrite (canonical_lastColumn g Hrow Hbeyond).
  pose proof (canonical_lastRow g Hrow) as Hlast.
  destruct (Nat.leb_spec 1 (getLastRow g)); [|lia].
  change (getLastRow headerRow) with 1. change (getLastColumn headerRow) with 8.
  cbn [Nat.leb andb Nat.min]. rewrite Hrow. reflexivity.
Qed.

Lemma loggedGrid_row1 (now : Z) (rd : AccessRequests.requestData) (g : grid) :
  getValues (loggedGrid now rd g) 1 1 1 8 = headerRow.
Proof.
  unfold loggedGrid.
  pose proof (ensureHeaders_lastRow g) as Hrow1.
  transitivity (getValues (AccessRequests.ensureHeaders g) 1 1 1 8);
    [|apply ensureHeaders_row1].
  assert (Hcell : forall c, 1 <= c ->
            cell (AccessRequests.autoFixTimestampFormats now
                    (appendRow (AccessRequests.ensureHeaders g)
                       (AccessRequests.rowData now rd))) 1 c
            = cell (AccessRequests.ensureHeaders g) 1 c).
  { intros c Hc. rewrite cell_logged by lia. bool_cases. }
  rewrite !getValues_row. cbn [seq map]. rewrite !Hcell by lia. reflexivity.
Qed.

Lemma loggedGrid_beyond (now : Z) (rd : AccessRequests.requestData) (g : grid)
    (r c : nat) :
  8 < c -> cell (loggedGrid now rd g) r c = blank.
Proof.
  intros Hc. destruct r as [|r]; [apply cell_0_l|]. unfold loggedGrid.
  pose proof (ensureHeaders_lastRow g) as Hrow1.
  rewrite cell_logged by lia.
  replace (c =? 1)%nat with false by bool_cases. cbn [andb].
  destruct (S r <=? _)%nat; [apply ensureHeaders_beyond; exact Hc|].
  destruct (S r =? _)%nat; [|reflexivity].
  rewrite lookup_ge_None_2 by (cbn [length AccessRequests.rowData]; lia).
  reflexivity.
Qed.

Lemma loggedGrid_lastRow (now : Z) (rd : AccessRequests.requestData) (g : grid) :
  getLastRow (loggedGrid now rd g) = S (getLastRow (AccessRequests.ensureHeaders g)).
Proof. apply getLastRow_logged, ensureHeaders_lastRow. Qed.

Lemma loggedGrid_last (now : Z) (rd : AccessRequests.requestData) (g : grid) :
  getValues (loggedGrid now rd g)
    (S (getLastRow (AccessRequests.ensureHeaders g))) 1 1 8
  = [[VStr (AccessRequests.detectAndFixTimestamp now
              (VStr (orElse (AccessRequests.rd_timestamp rd)
                       (AccessRequests.createReadableTimestamp now))));
      VStr (orElse (AccessRequests.rd_pin rd) "NO PIN");
      VStr (AccessRequests.rd_userEmail rd);
      VStr (AccessRequests.rd_title rd);
      VStr (AccessRequests.rd_url rd);
      VStr "PENDING"; VStr "PENDING"; VStr "PENDING"]].
Proof.
  unfold loggedGrid. pose proof (ensureHeaders_lastRow g) as Hrow1.
  rewrite getValues_row. cbn [seq map].
  rewrite !cell_logged_last by lia. cbn [Nat.eqb].
  unfold AccessRequests.rowData at 1. cbn [lookup list_lookup default from_option id].
  rewrite fixedCell_VStr. reflexivity.
Qed.

(** A sheet that was logged to passes the header step unchanged. *)
Lemma ensureHeaders_loggedGrid (now : Z) (rd : AccessRequests.requestData) (g : grid) :
  AccessRequests.ensureHeaders (loggedGrid now rd g) = loggedGrid now rd g.
Proof.
  unfold AccessRequests.ensureHeaders.
  rewrite headersNeedUpdate_canonical; [reflexivity | apply loggedGrid_row1 |].
  intros r c. apply loggedGrid_beyond.
Qed.

Lemma logAccessRequest_at (rd : AccessRequests.requestData) (w : world)
    (ss ss1 : spreadsheet) (sheet : nat) :
  stores w !! AccessRequests.SHEET_ID = Some ss ->
  AccessRequests.getOrCreateAccessRequestSheet ss = Ret (ss1, sheet) ->
  AccessRequests.logAccessRequest rd w
  = (written w AccessRequests.SHEET_ID ss1 sheet
       (loggedGrid (clock w) rd (gridAt ss1 sheet)),
     Ret (AccessRequests.LogResult true "Access request logged successfully.")).
Proof.
  intros Hss Hget. unfold AccessRequests.logAccessRequest, tryCatch.
  unfold bind at 1. unfold openById at 1. rewrite Hss.
  unfold bind at 1. unfold lift at 1. rewrite Hget.
  unfold bind, getClock, commit, ret, written, loggedGrid. reflexivity.
Qed.

Lemma getOrCreateAccessRequestSheet_logged (ss ss1 : spreadsheet) (sheet : nat)
    (now : Z) (rd : AccessRequests.requestData) (g : grid) :
  lowersHeaders ->
  AccessRequests.getOrCreateAccessRequestSheet ss = Ret (ss1, sheet) ->
  AccessRequests.getOrCreateAccessRequestSheet
    (setGridAt ss1 sheet (loggedGrid now rd g))
  = Ret (setGridAt ss1 sheet (loggedGrid now rd g), sheet).
Proof.
  intros Hlower Hget. apply (getOrCreateAccessRequestSheet_again ss); [exact Hget|].
  rewrite hasAccessHeaders_canonical.
  - apply lowersHeaders_hasAccessHeaders, Hlower.
  - apply loggedGrid_row1.
  - intros r c. apply loggedGrid_beyond.
Qed.

(** X11.  The sheet [getOrCreateAccessRequestSheet] returns for a
    spreadsheet is the sheet it returns after [logAccessRequest] wrote to
    it, and nothing is created then: the second of two requests is logged
    in the sheet of the first, one row below it. *)
Theorem logAccessRequest_twice (rd1 rd2 : AccessRequests.requestData) (w : world)
    (ss : spreadsheet) (elapsed : Z) :
  lowersHeaders ->
  stores w !! AccessRequests.SHEET_ID = Some ss ->
  let w1 := later (fst (AccessRequests.logAccessRequest rd1 w)) elapsed in
  let w2 := fst (AccessRequests.logAccessRequest rd2 w1) in
  exists ss1 sheet ss2,
    AccessRequests.getOrCreateAccessRequestSheet ss = Ret (ss1, sheet)
    /\ stores w2 !! AccessRequests.SHEET_ID = Some ss2
    /\ map getName ss2 = map getName ss1
    /\ let n := getLastRow (AccessRequests.ensureHeaders (gridAt ss1 sheet)) in
       getLastRow (gridAt ss2 sheet) = n + 2
       /\ getValues (gridAt ss2 sheet) (n + 1) 2 1 7
          = [tail (AccessRequests.rowData (clock w) rd1)]
       /\ getValues (gridAt ss2 sheet) (n + 2) 2 1 7
          = [tail (AccessRequests.rowData (clock w + elapsed) rd2)].
Proof.
  intros Hlower Hss w1 w2.
  destruct (getOrCreateAccessRequestSheet_returns ss) as (ss1 & sheet & Hget).
  pose proof (getOrCreateAccessRequestSheet_lt ss ss1 sheet Hget) as Hlt.
  exists ss1, sheet. eexists. split; [exact Hget|].
  subst w2 w1. rewrite (logAccessRequest_at rd1 w ss ss1 sheet Hss Hget).
  cbn [fst]. set (g1 := loggedGrid (clock w) rd1 (gridAt ss1 sheet)).
  erewrite (logAccessRequest_at rd2 _ (setGridAt ss1 sheet g1) (setGridAt ss1 sheet g1) sheet);
    [| apply lookup_insert_eq
     | apply (getOrCreateAccessRequestSheet_logged ss); assumption].
  cbn [fst written later stores clock]. rewrite insert_insert_eq.
  split; [apply lookup_insert_eq|].
  rewrite setGridAt_setGridAt. split; [apply names_setGridAt|].
  rewrite !gridAt_setGridAt by (try rewrite length_setGridAt; exact Hlt).
  cbv zeta. set (n := getLastRow (AccessRequests.ensureHeaders (gridAt ss1 sheet))).
  assert (Hn1 : getLastRow g1 = S n) by apply loggedGrid_lastRow.
  assert (Hg2 : loggedGrid (clock w + elapsed) rd2 g1
                = AccessRequests.autoFixTimestampFormats (clock w + elapsed)
                    (appendRow g1 (AccessRequests.rowData (clock w + elapsed) rd2))).
  { unfold loggedGrid at 1. unfold g1.
    rewrite (ensureHeaders_loggedGrid (clock w) rd1). reflexivity. }
  fold g1. rewrite Hg2. split; [|split].
  - rewrite getLastRow_logged by lia. lia.
  - replace (n + 1) with (S n) by lia.
    unfold getValues. cbn [seq map]. rewrite Nat.add_0_r. cbn [Nat.add].
    rewrite !cell_logged by lia. rewrite Hn1.
    replace (S n <=? S n)%nat with true by bool_cases.
    cbn [Nat.eqb andb]. unfold g1, loggedGrid. fold n.
    pose proof (ensureHeaders_lastRow (gridAt ss1 sheet)) as Hrow1.
    rewrite !cell_logged_last by lia. reflexivity.
  - replace (n + 2) with (S (getLastRow g1)) by lia.
    unfold getValues. cbn [seq map]. rewrite Nat.add_0_r. cbn [Nat.add].
    rewrite !cell_logged_last by lia. reflexivity.
Qed.

(** X12.  After [logAccessRequest], [getRecentAccessRequests(1)] returns
    the row of that request, its timestamp as [detectAndFixTimestamp] left
    it. *)
Theorem getRecentAccessRequests_after_log (rd : AccessRequests.requestData)
    (w : world) (ss : spreadsheet) (elapsed : Z) :
  lowersHeaders ->
  stores w !! AccessRequests.SHEET_ID = Some ss ->
  snd (AccessTools.getRecentAccessRequests 1
         (later (fst (AccessRequests.logAccessRequest rd w)) elapsed))
  = Ret [[VStr (AccessRequests.detectAndFixTimestamp (clock w)
                  (VStr (orElse (AccessRequests.rd_timestamp rd)
                           (AccessRequests.createReadableTimestamp (clock w)))));
          VStr (orElse (AccessRequests.rd_pin rd) "NO PIN");
          VStr (AccessRequests.rd_userEmail rd);
          VStr (AccessRequests.rd_title rd);
          VStr (AccessRequests.rd_url rd);
          VStr "PENDING"; VStr "PENDING"; VStr "PENDING"]].
Proof.
  intros Hlower Hss.
  destruct (getOrCreateAccessRequestSheet_returns ss) as (ss1 & sheet & Hget).
  pose proof (getOrCreateAccessRequestSheet_lt ss ss1 sheet Hget) as Hlt.
  rewrite (logAccessRequest_at rd w ss ss1 sheet Hss Hget). cbn [fst].
  set (g1 := loggedGrid (clock w) rd (gridAt ss1 sheet)).
  erewrite (getRecentAccessRequests_result 1 _ (setGridAt ss1 sheet g1)
              (setGridAt ss1 sheet g1) sheet);
    [| apply lookup_insert_eq
     | apply (getOrCreateAccessRequestSheet_logged ss); assumption].
  cbn [snd Nat.eqb]. rewrite gridAt_setGridAt by exact Hlt.
  assert (Hn1 : getLastRow g1
                = S (getLastRow (AccessRequests.ensureHeaders (gridAt ss1 sheet))))
    by apply loggedGrid_lastRow.
  pose proof (ensureHeaders_lastRow (gridAt ss1 sheet)) as Hrow1.
  rewrite Hn1.
  set (n := getLastRow (AccessRequests.ensureHeaders (gridAt ss1 sheet))) in *.
  destruct (Nat.leb_spec (S n) 1); [lia|]. cbv zeta.
  replace (Nat.max 2 (S n + 1 - 1)) with (S n) by lia.
  replace (S n - S n + 1) with 1 by lia.
  apply f_equal. apply loggedGrid_last.
Qed.

End LogAgain.

(** ** Data retrieval *)

Section Retrieval.
Context `{Host}.
Import AccessTools.

Lemma handleDataRetrieval_world (userEmail : option string) (w : world) :
  fst (handleDataRetrieval userEmail w) = w.
Proof.
  unfold handleDataRetrieval, tryCatch.
  destruct (String.eqb (default "" userEmail) ""); [reflexivity|].
  unfold bind, openById.
  destruct (stores w !! AccessRequests.SHEET_ID) as [ss|]; [|reflexivity].
  destruct (AccessRequests.findAccessRequestSheet ss) as [sheet|]; [|reflexivity].
  destruct (getLastRow (gridAt ss sheet) <=? 1)%nat; reflexivity.
Qed.

Lemma handleDataRetrieval_rows (u : string) (w : world) (ss : spreadsheet)
    (sheet : nat) :
  u <> "" ->
  stores w !! AccessRequests.SHEET_ID = Some ss ->
  AccessRequests.findAccessRequestSheet ss = Some sheet ->
  let g := gridAt ss sheet in
  snd (handleDataRetrieval (Some u) w)
  = Ret (UserRows
           (if (getLastRow g <=? 1)%nat then []
            else
              let headers :=
                default [] (head (getValues g 1 1 1 (getLastColumn g))) in
              List.filter
                (fun rowData =>
                   String.eqb (rowUserEmailOf rowData) (toLowerCase u))
                (map (rowObject headers)
                   (getValues g 2 1 (getLastRow g - 1) (getLastColumn g))))).
Proof.
  intros Hu Hss Hfind g. unfold handleDataRetrieval, tryCatch.
  cbn [default from_option id]. rewrite (proj2 (String.eqb_neq u "") Hu).
  unfold bind, openById. rewrite Hss, Hfind. fold g.
  destruct (getLastRow g <=? 1)%nat; reflexivity.
Qed.

(** X13.  A GET never writes.  It is answered CORS handled unless its
    action is getData; a retrieval without a user email is answered with
    the error that the parameter is required, one on a spreadsheet that
    does not open with the error of the failure, and one on a spreadsheet
    with no access sheet with the error that none was found. *)
Theorem doGet_answers (e : AccessTools.getEvent) (w : world) :
  fst (AccessTools.doGet e w) = w
  /\ (g_action e <> Some "getData" ->
      snd (AccessTools.doGet e w) = Ret (Cors AccessRequests.handleCors))
  /\ (g_action e = Some "getData" ->
      (default "" (g_userEmail e) = "" ->
       snd (AccessTools.doGet e w)
       = Ret (Data (Failed "userEmail parameter is required")))
      /\ (default "" (g_userEmail e) <> "" ->
          stores w !! AccessRequests.SHEET_ID = None ->
          snd (AccessTools.doGet e w)
          = Ret (Data (Failed ("Failed to retrieve data: "
                               ++ openByIdError AccessRequests.SHEET_ID))))
      /\ (forall ss, default "" (g_userEmail e) <> "" ->
            stores w !! AccessRequests.SHEET_ID = Some ss ->
            AccessRequests.findAccessRequestSheet ss = None ->
            snd (AccessTools.doGet e w)
            = Ret (Data (Failed "No access request sheet found")))).
Proof.
  unfold doGet. split; [|split].
  - destruct (g_action e) as [action|]; [|reflexivity].
    destruct (String.eqb action "getData"); [|reflexivity].
    unfold bind.
    pose proof (handleDataRetrieval_world (g_userEmail e) w) as Hw.
    destruct (handleDataRetrieval (g_userEmail e) w) as [w' [d|error]];
      cbn [fst] in *; subst w'; reflexivity.
  - intros Hother. destruct (g_action e) as [action|]; [|reflexivity].
    destruct (String.eqb_spec action "getData") as [->|]; [congruence | reflexivity].
  - intros ->. rewrite String.eqb_refl. unfold bind, handleDataRetrieval, tryCatch.
    split; [|split].
    + intros ->. reflexivity.
    + intros Hu Hss. rewrite (proj2 (String.eqb_neq _ "") Hu).
      unfold bind, openById. rewrite Hss. reflexivity.
    + intros ss Hu Hss Hfind. rewrite (proj2 (String.eqb_neq _ "") Hu).
      unfold bind, openById. rewrite Hss, Hfind. reflexivity.
Qed.

Lemma find_first {A} (p : A -> bool) (l : list A) :
  match List.find p l with
  | Some k =>
      exists earlier later,
        l = earlier ++ k :: later
        /\ Forall (fun k' => p k' = false) earlier /\ p k = true
  | None => Forall (fun k' => p k' = false) l
  end.
Proof.
  induction l as [|a l IH]; cbn [List.find]; [constructor|].
  destruct (p a) eqn:Ha.
  - exists [], l. repeat split; [constructor | exact Ha].
  - destruct (List.find p l) as [k|].
    + destruct IH as (earlier & later & -> & Hearlier & Hk).
      exists (a :: earlier), later. repeat split; [constructor; assumption | exact Hk].
    + constructor; assumption.
Qed.

(** X14.  Every row that a retrieval returns for a user is a row of that
    user: the first of its email columns that is not empty holds a value
    that is the email of the request, compared without case.  A row with
    no email at all is returned only for a requested email that
    [toLowerCase] sends to the empty string. *)
Theorem handleDataRetrieval_rows_of_user (u : string) (w : world)
    (userRows : list (gmap string string)) :
  snd (AccessTools.handleDataRetrieval (Some u) w) = Ret (UserRows userRows) ->
  Forall (fun rowData : gmap string string =>
            (exists earlier k later v,
                emailColumns = earlier ++ k :: later
                /\ Forall (fun k' => default "" (rowData !! k') = "") earlier
                /\ rowData !! k = Some v /\ v <> ""
                /\ toLowerCase v = toLowerCase u)
            \/ (Forall (fun k' => default "" (rowData !! k') = "") emailColumns
                /\ toLowerCase u = "")) userRows.
Proof.
  unfold handleDataRetrieval, tryCatch. cbn [default from_option id].
  destruct (String.eqb u ""); [discriminate|].
  unfold bind, openById.
  destruct (stores w !! AccessRequests.SHEET_ID) as [ss|]; [|discriminate].
  destruct (AccessRequests.findAccessRequestSheet ss) as [sheet|]; [|discriminate].
  destruct (getLastRow (gridAt ss sheet) <=? 1)%nat.
  - intros [= <-]. constructor.
  - intros [= <-]. apply Forall_forall. intros rowData Hin.
    apply list_elem_of_In, filter_In in Hin as [_ Heq].
    apply String.eqb_eq in Heq. unfold rowUserEmailOf in Heq.
    pose proof (find_first
                  (fun k => negb (String.eqb (default "" (rowData !! k)) ""))
                  emailColumns) as Hfirst.
    assert (Hempty : forall l,
              Forall (fun k' => negb (String.eqb (default "" (rowData !! k')) "")
                                = false) l ->
              Forall (fun k' => default "" (rowData !! k') = "") l).
    { intros l Hl. eapply Forall_impl; [exact Hl|]. intros k' Hk'.
      apply negb_false_iff, String.eqb_eq in Hk'. exact Hk'. }
    cbv beta in Hfirst.
    destruct (List.find _ emailColumns) as [k|].
    + left. destruct Hfirst as (earlier & later & Hsplit & Hearlier & Hk).
      apply negb_true_iff, String.eqb_neq in Hk.
      destruct (rowData !! k) as [v|] eqn:Hlookup; [|elim Hk; reflexivity].
      exists earlier, k, later, v. cbn [default from_option id] in *.
      repeat split; auto.
    + right. split; [apply Hempty; exact Hfirst | symmetry; exact Heq].
Qed.

Lemma getValues_snoc (g : grid) (r c n m : nat) :
  getValues g r c (S n) m = getValues g r c n m ++ getValues g (r + n) c 1 m.
Proof.
  unfold getValues. rewrite seq_S, map_app. cbn [seq map Nat.add].
  rewrite Nat.add_0_r. reflexivity.
Qed.

Lemma rowObject_canonical (v1 v2 v3 v4 v5 v6 v7 v8 : value) :
  rowObject (map VStr AccessRequests.expectedHeaders) [v1; v2; v3; v4; v5; v6; v7; v8]
  = <[ "Access Link" := retrievedValue v8 ]>
      (<[ "Media Type" := retrievedValue v7 ]>
         (<[ "Request Status" := retrievedValue v6 ]>
            (<[ "URL" := retrievedValue v5 ]>
               (<[ "Title" := retrievedValue v4 ]>
                  (<[ "User Email" := retrievedValue v3 ]>
                     (<[ "PIN Number" := retrievedValue v2 ]>
                        (<[ "Timestamp" := retrievedValue v1 ]> ∅))))))).
Proof. reflexivity. Qed.

(** X15.  A request that [logAccessRequest] logged is returned to its
    user: a retrieval for the trimmed email of the request returns rows of
    which the last is the object of that request, with its email, URL,
    title and PIN trimmed and the status PENDING under the canonical
    headers. *)
Theorem handleDataRetrieval_after_log (rd : AccessRequests.requestData)
    (w : world) (ss : spreadsheet) (elapsed : Z) :
  lowersHeaders ->
  stores w !! AccessRequests.SHEET_ID = Some ss ->
  trim (AccessRequests.rd_userEmail rd) <> "" ->
  exists userRows rowData,
    snd (AccessTools.handleDataRetrieval
           (Some (trim (AccessRequests.rd_userEmail rd)))
           (later (fst (AccessRequests.logAccessRequest rd w)) elapsed))
    = Ret (UserRows userRows)
    /\ last userRows = Some rowData
    /\ rowData !! "User Email" = Some (trim (AccessRequests.rd_userEmail rd))
    /\ rowData !! "URL" = Some (trim (AccessRequests.rd_url rd))
    /\ rowData !! "Title" = Some (trim (AccessRequests.rd_title rd))
    /\ rowData !! "PIN Number"
       = Some (trim (orElse (AccessRequests.rd_pin rd) "NO PIN"))
    /\ rowData !! "Request Status" = Some "PENDING".
Proof.
  intros Hlower Hss Hu.
  destruct (getOrCreateAccessRequestSheet_returns ss) as (ss1 & sheet & Hget).
  pose proof (getOrCreateAccessRequestSheet_lt ss ss1 sheet Hget) as Hlt.
  rewrite (logAccessRequest_at rd w ss ss1 sheet Hss Hget). cbn [fst].
  set (g1 := loggedGrid (clock w) rd (gridAt ss1 sheet)).
  assert (Hrow1 : getValues g1 1 1 1 8 = headerRow) by apply loggedGrid_row1.
  assert (Hbeyond : forall r c, 8 < c -> cell g1 r c = blank)
    by (intros r c; apply loggedGrid_beyond).
  assert (Hfind : AccessRequests.findAccessRequestSheet (setGridAt ss1 sheet g1)
                  = Some sheet).
  { apply (findAccessRequestSheet_again ss); [exact Hget|].
    rewrite hasAccessHeaders_canonical by assumption.
    apply lowersHeaders_hasAccessHeaders, Hlower. }
  assert (Hss1 : stores (later (written w AccessRequests.SHEET_ID ss1 sheet g1) elapsed)
                   !! AccessRequests.SHEET_ID = Some (setGridAt ss1 sheet g1))
    by apply lookup_insert_eq.
  rewrite (handleDataRetrieval_rows _ _ (setGridAt ss1 sheet g1) sheet Hu Hss1 Hfind).
  cbv zeta. rewrite gridAt_setGridAt by exact Hlt.
  rewrite (canonical_lastColumn g1 Hrow1 Hbeyond), Hrow1.
  assert (Hn1 : getLastRow g1
                = S (getLastRow (AccessRequests.ensureHeaders (gridAt ss1 sheet))))
    by apply loggedGrid_lastRow.
  pose proof (ensureHeaders_lastRow (gridAt ss1 sheet)) as Hn.
  rewrite Hn1.
  set (n := getLastRow (AccessRequests.ensureHeaders (gridAt ss1 sheet))) in *.
  destruct (Nat.leb_spec (S n) 1); [lia|].
  replace (S n - 1) with (S (n - 1)) by lia.
  rewrite getValues_snoc. replace (2 + (n - 1)) with (S n) by lia.
  unfold g1 at 2. fold n. rewrite loggedGrid_last.
  rewrite map_app, List.filter_app.
  cbn [map head default from_option id headerRow].
  rewrite rowObject_canonical. cbn [retrievedValue toString].
  set (rowData := <[ "Access Link" := _ ]> _).
  assert (Hemail : rowData !! "User Email"
                   = Some (trim (AccessRequests.rd_userEmail rd))).
  { unfold rowData. rewrite !lookup_insert_ne by discriminate.
    apply lookup_insert_eq. }
  assert (Hmine : String.eqb (rowUserEmailOf rowData)
                    (toLowerCase (trim (AccessRequests.rd_userEmail rd))) = true).
  { unfold rowUserEmailOf. cbn [emailColumns List.find]. rewrite Hemail.
    cbn [default from_option id].
    rewrite (proj2 (String.eqb_neq _ "") Hu). cbn [negb].
    apply String.eqb_refl. }
  cbn [List.filter]. rewrite Hmine.
  eexists. exists rowData. split; [reflexivity|].
  split; [apply last_snoc|]. split; [exact Hemail|].
  unfold rowData.
  split; [rewrite !lookup_insert_ne by discriminate; apply lookup_insert_eq|].
  split; [rewrite !lookup_insert_ne by discriminate; apply lookup_insert_eq|].
  split; [rewrite !lookup_insert_ne by discriminate; apply lookup_insert_eq|].
  rewrite !lookup_insert_ne by discriminate. apply lookup_insert_eq.
Qed.

End Retrieval.

(** ** More on the validators and the handlers *)

Section MoreHandlers.
Context `{Host}.

Lemma getOrCreatePinSheet_again (ss : spreadsheet) :
  fst (PinList.getOrCreatePinSheet (fst (PinList.getOrCreatePinSheet ss)))
  = fst (PinList.getOrCreatePinSheet ss).
Proof.
  pose proof (getOrCreatePinSheet_cases ss) as Hcases.
  destruct (PinList.findPinSheet ss) as [i|] eqn:Hfind.
  { rewrite Hcases. cbn [fst]. rewrite Hcases. reflexivity. }
  destruct (getSheetByName ss "PINs") as [i|] eqn:Hname.
  { rewrite Hcases. cbn [fst]. rewrite Hcases. reflexivity. }
  rewrite Hcases. cbn [fst].
  pose proof (getOrCreatePinSheet_cases (ss ++ [createdPinSheet])) as Hagain.
  destruct (PinList.findPinSheet (ss ++ [createdPinSheet])) as [i|].
  { rewrite Hagain. reflexivity. }
  unfold getSheetByName, createdPinSheet in *.
  rewrite (getSheetByName_from_snoc ss 0 "PINs" _ Hname) in Hagain.
  rewrite Hagain. reflexivity.
Qed.

(** X16.  [validatePinFromSheet] writes at most once: what a validation
    leaves of the world, a further validation leaves as it is. *)
Theorem validatePinFromSheet_writes_once (pin pin' : string) (w : world) :
  fst (PinList.validatePinFromSheet pin'
         (fst (PinList.validatePinFromSheet pin w)))
  = fst (PinList.validatePinFromSheet pin w).
Proof.
  rewrite (validatePinFromSheet_world pin w).
  destruct (stores w !! PinList.SHEET_ID) as [ss|] eqn:Hss.
  - rewrite validatePinFromSheet_world. cbn [stores clock].
    rewrite lookup_insert_eq, insert_insert_eq, getOrCreatePinSheet_again.
    reflexivity.
  - rewrite validatePinFromSheet_world, Hss. reflexivity.
Qed.

(** X17.  On a spreadsheet in which it finds no PIN sheet and no sheet
    named PINs, [validatePinFromSheet] adds the sheet PINs with the header
    and the three example codes after the sheets of the spreadsheet, and
    accepts the three example codes in the same call. *)
Theorem validatePinFromSheet_example_codes (pin : string) (w : world)
    (ss : spreadsheet) :
  stores w !! PinList.SHEET_ID = Some ss ->
  PinList.findPinSheet ss = None ->
  getSheetByName ss "PINs" = None ->
  (stores (fst (PinList.validatePinFromSheet pin w)) !! PinList.SHEET_ID
   = Some (ss ++ [createdPinSheet])
   /\ getValues (gridAt (ss ++ [createdPinSheet]) (length ss)) 1 1 4 1
      = [[VStr "PIN"]; [VStr "123456"]; [VStr "789012"]; [VStr "000000"]])
  /\ (In (trim pin) ["123456"; "789012"; "000000"] ->
      snd (PinList.validatePinFromSheet pin w)
      = Ret (PinList.Validation true "PIN validated successfully.")).
Proof.
  intros Hss Hfind Hname.
  pose proof (getOrCreatePinSheet_cases ss) as Hcases.
  rewrite Hfind, Hname in Hcases. split.
  { split.
    - rewrite validatePinFromSheet_world, Hss, Hcases. cbn [fst stores].
      apply lookup_insert_eq.
    - rewrite gridAt_snoc. reflexivity. }
  intros Hpin.
  unfold PinList.validatePinFromSheet, tryCatch.
  unfold bind at 1. unfold openById at 1. rewrite Hss, Hcases.
  unfold bind, commit. rewrite gridAt_snoc.
  cbn [cells createdPinSheet].
  set (g := [[VStr "PIN"]; [VStr "123456"]; [VStr "789012"]; [VStr "000000"]]).
  assert (Hscan : forall startRow, startRow = 1 \/ startRow = 2 ->
            PinList.scanStored (trim pin)
              (PinList.getDisplayColumn g startRow 1 (4 - startRow + 1)) = true).
  { intros startRow [-> | ->];
      cbn in Hpin; destruct Hpin as [<- | [<- | [<- | []]]];
      cbn; repeat (destruct (String.eqb (toUpperCase _) (toUpperCase _)));
      reflexivity. }
  unfold PinList.analyzePinSheetStructure.
  change (getLastRow g) with 4. change (cell g 1 1) with (VStr "PIN").
  cbn [Nat.ltb Nat.leb String.eqb Ascii.eqb Bool.eqb negb andb].
  destruct (_ || _);
    cbn [PinList.startRow PinList.endRow PinList.dataColumn Nat.ltb Nat.leb];
    [rewrite (Hscan 2) by (right; reflexivity)
    | rewrite (Hscan 1) by (left; reflexivity)];
    reflexivity.
Qed.

(** X18.  [doPost] of access_requests.js answers success to a request
    whenever the log spreadsheet opens, whether the PIN is valid, invalid
    or missing: the validity is reported in the field pinValid, and what
    is written to the log spreadsheet is the same in two worlds that differ
    in the PIN spreadsheet only. *)
Theorem AccessRequests_doPost_any_pin (e : event) (data : payload) (w : world)
    (ss : spreadsheet) :
  isPreflight e = false ->
  e_postData e = Some (Json data) ->
  stores w !! AccessRequests.SHEET_ID = Some ss ->
  let pin := field (p_pin data) "" in
  r_output (snd (AccessRequests.doPost e w))
  = Object [("status", JStr "success");
            ("message", JStr "Access request logged successfully.");
            ("pinValid", JBool (isPinValidIn pin w));
            ("pinProvided", JBool (negb (String.eqb pin "")));
            ("timestamp", JStr (AccessRequests.createReadableTimestamp (clock w)))]
  /\ forall w',
       stores w' !! AccessRequests.SHEET_ID = Some ss -> clock w' = clock w ->
       stores (fst (AccessRequests.doPost e w')) !! AccessRequests.SHEET_ID
       = stores (fst (AccessRequests.doPost e w)) !! AccessRequests.SHEET_ID.
Proof.
  intros Hpre Hdata Hss pin.
  destruct (getOrCreateAccessRequestSheet_returns ss) as (ss1 & sheet & Hget).
  split.
  - rewrite (AccessRequests_doPost_result e data w Hpre Hdata). cbn [snd].
    rewrite (logAccessRequest_at _ w ss ss1 sheet Hss Hget). reflexivity.
  - intros w' Hss' Hclock.
    rewrite (AccessRequests_doPost_result e data w Hpre Hdata).
    rewrite (AccessRequests_doPost_result e data w' Hpre Hdata). cbn [fst].
    rewrite (logAccessRequest_at _ w ss ss1 sheet Hss Hget).
    rewrite (logAccessRequest_at _ w' ss ss1 sheet Hss' Hget).
    cbn [fst written stores]. rewrite !lookup_insert_eq.
    unfold loggedGrid, AccessRequests.rowData, requestDataOf.
    cbn [AccessRequests.rd_timestamp AccessRequests.rd_pin
         AccessRequests.rd_userEmail AccessRequests.rd_title AccessRequests.rd_url].
    rewrite Hclock. reflexivity.
Qed.

(** X19.  When the log spreadsheet does not open or has no sheet named
    Sheet1, the two URL loggers answer with the status error and the text
    of the failure, and write nothing; the second one does so too for a
    timestamp that its formatter refuses. *)
Theorem url_loggers_without_log_sheet (e : event) (data : payload) (w : world) :
  isPreflight e = false ->
  e_postData e = Some (Json data) ->
  let rawTimestamp := field (p_timestamp data) (Date_toISOString (clock w)) in
  (stores w !! Legacy.ACCESS_SHEET_ID = None ->
   UrlLogger.doPost e w
   = (w, Legacy.errorResponse (openByIdError Legacy.ACCESS_SHEET_ID))
   /\ forall timestamp, pstTimestamp rawTimestamp = Ret timestamp ->
        UrlLoggerPst.doPost e w
        = (w, Legacy.errorResponse (openByIdError Legacy.ACCESS_SHEET_ID)))
  /\ (forall ss, stores w !! Legacy.ACCESS_SHEET_ID = Some ss ->
        getSheetByName ss "Sheet1" = None ->
        UrlLogger.doPost e w = (w, Legacy.errorResponse (Legacy.sheetNotFound "Sheet1"))
        /\ forall timestamp, pstTimestamp rawTimestamp = Ret timestamp ->
             UrlLoggerPst.doPost e w
             = (w, Legacy.errorResponse (Legacy.sheetNotFound "Sheet1")))
  /\ (forall error, pstTimestamp rawTimestamp = Throw error ->
        UrlLoggerPst.doPost e w = (w, Legacy.errorResponse error)).
Proof.
  intros Hpre Hdata raw.
  assert (Hpst : forall o, pstTimestamp raw = o ->
            UrlLoggerPst.doPost e w
            = match o with
              | Ret timestamp =>
                  match stores w !! Legacy.ACCESS_SHEET_ID with
                  | None =>
                      (w, Legacy.errorResponse (openByIdError Legacy.ACCESS_SHEET_ID))
                  | Some ss =>
                      match getSheetByName ss "Sheet1" with
                      | None => (w, Legacy.errorResponse (Legacy.sheetNotFound "Sheet1"))
                      | Some _ => UrlLoggerPst.doPost e w
                      end
                  end
              | Throw error => (w, Legacy.errorResponse error)
              end).
  { intros o Hts. unfold pstTimestamp in Hts.
    destruct o as [timestamp|error].
    - destruct (stores w !! Legacy.ACCESS_SHEET_ID) as [ss|] eqn:Hss.
      + destruct (getSheetByName ss "Sheet1") as [sheet|] eqn:Hsheet; [reflexivity|].
        unfold UrlLoggerPst.doPost, Legacy.handler. rewrite Hpre, Hdata.
        unfold bind at 1. cbn [default from_option id parse ret].
        unfold bind at 1. cbn [getClock].
        unfold bind at 1. unfold lift at 1. fold raw. rewrite Hts.
        unfold bind at 1. unfold openById at 1. rewrite Hss, Hsheet. reflexivity.
      + unfold UrlLoggerPst.doPost, Legacy.handler. rewrite Hpre, Hdata.
        unfold bind at 1. cbn [default from_option id parse ret].
        unfold bind at 1. cbn [getClock].
        unfold bind at 1. unfold lift at 1. fold raw. rewrite Hts.
        unfold bind at 1. unfold openById at 1. rewrite Hss. reflexivity.
    - unfold UrlLoggerPst.doPost, Legacy.handler. rewrite Hpre, Hdata.
      unfold bind at 1. cbn [default from_option id parse ret].
      unfold bind at 1. cbn [getClock].
      unfold bind at 1. unfold lift at 1. fold raw. rewrite Hts. reflexivity. }
  split; [|split].
  - intros Hss. split.
    + unfold UrlLogger.doPost, Legacy.handler. rewrite Hpre, Hdata.
      unfold bind, openById; cbn. rewrite Hss. reflexivity.
    + intros timestamp Hts. rewrite (Hpst _ Hts), Hss. reflexivity.
  - intros ss Hss Hsheet. split.
    + unfold UrlLogger.doPost, Legacy.handler. rewrite Hpre, Hdata.
      unfold bind, openById; cbn. rewrite Hss, Hsheet. reflexivity.
    + intros timestamp Hts. rewrite (Hpst _ Hts), Hss, Hsheet. reflexivity.
  - intros error Hts. rewrite (Hpst _ Hts). reflexivity.
Qed.

(** X20.  The PIN checker of part_001 has no inner try: when the PIN
    spreadsheet does not open, or has no sheet named PINs, it answers with
    the status error and the text of the failure, for every PIN, and it
    never writes. *)
Theorem PinCheck_store_failure (e : event) (data : payload) (w : world) :
  isPreflight e = false ->
  e_postData e = Some (Json data) ->
  fst (PinCheck.doPost e w) = w
  /\ (stores w !! Legacy.PIN_ACCESS_SHEET_ID = None ->
      snd (PinCheck.doPost e w)
      = Legacy.errorResponse (openByIdError Legacy.PIN_ACCESS_SHEET_ID))
  /\ (forall ss, stores w !! Legacy.PIN_ACCESS_SHEET_ID = Some ss ->
        getSheetByName ss "PINs" = None ->
        snd (PinCheck.doPost e w)
        = Legacy.errorResponse (Legacy.sheetNotFound "PINs")).
Proof.
  intros Hpre Hdata. rewrite (PinCheck_doPost_result e data w Hpre Hdata).
  split; [reflexivity|]. cbn [snd]. unfold StoredPins.ofPinCheck. split.
  - intros ->. reflexivity.
  - intros ss Hss Hsheet. rewrite Hss. simpl. rewrite Hsheet. reflexivity.
Qed.

End MoreHandlers.

(** ** The header row of the second URL logger *)

Section PstHeaders.
Context `{Host}.

Lemma headersMatch_expected (l : list string) :
  (forall s, In s l -> trim s = s) ->
  forallb (fun '(value, expected) =>
             String.eqb (toLowerCase (trim (toString value))) (toLowerCase expected))
          (zip (map VStr l) l) = true.
Proof.
  induction l as [|s l IH]; intros Htrim; [reflexivity|].
  cbn [map zip zip_with forallb toString].
  rewrite (Htrim s) by (left; reflexivity). rewrite String.eqb_refl.
  apply IH. intros s' Hin. apply Htrim. right. exact Hin.
Qed.

Lemma headersMatch_ensureHeaders (g : grid) :
  UrlLoggerPst.headersMatch (UrlLoggerPst.ensureHeaders g) = true.
Proof.
  unfold UrlLoggerPst.ensureHeaders.
  destruct (UrlLoggerPst.headersMatch g) eqn:Hmatch; [exact Hmatch|].
  unfold UrlLoggerPst.headersMatch.
  assert (Hrow : getValues (setRowValues (insertRowBefore1 g) 1 1
                              (map VStr UrlLoggerPst.expectedHeaders)) 1 1 1 6
                 = [map VStr UrlLoggerPst.expectedHeaders]).
  { unfold getValues. cbn [seq map]. rewrite !cell_setRowValues by lia.
    reflexivity. }
  rewrite Hrow. cbn [head default from_option id].
  rewrite length_map, Nat.eqb_refl. cbn [andb].
  apply headersMatch_expected. intros s Hin.
  cbn in Hin. repeat destruct Hin as [<- | Hin]; try reflexivity. destruct Hin.
Qed.

Lemma headersMatch_lastRow (g : grid) :
  toLowerCase "timeStamp" <> toLowerCase "" ->
  UrlLoggerPst.headersMatch g = true -> 1 <= getLastRow g.
Proof.
  intros Hlower Hmatch. apply (lastRow_ge g 1 1). intros Hblank.
  unfold UrlLoggerPst.headersMatch in Hmatch. rewrite getValues_row in Hmatch.
  cbn [seq map head default from_option id] in Hmatch.
  apply andb_prop in Hmatch as [_ Hmatch].
  cbn [UrlLoggerPst.expectedHeaders zip zip_with forallb] in Hmatch.
  apply andb_prop in Hmatch as [Hfirst _]. rewrite Hblank in Hfirst.
  apply String.eqb_eq in Hfirst. apply Hlower. symmetry. exact Hfirst.
Qed.

Lemma ensureHeaders_appended (g : grid) (row : list value) :
  toLowerCase "timeStamp" <> toLowerCase "" ->
  UrlLoggerPst.ensureHeaders (appendRow (UrlLoggerPst.ensureHeaders g) row)
  = appendRow (UrlLoggerPst.ensureHeaders g) row.
Proof.
  intros Hlower. pose proof (headersMatch_ensureHeaders g) as Hmatch.
  pose proof (headersMatch_lastRow _ Hlower Hmatch) as Hlast.
  set (g1 := UrlLoggerPst.ensureHeaders g) in *.
  assert (Hrow : getValues (appendRow g1 row) 1 1 1 6 = getValues g1 1 1 1 6).
  { rewrite !getValues_row. cbn [seq map].
    rewrite !cell_appendRow_above by lia. reflexivity. }
  unfold UrlLoggerPst.ensureHeaders at 1.
  replace (UrlLoggerPst.headersMatch (appendRow g1 row)) with true; [reflexivity|].
  rewrite <- Hmatch. unfold UrlLoggerPst.headersMatch. rewrite Hrow. reflexivity.
Qed.

(** X21.  The second URL logger inserts its header row at most once:
    after a request that it logged, row 1 reads as its headers, and the
    row of a further request goes below the row of the first with no row
    inserted above. *)
Theorem UrlLoggerPst_headers_once (e1 e2 : event) (data1 data2 : payload)
    (w : world) (ss : spreadsheet) (sheet : nat) (elapsed : Z)
    (timestamp1 timestamp2 : string) :
  toLowerCase "timeStamp" <> toLowerCase "" ->
  isPreflight e1 = false -> e_postData e1 = Some (Json data1) ->
  isPreflight e2 = false -> e_postData e2 = Some (Json data2) ->
  stores w !! Legacy.ACCESS_SHEET_ID = Some ss ->
  getSheetByName ss "Sheet1" = Some sheet ->
  pstTimestamp (field (p_timestamp data1) (Date_toISOString (clock w)))
  = Ret timestamp1 ->
  pstTimestamp (field (p_timestamp data2) (Date_toISOString (clock w + elapsed)))
  = Ret timestamp2 ->
  let first := UrlLoggerPst.doPost e1 w in
  let second := UrlLoggerPst.doPost e2 (later (fst first) elapsed) in
  exists row1 row2,
    stores (fst second) !! Legacy.ACCESS_SHEET_ID
    = Some (setGridAt ss sheet
              (appendRow
                 (appendRow (UrlLoggerPst.ensureHeaders (gridAt ss sheet)) row1)
                 row2))
    /\ row1 !! 0 = Some (VStr timestamp1)
    /\ row2 !! 0 = Some (VStr timestamp2).
Proof.
  intros Hlower Hpre1 Hdata1 Hpre2 Hdata2 Hss Hsheet Hts1 Hts2 first second.
  pose proof (getSheetByName_lt _ _ _ Hsheet) as Hlt.
  subst second first.
  rewrite (UrlLoggerPst_doPost_logged e1 data1 w ss sheet timestamp1
             Hpre1 Hdata1 Hss Hsheet Hts1).
  cbn [fst]. set (g1 := appendRow _ _).
  assert (Hss1 : stores (later (written w Legacy.ACCESS_SHEET_ID ss sheet g1) elapsed)
                 !! Legacy.ACCESS_SHEET_ID = Some (setGridAt ss sheet g1))
    by (cbn [later written stores]; apply lookup_insert_eq).
  assert (Hsheet1 : getSheetByName (setGridAt ss sheet g1) "Sheet1" = Some sheet)
    by (rewrite getSheetByName_setGridAt; exact Hsheet).
  rewrite (UrlLoggerPst_doPost_logged e2 data2 _ _ sheet timestamp2
             Hpre2 Hdata2 Hss1 Hsheet1 Hts2).
  cbn [fst]. rewrite !gridAt_setGridAt by exact Hlt.
  unfold g1 at 2 3. rewrite (ensureHeaders_appended _ _ Hlower). fold g1.
  eexists _, _. split.
  - unfold written at 1. cbn [stores].
    rewrite lookup_insert_eq, setGridAt_setGridAt. subst g1. reflexivity.
  - split; reflexivity.
Qed.

End PstHeaders.

(** ** The duplicate scan on the rows the logger of part_000 writes *)

Section Timeless.
Context `{Host}.

Lemma scanRecent_timeless (url : string) (currentTime : option Z) (rows : grid) :
  Forall (fun row => timeRead row = None) rows ->
  Legacy.scanRecent url currentTime rows = false.
Proof.
  induction 1 as [|row rows Hrow _ IH]; [reflexivity|].
  cbn [Legacy.scanRecent]. unfold timeRead in Hrow.
  destruct (truthy (default blank (row !! 1))); cbn [negb]; [|exact IH].
  rewrite Hrow. exact IH.
Qed.

Lemma lastRowsOf_appendRow (g : grid) (row : list value) :
  rowLast row <> 0 ->
  Legacy.lastRowsOf (appendRow g row)
  = if (1 <=? getLastRow g)%nat
    then Legacy.lastRowsOf g
         ++ [map (fun j => default blank (row !! j)) (seq 0 5)]
    else [].
Proof.
  intros Hrow. unfold Legacy.lastRowsOf.
  rewrite (getLastRow_appendRow g row Hrow).
  destruct (Nat.leb_spec 1 (getLastRow g)) as [Hone|Hzero].
  - destruct (Nat.ltb_spec 1 (S (getLastRow g))); [|lia].
    replace (S (getLastRow g) - 1) with (S (getLastRow g - 1)) by lia.
    rewrite getValues_snoc. replace (2 + (getLastRow g - 1)) with (S (getLastRow g)) by lia.
    assert (Hold : getValues (appendRow g row) 2 1 (getLastRow g - 1) 5
                   = getValues g 2 1 (getLastRow g - 1) 5).
    { unfold getValues. apply map_ext_in. intros i Hi. apply in_seq in Hi.
      apply map_ext. intros j. apply cell_appendRow_above; lia. }
    rewrite Hold.
    assert (Hnew : getValues (appendRow g row) (S (getLastRow g)) 1 1 5
                   = [map (fun j => default blank (row !! j)) (seq 0 5)]).
    { rewrite getValues_row. cbn [seq map].
      rewrite !cell_appendRow by lia.
      replace (S (getLastRow g) <=? getLastRow g)%nat with false by bool_cases.
      rewrite Nat.eqb_refl. reflexivity. }
    rewrite Hnew. destruct (Nat.ltb_spec 1 (getLastRow g)) as [Hmore|Hhead].
    + reflexivity.
    + replace (getLastRow g - 1) with 0 by lia. reflexivity.
  - destruct (Nat.ltb_spec 1 (S (getLastRow g))); [lia | reflexivity].
Qed.

(** X22.  The duplicate scan of part_000 takes the cell in column B of a
    row for its time, and the logger writes the title of the page there.
    On a log in which no cell of column B reads as a time, no request is
    answered as a duplicate, and the log is such a log again after a
    request whose title does not parse as a date. *)
Theorem UrlLogger_timeless_log (e : event) (data : payload) (w : world)
    (ss : spreadsheet) (sheet : nat) :
  isPreflight e = false ->
  e_postData e = Some (Json data) ->
  stores w !! Legacy.ACCESS_SHEET_ID = Some ss ->
  getSheetByName ss "Sheet1" = Some sheet ->
  timeless (gridAt ss sheet) ->
  statusOf (snd (UrlLogger.doPost e w)) <> Some "duplicate"
  /\ (Date_parse (field (p_title data) "Untitled Page") = None ->
      exists ss',
        stores (fst (UrlLogger.doPost e w)) !! Legacy.ACCESS_SHEET_ID = Some ss'
        /\ timeless (gridAt ss' sheet)).
Proof.
  intros Hpre Hdata Hss Hsheet Htimeless.
  pose proof (getSheetByName_lt _ _ _ Hsheet) as Hlt.
  rewrite (UrlLogger_doPost_logged e data w ss sheet Hpre Hdata Hss Hsheet).
  cbn [fst snd]. split.
  - rewrite statusOf_respond.
    assert (Hdup : forall v url t,
              Legacy.checkDuplicate v url t (gridAt ss sheet) = false).
    { intros v url t. unfold Legacy.checkDuplicate. destruct v; [|reflexivity].
      apply scanRecent_timeless. apply Forall_rev. exact Htimeless. }
    rewrite Hdup. destruct (negb _); discriminate.
  - intros Htitle. eexists. unfold written. cbn [stores].
    split; [apply lookup_insert_eq|].
    rewrite gridAt_setGridAt by exact Hlt. unfold timeless.
    rewrite lastRowsOf_appendRow by (eapply (rowLast_pos _ 6); [reflexivity|];
      unfold UrlLogger.statusText;
      repeat match goal with |- context [if ?b then _ else _] => destruct b end;
      discriminate).
    destruct (1 <=? getLastRow (gridAt ss sheet))%nat; [|constructor].
    apply Forall_app. split; [exact Htimeless|].
    constructor; [|constructor]. unfold timeRead.
    cbn [seq map lookup list_lookup default from_option id truthy Legacy.rowTimeOf].
    destruct (negb _); [exact Htitle | reflexivity].
Qed.

(** X23.  For [validatePin] of access_requests.js every sheet with content
    in A1 is a PIN sheet, and no sheet without content is one: a sheet
    named PINs with content in A1 is the sheet whose column A is read,
    whatever the other sheets hold. *)
Theorem AccessRequests_pin_sheet_choice :
  (forall g, truthy (cell g 1 1) = true -> AccessRequests.isPinSheet g = true)
  /\ (forall g, getLastRow g = 0 -> AccessRequests.isPinSheet g = false)
  /\ (forall ss i,
        getSheetByName ss "PINs" = Some i ->
        truthy (cell (gridAt ss i) 1 1) = true ->
        AccessRequests.findPinSheet ss = Some i).
Proof.
  assert (Hsheet : forall g, truthy (cell g 1 1) = true ->
                     AccessRequests.isPinSheet g = true).
  { intros g Htruthy. unfold AccessRequests.isPinSheet.
    assert (Hlast : 1 <= getLastRow g).
    { apply (lastRow_ge g 1 1). intros Hblank. rewrite Hblank in Htruthy.
      discriminate. }
    destruct (Nat.ltb_spec (getLastRow g) 1); [lia|].
    rewrite Htruthy. apply orb_true_r. }
  split; [exact Hsheet|]. split.
  - intros g Hlast. unfold AccessRequests.isPinSheet. rewrite Hlast. reflexivity.
  - intros ss i Hname Htruthy. unfold AccessRequests.findPinSheet.
    cbn [AccessRequests.pinSheetNames List.find]. rewrite Hname.
    rewrite (Hsheet _ Htruthy). exact Hname.
Qed.

End Timeless.

(** ** The same URL submitted twice to a URL logger (C2, C3) *)

Section Repeats.
Context `{Host}.

Lemma checkDuplicate_timeless (isValidPin : bool) (url : string)
    (currentTime : option Z) (g : grid) :
  timeless g -> Legacy.checkDuplicate isValidPin url currentTime g = false.
Proof.
  intros Htimeless. unfold Legacy.checkDuplicate.
  destruct isValidPin; [|reflexivity].
  apply scanRecent_timeless. apply Forall_rev. exact Htimeless.
Qed.

Lemma timeless_appendRow (g : grid) (row : list value) :
  timeless g -> rowLast row <> 0 ->
  timeRead (map (fun j => default blank (row !! j)) (seq 0 5)) = None ->
  timeless (appendRow g row).
Proof.
  intros Htimeless Hrow Htime. unfold timeless.
  rewrite (lastRowsOf_appendRow g row Hrow).
  destruct (1 <=? getLastRow g)%nat; [|constructor].
  apply Forall_app. split; [exact Htimeless|].
  constructor; [exact Htime | constructor].
Qed.

(** The time the duplicate loop reads in a row whose second cell is a text
    that does not parse as a date. *)
Lemma timeRead_text (v0 v2 v3 v4 : value) (rest : list value) (s : string) :
  Date_parse s = None ->
  timeRead (map (fun j => default blank ((v0 :: VStr s :: v2 :: v3 :: v4 :: rest) !! j))
              (seq 0 5)) = None.
Proof.
  intros Hs. unfold timeRead.
  cbn [seq map lookup list_lookup default from_option id truthy Legacy.rowTimeOf].
  destruct (negb _); [exact Hs | reflexivity].
Qed.

(** C2.  The duplicate check of the URL loggers misses the rows the
    loggers write.  The loop reads the first cell of a row as its URL and
    the second as its time; the logger of part_000 writes the title of the
    page in the second cell, and the second logger writes the timestamp in
    the first cell and the email of the user in the second.  On a log in
    which no second cell reads as a time (a log that holds its header row
    only, or rows that the logger wrote), a request with a valid PIN is
    logged with the submitted URL, and the same URL submitted again with a
    valid PIN, whatever the time between the two, is answered success and
    not duplicate, when the title (the email for the second logger) of the
    first request does not parse as a date. *)
Theorem C2_repeat_not_duplicate :
  (forall (e1 e2 : event) (data1 data2 : payload) (w : world) (ss : spreadsheet)
      (sheet : nat) (elapsed : Z) (url : string),
      isPreflight e1 = false -> e_postData e1 = Some (Json data1) ->
      isPreflight e2 = false -> e_postData e2 = Some (Json data2) ->
      stores w !! Legacy.ACCESS_SHEET_ID = Some ss ->
      getSheetByName ss "Sheet1" = Some sheet ->
      field (p_url data1) "N/A" = url -> field (p_url data2) "N/A" = url ->
      scanOf Legacy.scanStored (field (p_pin data1) "Not Provided")
        (StoredPins.ofLegacy "PINs" w) = true ->
      scanOf Legacy.scanStored (field (p_pin data2) "Not Provided")
        (StoredPins.ofLegacy "PINs" w) = true ->
      timeless (gridAt ss sheet) ->
      Date_parse (field (p_title data1) "Untitled Page") = None ->
      let first := UrlLogger.doPost e1 w in
      let second := UrlLogger.doPost e2 (later (fst first) elapsed) in
      statusOf (snd first) = Some "success"
      /\ (exists ss1,
            stores (fst first) !! Legacy.ACCESS_SHEET_ID = Some ss1
            /\ getValues (gridAt ss1 sheet) (getLastRow (gridAt ss sheet) + 1) 1 1 7
               = [[VStr url;
                   VStr (field (p_title data1) "Untitled Page");
                   VStr (field (p_timestamp data1) (Date_toISOString (clock w)));
                   VStr (field (p_userEmail data1) "Unknown");
                   VStr (field (p_userId data1) "Unknown");
                   VStr (field (p_pin data1) "Not Provided");
                   VStr "Success (Valid PIN)"]])
      /\ statusOf (snd second) = Some "success")
  /\ (forall (e1 e2 : event) (data1 data2 : payload) (w : world) (ss : spreadsheet)
        (sheet : nat) (elapsed : Z) (url timestamp1 timestamp2 : string),
        toLowerCase "timeStamp" <> toLowerCase "" ->
        isPreflight e1 = false -> e_postData e1 = Some (Json data1) ->
        isPreflight e2 = false -> e_postData e2 = Some (Json data2) ->
        stores w !! Legacy.ACCESS_SHEET_ID = Some ss ->
        getSheetByName ss "Sheet1" = Some sheet ->
        field (p_url data1) "N/A" = url -> field (p_url data2) "N/A" = url ->
        pstTimestamp (field (p_timestamp data1) (Date_toISOString (clock w)))
        = Ret timestamp1 ->
        pstTimestamp (field (p_timestamp data2)
                        (Date_toISOString (clock w + elapsed)))
        = Ret timestamp2 ->
        scanOf Legacy.scanStored (field (p_pin data1) "Not Provided")
          (StoredPins.ofLegacy "Sheet1" w) = true ->
        scanOf Legacy.scanStored (field (p_pin data2) "Not Provided")
          (StoredPins.ofLegacy "Sheet1" w) = true ->
        timeless (UrlLoggerPst.ensureHeaders (gridAt ss sheet)) ->
        Date_parse (field (p_userEmail data1) "Unknown") = None ->
        let first := UrlLoggerPst.doPost e1 w in
        let second := UrlLoggerPst.doPost e2 (later (fst first) elapsed) in
        statusOf (snd first) = Some "success"
        /\ (exists ss1,
              stores (fst first) !! Legacy.ACCESS_SHEET_ID = Some ss1
              /\ getValues (gridAt ss1 sheet)
                   (getLastRow (UrlLoggerPst.ensureHeaders (gridAt ss sheet)) + 1)
                   1 1 6
                 = [[VStr timestamp1;
                     VStr (field (p_userEmail data1) "Unknown");
                     VStr (field (p_title data1) "Untitled Page");
                     VStr url;
                     VStr (field (p_pin data1) "Not Provided");
                     VStr "Valid PIN"]])
        /\ statusOf (snd second) = Some "success").
Proof.
  split.
  - intros e1 e2 data1 data2 w ss sheet elapsed url Hpre1 Hdata1 Hpre2 Hdata2
      Hss Hsheet Hurl1 Hurl2 Hpin1 Hpin2 Htimeless Htitle first second.
    pose proof (getSheetByName_lt _ _ _ Hsheet) as Hlt.
    subst second first.
    rewrite (UrlLogger_doPost_logged e1 data1 w ss sheet Hpre1 Hdata1 Hss Hsheet).
    rewrite Hpin1, Hurl1, (checkDuplicate_timeless _ _ _ _ Htimeless).
    cbn [fst snd UrlLogger.statusText].
    set (row1 := [VStr url; _; _; _; _; _; _]).
    set (g1 := appendRow (gridAt ss sheet) row1).
    assert (Hrow1 : rowLast row1 <> 0)
      by (eapply (rowLast_pos _ 6); [reflexivity | discriminate]).
    assert (Hss1 : stores (later (written w Legacy.ACCESS_SHEET_ID ss sheet g1) elapsed)
                   !! Legacy.ACCESS_SHEET_ID = Some (setGridAt ss sheet g1))
      by (cbn [later written stores]; apply lookup_insert_eq).
    assert (Hsheet1 : getSheetByName (setGridAt ss sheet g1) "Sheet1" = Some sheet)
      by (rewrite getSheetByName_setGridAt; exact Hsheet).
    rewrite (UrlLogger_doPost_logged e2 data2 _ _ sheet Hpre2 Hdata2 Hss1 Hsheet1).
    assert (Hpins : StoredPins.ofLegacy "PINs"
                      (later (written w Legacy.ACCESS_SHEET_ID ss sheet g1) elapsed)
                    = StoredPins.ofLegacy "PINs" w)
      by (rewrite <- (ofLegacy_written "PINs" w ss sheet g1); reflexivity).
    rewrite Hpins, Hpin2. cbn [fst snd].
    rewrite !gridAt_setGridAt by exact Hlt.
    assert (Htimeless1 : timeless g1).
    { apply timeless_appendRow; [exact Htimeless | exact Hrow1|].
      apply timeRead_text. exact Htitle. }
    rewrite (checkDuplicate_timeless _ _ _ _ Htimeless1).
    split; [reflexivity|]. split; [|reflexivity].
    eexists. split; [unfold written; cbn [stores]; apply lookup_insert_eq|].
    rewrite gridAt_setGridAt by exact Hlt.
    replace (getLastRow (gridAt ss sheet) + 1)
      with (S (getLastRow (gridAt ss sheet))) by lia.
    exact (getValues_appendRow (gridAt ss sheet) row1).
  - intros e1 e2 data1 data2 w ss sheet elapsed url timestamp1 timestamp2 Hlower
      Hpre1 Hdata1 Hpre2 Hdata2 Hss Hsheet Hurl1 Hurl2 Hts1 Hts2 Hpin1 Hpin2
      Htimeless Hemail first second.
    pose proof (getSheetByName_lt _ _ _ Hsheet) as Hlt.
    subst second first.
    rewrite (UrlLoggerPst_doPost_logged e1 data1 w ss sheet timestamp1
               Hpre1 Hdata1 Hss Hsheet Hts1).
    rewrite Hpin1, Hurl1, (checkDuplicate_timeless _ _ _ _ Htimeless).
    cbn [fst snd UrlLoggerPst.statusText].
    set (g := UrlLoggerPst.ensureHeaders (gridAt ss sheet)) in *.
    set (row1 := [VStr timestamp1; _; _; _; _; _]).
    set (g1 := appendRow g row1).
    assert (Hrow1 : rowLast row1 <> 0)
      by (eapply (rowLast_pos _ 5); [reflexivity | discriminate]).
    assert (Hss1 : stores (later (written w Legacy.ACCESS_SHEET_ID ss sheet g1) elapsed)
                   !! Legacy.ACCESS_SHEET_ID = Some (setGridAt ss sheet g1))
      by (cbn [later written stores]; apply lookup_insert_eq).
    assert (Hsheet1 : getSheetByName (setGridAt ss sheet g1) "Sheet1" = Some sheet)
      by (rewrite getSheetByName_setGridAt; exact Hsheet).
    rewrite (UrlLoggerPst_doPost_logged e2 data2 _ _ sheet timestamp2
               Hpre2 Hdata2 Hss1 Hsheet1 Hts2).
    assert (Hpins : StoredPins.ofLegacy "Sheet1"
                      (later (written w Legacy.ACCESS_SHEET_ID ss sheet g1) elapsed)
                    = StoredPins.ofLegacy "Sheet1" w)
      by (rewrite <- (ofLegacy_written "Sheet1" w ss sheet g1); reflexivity).
    rewrite Hpins, Hpin2. cbn [fst snd].
    rewrite !gridAt_setGridAt by exact Hlt.
    assert (Hheaders : UrlLoggerPst.ensureHeaders g1 = g1)
      by (subst g1 g; apply ensureHeaders_appended; exact Hlower).
    rewrite Hheaders.
    assert (Htimeless1 : timeless g1).
    { apply timeless_appendRow; [exact Htimeless | exact Hrow1|].
      apply timeRead_text. exact Hemail. }
    rewrite (checkDuplicate_timeless _ _ _ _ Htimeless1).
    split; [reflexivity|]. split; [|reflexivity].
    eexists. split; [unfold written; cbn [stores]; apply lookup_insert_eq|].
    rewrite gridAt_setGridAt by exact Hlt.
    replace (getLastRow g + 1) with (S (getLastRow g)) by lia.
    exact (getValues_appendRow g row1).
Qed.

(** The sheet after two rows were appended, read back. *)
Lemma appendRow_twice (g : grid) (row1 row2 : list value) :
  rowLast row1 <> 0 -> rowLast row2 <> 0 ->
  let g' := appendRow (appendRow g row1) row2 in
  getLastRow g' = getLastRow g + 2
  /\ (forall r c, 1 <= r <= getLastRow g -> 1 <= c -> cell g' r c = cell g r c)
  /\ getValues g' (getLastRow g + 1) 1 1 (length row1) = [row1]
  /\ getValues g' (getLastRow g + 2) 1 1 (length row2) = [row2].
Proof.
  intros Hrow1 Hrow2 g'. subst g'.
  pose proof (getLastRow_appendRow g row1 Hrow1) as Hlast1.
  pose proof (getLastRow_appendRow (appendRow g row1) row2 Hrow2) as Hlast2.
  split; [lia|]. split; [|split].
  - intros r c Hr Hc. rewrite cell_appendRow_above by lia.
    apply cell_appendRow_above; lia.
  - replace (getLastRow g + 1) with (S (getLastRow g)) by lia.
    rewrite <- (getValues_appendRow g row1).
    unfold getValues. apply map_ext_in. intros i Hi. apply in_seq in Hi.
    apply map_ext. intros j. apply cell_appendRow_above; lia.
  - replace (getLastRow g + 2) with (S (getLastRow (appendRow g row1))) by lia.
    apply getValues_appendRow.
Qed.

(** C3.  Duplicate suppression runs only for a validated PIN: when the same
    URL is submitted twice to a URL logger and neither PIN validates, both
    submissions are answered failure, none as a duplicate, and both are
    appended to the log with the failed status of the logger.  The sheet
    stored after the second submission has two rows more than before, holds
    the rows it held, and reads back the row of the first submission and
    below it the row of the second, each with the submitted URL and the
    failed status.  For the second logger each submission adds its row
    below the rows of the sheet after the header step, and the two rows
    follow the rows of the sheet after the first header step when the
    header row is recognised again. *)
Theorem C3_invalid_pin_never_duplicate :
  (forall (e1 e2 : event) (data1 data2 : payload) (w : world) (ss : spreadsheet)
      (sheet : nat) (elapsed : Z) (url : string),
      isPreflight e1 = false -> e_postData e1 = Some (Json data1) ->
      isPreflight e2 = false -> e_postData e2 = Some (Json data2) ->
      stores w !! Legacy.ACCESS_SHEET_ID = Some ss ->
      getSheetByName ss "Sheet1" = Some sheet ->
      field (p_url data1) "N/A" = url -> field (p_url data2) "N/A" = url ->
      scanOf Legacy.scanStored (field (p_pin data1) "Not Provided")
        (StoredPins.ofLegacy "PINs" w) = false ->
      scanOf Legacy.scanStored (field (p_pin data2) "Not Provided")
        (StoredPins.ofLegacy "PINs" w) = false ->
      let first := UrlLogger.doPost e1 w in
      let second := UrlLogger.doPost e2 (later (fst first) elapsed) in
      statusOf (snd first) = Some "failure"
      /\ statusOf (snd second) = Some "failure"
      /\ exists ss',
           stores (fst second) !! Legacy.ACCESS_SHEET_ID = Some ss'
           /\ let g := gridAt ss sheet in
              let g' := gridAt ss' sheet in
              getLastRow g' = getLastRow g + 2
              /\ (forall r c, 1 <= r <= getLastRow g -> 1 <= c ->
                    cell g' r c = cell g r c)
              /\ getValues g' (getLastRow g + 1) 1 1 7
                 = [[VStr url;
                     VStr (field (p_title data1) "Untitled Page");
                     VStr (field (p_timestamp data1) (Date_toISOString (clock w)));
                     VStr (field (p_userEmail data1) "Unknown");
                     VStr (field (p_userId data1) "Unknown");
                     VStr (field (p_pin data1) "Not Provided");
                     VStr "Failed (Invalid PIN)"]]
              /\ getValues g' (getLastRow g + 2) 1 1 7
                 = [[VStr url;
                     VStr (field (p_title data2) "Untitled Page");
                     VStr (field (p_timestamp data2)
                             (Date_toISOString (clock w + elapsed)));
                     VStr (field (p_userEmail data2) "Unknown");
                     VStr (field (p_userId data2) "Unknown");
                     VStr (field (p_pin data2) "Not Provided");
                     VStr "Failed (Invalid PIN)"]])
  /\ (forall (e1 e2 : event) (data1 data2 : payload) (w : world) (ss : spreadsheet)
        (sheet : nat) (elapsed : Z) (url timestamp1 timestamp2 : string),
        isPreflight e1 = false -> e_postData e1 = Some (Json data1) ->
        isPreflight e2 = false -> e_postData e2 = Some (Json data2) ->
        stores w !! Legacy.ACCESS_SHEET_ID = Some ss ->
        getSheetByName ss "Sheet1" = Some sheet ->
        field (p_url data1) "N/A" = url -> field (p_url data2) "N/A" = url ->
        pstTimestamp (field (p_timestamp data1) (Date_toISOString (clock w)))
        = Ret timestamp1 ->
        pstTimestamp (field (p_timestamp data2)
                        (Date_toISOString (clock w + elapsed)))
        = Ret timestamp2 ->
        scanOf Legacy.scanStored (field (p_pin data1) "Not Provided")
          (StoredPins.ofLegacy "Sheet1" w) = false ->
        scanOf Legacy.scanStored (field (p_pin data2) "Not Provided")
          (StoredPins.ofLegacy "Sheet1" w) = false ->
        let first := UrlLoggerPst.doPost e1 w in
        let second := UrlLoggerPst.doPost e2 (later (fst first) elapsed) in
        let row1 := [VStr timestamp1;
                     VStr (field (p_userEmail data1) "Unknown");
                     VStr (field (p_title data1) "Untitled Page");
                     VStr url;
                     VStr (field (p_pin data1) "Not Provided");
                     VStr "Invalid PIN"] in
        let row2 := [VStr timestamp2;
                     VStr (field (p_userEmail data2) "Unknown");
                     VStr (field (p_title data2) "Untitled Page");
                     VStr url;
                     VStr (field (p_pin data2) "Not Provided");
                     VStr "Invalid PIN"] in
        statusOf (snd first) = Some "failure"
        /\ statusOf (snd second) = Some "failure"
        /\ exists ss1 ss2,
             stores (fst first) !! Legacy.ACCESS_SHEET_ID = Some ss1
             /\ stores (fst second) !! Legacy.ACCESS_SHEET_ID = Some ss2
             /\ let g := UrlLoggerPst.ensureHeaders (gridAt ss sheet) in
                let g1 := gridAt ss1 sheet in
                let g2 := gridAt ss2 sheet in
                getLastRow g1 = getLastRow g + 1
                /\ getValues g1 (getLastRow g + 1) 1 1 6 = [row1]
                /\ getLastRow g2 = getLastRow (UrlLoggerPst.ensureHeaders g1) + 1
                /\ getValues g2 (getLastRow (UrlLoggerPst.ensureHeaders g1) + 1)
                     1 1 6 = [row2]
                /\ (toLowerCase "timeStamp" <> toLowerCase "" ->
                    getLastRow g2 = getLastRow g + 2
                    /\ (forall r c, 1 <= r <= getLastRow g -> 1 <= c ->
                          cell g2 r c = cell g r c)
                    /\ getValues g2 (getLastRow g + 1) 1 1 6 = [row1]
                    /\ getValues g2 (getLastRow g + 2) 1 1 6 = [row2])).
Proof.
  split.
  - intros e1 e2 data1 data2 w ss sheet elapsed url Hpre1 Hdata1 Hpre2 Hdata2
      Hss Hsheet Hurl1 Hurl2 Hpin1 Hpin2 first second.
    pose proof (getSheetByName_lt _ _ _ Hsheet) as Hlt.
    subst second first.
    rewrite (UrlLogger_doPost_logged e1 data1 w ss sheet Hpre1 Hdata1 Hss Hsheet).
    rewrite Hpin1. cbn [fst snd].
    set (g1 := appendRow _ _).
    assert (Hss1 : stores (later (written w Legacy.ACCESS_SHEET_ID ss sheet g1) elapsed)
                   !! Legacy.ACCESS_SHEET_ID = Some (setGridAt ss sheet g1))
      by (cbn [later written stores]; apply lookup_insert_eq).
    assert (Hsheet1 : getSheetByName (setGridAt ss sheet g1) "Sheet1" = Some sheet)
      by (rewrite getSheetByName_setGridAt; exact Hsheet).
    rewrite (UrlLogger_doPost_logged e2 data2 _ _ sheet Hpre2 Hdata2 Hss1 Hsheet1).
    assert (Hpins : StoredPins.ofLegacy "PINs"
                      (later (written w Legacy.ACCESS_SHEET_ID ss sheet g1) elapsed)
                    = StoredPins.ofLegacy "PINs" w)
      by (rewrite <- (ofLegacy_written "PINs" w ss sheet g1); reflexivity).
    rewrite Hpins, Hpin2. cbn [fst snd].
    rewrite !gridAt_setGridAt by exact Hlt.
    split; [reflexivity | split; [reflexivity|]].
    eexists. split.
    + unfold written at 1. cbn [stores].
      rewrite lookup_insert_eq, setGridAt_setGridAt. reflexivity.
    + cbv zeta. rewrite gridAt_setGridAt by exact Hlt. subst g1.
      rewrite Hurl1, Hurl2. cbn [later clock written].
      apply (appendRow_twice (gridAt ss sheet));
        (eapply (rowLast_pos _ 6); [reflexivity | discriminate]).
  - intros e1 e2 data1 data2 w ss sheet elapsed url timestamp1 timestamp2
      Hpre1 Hdata1 Hpre2 Hdata2 Hss Hsheet Hurl1 Hurl2 Hts1 Hts2 Hpin1 Hpin2
      first second row1 row2.
    pose proof (getSheetByName_lt _ _ _ Hsheet) as Hlt.
    subst second first.
    rewrite (UrlLoggerPst_doPost_logged e1 data1 w ss sheet timestamp1
               Hpre1 Hdata1 Hss Hsheet Hts1).
    rewrite Hpin1, Hurl1. cbn [fst snd].
    set (g := UrlLoggerPst.ensureHeaders (gridAt ss sheet)).
    change (appendRow g _) with (appendRow g row1).
    set (g1 := appendRow g row1).
    assert (Hss1 : stores (later (written w Legacy.ACCESS_SHEET_ID ss sheet g1) elapsed)
                   !! Legacy.ACCESS_SHEET_ID = Some (setGridAt ss sheet g1))
      by (cbn [later written stores]; apply lookup_insert_eq).
    assert (Hsheet1 : getSheetByName (setGridAt ss sheet g1) "Sheet1" = Some sheet)
      by (rewrite getSheetByName_setGridAt; exact Hsheet).
    rewrite (UrlLoggerPst_doPost_logged e2 data2 _ _ sheet timestamp2
               Hpre2 Hdata2 Hss1 Hsheet1 Hts2).
    assert (Hpins : StoredPins.ofLegacy "Sheet1"
                      (later (written w Legacy.ACCESS_SHEET_ID ss sheet g1) elapsed)
                    = StoredPins.ofLegacy "Sheet1" w)
      by (rewrite <- (ofLegacy_written "Sheet1" w ss sheet g1); reflexivity).
    rewrite Hpins, Hpin2, Hurl2. cbn [fst snd].
    rewrite !gridAt_setGridAt by exact Hlt.
    change (appendRow (UrlLoggerPst.ensureHeaders g1) _)
      with (appendRow (UrlLoggerPst.ensureHeaders g1) row2).
    split; [reflexivity | split; [reflexivity|]].
    assert (Hrow1 : rowLast row1 <> 0)
      by (eapply (rowLast_pos _ 5); [reflexivity | discriminate]).
    assert (Hrow2 : rowLast row2 <> 0)
      by (eapply (rowLast_pos _ 5); [reflexivity | discriminate]).
    eexists _, _. split; [|split].
    + unfold written. cbn [stores]. apply lookup_insert_eq.
    + unfold written at 1. cbn [stores].
      rewrite lookup_insert_eq, setGridAt_setGridAt. reflexivity.
    + cbv zeta. rewrite !gridAt_setGridAt by exact Hlt.
      split; [|split; [|split; [|split]]].
      * subst g1. rewrite (getLastRow_appendRow g row1 Hrow1). lia.
      * replace (getLastRow g + 1) with (S (getLastRow g)) by lia.
        exact (getValues_appendRow g row1).
      * rewrite (getLastRow_appendRow _ row2 Hrow2). lia.
      * replace (getLastRow (UrlLoggerPst.ensureHeaders g1) + 1)
          with (S (getLastRow (UrlLoggerPst.ensureHeaders g1))) by lia.
        exact (getValues_appendRow _ row2).
      * intros Hlower. subst g1 g.
        rewrite (ensureHeaders_appended _ _ Hlower).
        exact (appendRow_twice _ row1 row2 Hrow1 Hrow2).
Qed.

End Repeats.

(** ** Sheets that hold a header and nothing below *)

Section HeaderOnly.
Context `{Host}.

(** X24.  [validatePinFromSheet] reads a PIN sheet whose only row is row 1
    from row 1, header or not: the text of A1 is accepted as a PIN. *)
Theorem validatePinFromSheet_header_only (s : string) (w : world)
    (ss : spreadsheet) (i : nat) :
  stores w !! PinList.SHEET_ID = Some ss ->
  PinList.findPinSheet ss = Some i ->
  getLastRow (gridAt ss i) = 1 ->
  cell (gridAt ss i) 1 1 = VStr s ->
  s <> "" ->
  snd (PinList.validatePinFromSheet s w)
  = Ret (PinList.Validation true "PIN validated successfully.").
Proof.
  intros Hss Hfind Hlast Hcell Hs.
  pose proof (getOrCreatePinSheet_cases ss) as Hcases. rewrite Hfind in Hcases.
  unfold PinList.validatePinFromSheet, tryCatch.
  unfold bind at 1. unfold openById at 1. rewrite Hss, Hcases.
  unfold bind, commit.
  assert (Hst : PinList.analyzePinSheetStructure (gridAt ss i)
                = PinList.Structure 1 1 1 false).
  { unfold PinList.analyzePinSheetStructure. rewrite Hlast, Hcell.
    cbn [Nat.ltb Nat.leb]. destruct (_ && _); reflexivity. }
  rewrite Hst. cbn [PinList.startRow PinList.endRow PinList.dataColumn
                    Nat.ltb Nat.leb Nat.sub Nat.add].
  unfold PinList.getDisplayColumn. rewrite column0_getValues.
  cbn [seq map Nat.add]. rewrite Hcell. cbn [display PinList.scanStored].
  rewrite (proj2 (String.eqb_neq s "") Hs). cbn [negb].
  rewrite String.eqb_refl. reflexivity.
Qed.

(** X25.  [validatePin] of access_requests.js skips a row 1 whose A1 reads
    as a header: on a PIN sheet whose only row is such a row 1 it rejects
    every PIN, the text of A1 included. *)
Theorem validatePin_header_only (pin s : string) (w : world)
    (ss : spreadsheet) (i : nat) :
  stores w !! AccessRequests.PIN_SHEET_ID = Some ss ->
  AccessRequests.findPinSheet ss = Some i ->
  getLastRow (gridAt ss i) = 1 ->
  cell (gridAt ss i) 1 1 = VStr s ->
  s <> "" ->
  includes (toLowerCase s) "pin" || includes (toLowerCase s) "password"
  || includes (toLowerCase s) "code" || includes (toLowerCase s) "auth" = true ->
  AccessRequests.validatePin pin w = (w, Ret false).
Proof.
  intros Hss Hfind Hlast Hcell Hs Hheader. rewrite validatePin_result.
  unfold StoredPins.ofAccessRequests. rewrite Hss. simpl. rewrite Hfind. simpl.
  rewrite Hlast. unfold AccessRequests.pinStartRow. rewrite Hcell.
  rewrite (proj2 (String.eqb_neq s "") Hs). cbn [negb andb].
  rewrite Hheader. cbn [orb Nat.ltb Nat.leb]. unfold scanOf.
  rewrite andb_false_r. reflexivity.
Qed.

End HeaderOnly.

(** ** Column letters *)

Section ColumnLetters.
Import AccessTools.

Lemma columnToLetter_loop_S (n : nat) (letter : string) :
  columnToLetter_loop (S n) letter
  = columnToLetter_loop (n / 26) (String (ascii_of_nat (n mod 26 + 65)) letter).
Proof.
  rewrite columnToLetter_loop_equation_2. f_equal.
  pose proof (Nat.div_mod_eq n 26) as Hn.
  replace (S n - n mod 26 - 1) with (26 * (n / 26)) by lia.
  rewrite Nat.mul_comm. apply Nat.div_mul. discriminate.
Qed.

Lemma string_app_assoc (a b c : string) :
  ((a ++ b) ++ c = a ++ (b ++ c))%string.
Proof.
  induction a as [|x a IH]; [reflexivity|].
  rewrite !append_String, IH. reflexivity.
Qed.

(** The loop puts its letters in front of the letters it was given. *)
Lemma columnToLetter_loop_app (column : nat) (letter : string) :
  columnToLetter_loop column letter
  = (columnToLetter_loop column "" ++ letter)%string.
Proof.
  revert letter. induction column as [column IH] using lt_wf_ind. intros letter.
  destruct column as [|n]; [rewrite !columnToLetter_loop_equation_1; reflexivity|].
  rewrite !columnToLetter_loop_S.
  assert (Hlt : n / 26 < S n).
  { apply Nat.Div0.div_lt_upper_bound. lia. }
  rewrite (IH _ Hlt (String _ letter)), (IH _ Hlt (String _ "")).
  rewrite string_app_assoc. reflexivity.
Qed.

Lemma letterToColumn_from_app (column : nat) (a b : string) :
  letterToColumn_from column (a ++ b)
  = letterToColumn_from (letterToColumn_from column a) b.
Proof.
  revert column. induction a as [|c a IH]; intros column; simpl; [reflexivity|].
  apply IH.
Qed.

Lemma columnToLetter_S (n : nat) :
  columnToLetter (S n)
  = (columnToLetter (n / 26) ++ String (ascii_of_nat (n mod 26 + 65)) "")%string.
Proof.
  unfold columnToLetter. rewrite columnToLetter_loop_S.
  apply columnToLetter_loop_app.
Qed.

Lemma letterToColumn_columnToLetter (column : nat) :
  letterToColumn (columnToLetter column) = column.
Proof.
  induction column as [column IH] using lt_wf_ind.
  destruct column as [|n]; [reflexivity|].
  rewrite columnToLetter_S. unfold letterToColumn.
  rewrite letterToColumn_from_app. fold (letterToColumn (columnToLetter (n / 26))).
  rewrite IH by (apply Nat.Div0.div_lt_upper_bound; lia).
  cbn [letterToColumn_from].
  pose proof (Nat.mod_upper_bound n 26 ltac:(discriminate)) as Hmod.
  rewrite nat_ascii_embedding by lia.
  pose proof (Nat.div_mod_eq n 26). lia.
Qed.

(** X1.  [columnToLetter] names a column in the A1 notation: read back
    as a number in the bijective base 26 of the capital letters, its
    result is the column. *)
Theorem columnToLetter_round_trip (column : nat) :
  letterToColumn (AccessTools.columnToLetter column) = column.
Proof. apply letterToColumn_columnToLetter. Qed.

(** X2.  Two columns that [columnToLetter] gives the same letters are the
    same column. *)
Theorem columnToLetter_injective (a b : nat) :
  AccessTools.columnToLetter a = AccessTools.columnToLetter b -> a = b.
Proof.
  intros Heq. rewrite <- (letterToColumn_columnToLetter a), Heq.
  apply letterToColumn_columnToLetter.
Qed.

(** X3.  The result of [columnToLetter] is made of capital letters, and
    it is the empty string for the column 0 only. *)
Theorem columnToLetter_capitals (column : nat) :
  all isUpper (AccessTools.columnToLetter column) = true
  /\ (AccessTools.columnToLetter column = "" <-> column = 0).
Proof.
  split.
  - induction column as [column IH] using lt_wf_ind.
    destruct column as [|n]; [reflexivity|].
    rewrite columnToLetter_S.
    assert (Hall : forall a b, all isUpper a = true -> all isUpper b = true ->
                     all isUpper (a ++ b) = true).
    { induction a as [|c a IHa]; intros b Ha Hb; simpl in *; [exact Hb|].
      destruct (isUpper c); [|discriminate]. apply IHa; assumption. }
    apply Hall; [apply IH, Nat.Div0.div_lt_upper_bound; lia|].
    pose proof (Nat.mod_upper_bound n 26 ltac:(discriminate)) as Hmod.
    cbn [all]. unfold isUpper. rewrite nat_ascii_embedding by lia.
    destruct (Nat.leb_spec 65 (n mod 26 + 65)); [|lia].
    destruct (Nat.leb_spec (n mod 26 + 65) 90); [reflexivity | lia].
  - split; [|intros ->; reflexivity].
    intros Heq. rewrite <- (letterToColumn_columnToLetter column), Heq.
    reflexivity.
Qed.

End ColumnLetters.

(** * Runs on the platform [Utc] *)

Module Examples.
Import Utc.
Import Scenario.

(** C1 fails as stated for [validatePin] of access_requests.js: the stored
    value ABC equals the candidate abc without case, and the candidate is
    rejected.  It fails for [validatePinFromSheet] of pin_list.js at a blank
    stored cell: a candidate of white space equals it after the trim, and
    is rejected. *)
Lemma C1_counterexample :
  (StoredPins.ofAccessRequests accessWorld = Some ["1234"; "ABC"]
   /\ toUpperCase (trim "abc") = toUpperCase (trim "ABC")
   /\ returned (snd (AccessRequests.validatePin "abc" accessWorld)) = Some false)
  /\ (StoredPins.ofPinList gapWorld = Some ["1234"; ""; "ABC"]
      /\ trim " " = trim ""
      /\ PinList.isValid <$> returned (snd (PinList.validatePinFromSheet " " gapWorld))
         = Some false).
Proof. vm_compute. repeat split. Qed.

(** The duplicate loop on a log laid out as the loop reads it, URL and
    time: the same URL ten seconds after the row of the log is a duplicate
    with a valid PIN, and a failure with an invalid one. *)
Example scan_on_url_time_log :
  getValues (gridOf urlWorld Legacy.ACCESS_SHEET_ID) 2 1 1 2
  = [[VStr "https://example.com"; VStr "2025-06-06T17:22:23.000Z"]]
  /\ (statusOf (snd (UrlLogger.doPost (submit "2025-06-06T17:22:33.000Z" "1234")
                       urlWorld)) = Some "duplicate"
      <-> scanOf Legacy.scanStored "1234" (StoredPins.ofLegacy "PINs" urlWorld) = true
          /\ duplicateIn "https://example.com" (Some 1749230553000%Z)
               (Legacy.lastRowsOf (gridAt urlSheets 0)))
  /\ statusOf (snd (UrlLogger.doPost (submit "2025-06-06T17:22:33.000Z" "1234")
                      urlWorld)) = Some "duplicate"
  /\ statusOf (snd (UrlLogger.doPost (submit "2025-06-06T17:22:33.000Z" "wrong")
                      urlWorld)) = Some "failure".
Proof.
  split; [reflexivity|]. split; [|split; reflexivity].
  exact (proj1 duplicate_scan_cells (submit "2025-06-06T17:22:33.000Z" "1234")
           (example "2025-06-06T17:22:33.000Z" "1234") urlWorld urlSheets 0
           eq_refl eq_refl eq_refl eq_refl).
Qed.

(** [doPost] of access_requests.js has no duplicate check: the same URL
    ten seconds later is answered success and logged again. *)
Example access_requests_repeat :
  let first := AccessRequests.doPost (submit "2025-06-06T17:22:23.000Z" "1234")
                 accessWorld in
  let second := AccessRequests.doPost (submit "2025-06-06T17:22:33.000Z" "1234")
                  (later (fst first) 10000) in
  statusOf (snd first) = Some "success"
  /\ statusOf (snd second) = Some "success"
  /\ getLastRow (gridOf (fst second) AccessRequests.SHEET_ID) = 3.
Proof. vm_compute. repeat split. Qed.

(** C2 at its failing input: a request with the stored PIN 1234 to the
    logger of part_000 on a log that holds its header row, and the same
    request ten seconds later.  The first is logged with its URL in the
    first cell, its title in the second and its timestamp in the third, and
    the second is answered success. *)
Lemma C2_witness :
  let first := UrlLogger.doPost (submit "2025-06-06T17:22:23.000Z" "1234")
                 freshUrlWorld in
  let second := UrlLogger.doPost (submit "2025-06-06T17:22:33.000Z" "1234")
                  (later (fst first) 10000) in
  (Date_parse "2025-06-06T17:22:33.000Z" = Some 1749230553000
   /\ Date_parse "2025-06-06T17:22:23.000Z" = Some 1749230543000
   /\ 1749230553000 - 1749230543000 <= Legacy.cooldownMs)%Z
  /\ statusOf (snd first) = Some "success"
  /\ getValues (gridOf (fst first) Legacy.ACCESS_SHEET_ID) 2 1 1 3
     = [[VStr "https://example.com"; VStr "Ex"; VStr "2025-06-06T17:22:23.000Z"]]
  /\ statusOf (snd second) = Some "success".
Proof.
  destruct (proj1 (C2_repeat_not_duplicate (H := host))
              (submit "2025-06-06T17:22:23.000Z" "1234")
              (submit "2025-06-06T17:22:33.000Z" "1234")
              (example "2025-06-06T17:22:23.000Z" "1234")
              (example "2025-06-06T17:22:33.000Z" "1234")
              freshUrlWorld
              [Sheet "Sheet1" [[VStr "URL"; VStr "Title"; VStr "Timestamp"]]] 0
              10000%Z "https://example.com"
              eq_refl eq_refl eq_refl eq_refl eq_refl eq_refl eq_refl eq_refl
              eq_refl eq_refl ltac:(constructor) eq_refl)
    as (Hfirst & _ & Hsecond).
  split; [repeat split; discriminate|].
  split; [exact Hfirst|]. split; [reflexivity | exact Hsecond].
Defined.

(** The same for the second logger, on a log that holds the headers of
    [logAccessRequest]. *)
Example second_logger_repeat :
  let first := UrlLoggerPst.doPost (submit "2025-06-06T17:22:23.000Z" "1234")
                 pstWorld in
  let second := UrlLoggerPst.doPost (submit "2025-06-06T17:22:33.000Z" "1234")
                  (later (fst first) 10000) in
  statusOf (snd first) = Some "success"
  /\ getValues (gridOf (fst first) Legacy.ACCESS_SHEET_ID) 3 1 1 4
     = [[VStr "06/06/2025 10:22:23 AM"; VStr "a@b.com"; VStr "Ex";
         VStr "https://example.com"]]
  /\ statusOf (snd second) = Some "success".
Proof. vm_compute. repeat split. Qed.

(** Two submissions of the same URL with a PIN that is not stored. *)
Lemma C3_witness :
  let first := UrlLogger.doPost (submit "2025-06-06T17:22:33.000Z" "wrong") urlWorld in
  let second := UrlLogger.doPost (submit "2025-06-06T17:22:43.000Z" "0000")
                  (later (fst first) 10000) in
  statusOf (snd first) = Some "failure"
  /\ statusOf (snd second) = Some "failure"
  /\ exists ss',
       stores (fst second) !! Legacy.ACCESS_SHEET_ID = Some ss'
       /\ getLastRow (gridAt ss' 0) = 4
       /\ getValues (gridAt ss' 0) 3 1 1 7
          = [[VStr "https://example.com"; VStr "Ex";
              VStr "2025-06-06T17:22:33.000Z"; VStr "a@b.com"; VStr "Unknown";
              VStr "wrong"; VStr "Failed (Invalid PIN)"]]
       /\ getValues (gridAt ss' 0) 4 1 1 7
          = [[VStr "https://example.com"; VStr "Ex";
              VStr "2025-06-06T17:22:43.000Z"; VStr "a@b.com"; VStr "Unknown";
              VStr "0000"; VStr "Failed (Invalid PIN)"]].
Proof.
  destruct (proj1 (C3_invalid_pin_never_duplicate (H := host))
              (submit "2025-06-06T17:22:33.000Z" "wrong")
              (submit "2025-06-06T17:22:43.000Z" "0000")
              (example "2025-06-06T17:22:33.000Z" "wrong")
              (example "2025-06-06T17:22:43.000Z" "0000")
              urlWorld urlSheets 0 10000%Z "https://example.com"
              eq_refl eq_refl eq_refl eq_refl eq_refl eq_refl eq_refl eq_refl
              eq_refl eq_refl)
    as (Hfirst & Hsecond & ss' & Hss' & Hlast & _ & Hrow1 & Hrow2).
  split; [exact Hfirst|]. split; [exact Hsecond|].
  exists ss'. split; [exact Hss'|]. split; [exact Hlast|].
  split; [exact Hrow1 | exact Hrow2].
Defined.

(** C4 fails as stated for [doPost] of pin_list.js: a PIN that is not
    stored is answered with the status error, in a body of four fields that
    is none of the four bodies of the claim. *)
Lemma C4_counterexample :
  let e := jsonPost (pinOnly "wrong") in
  isPreflight e = false
  /\ r_output (snd (PinList.doPost e pinWorld))
     = Object [("status", JStr "error");
               ("message", JStr "Invalid PIN. Please check your PIN and try again.");
               ("pin", JStr "wrong");
               ("timestamp", JStr "2025-06-06T17:22:23.598Z")]
  /\ isClaimedBody (r_output (snd (PinList.doPost e pinWorld))) = false.
Proof. vm_compute. repeat split. Qed.

Lemma C4_witness :
  isClaimedBody
    (r_output (snd (UrlLogger.doPost (submit "2025-06-06T17:22:33.000Z" "1234")
                      urlWorld))) = true.
Proof.
  exact (proj1 (proj1 (C4_post_responses (submit "2025-06-06T17:22:33.000Z" "1234")
                         urlWorld eq_refl))).
Defined.

(** C5 fails as stated: [logAccessRequest] appends a row whose first cell
    is the ISO timestamp of the request, and when it returns the row reads
    back with another first cell, the timestamp in the readable format. *)
Lemma C5_counterexample :
  let w := fst (AccessRequests.logAccessRequest isoRequest accessWorld) in
  AccessRequests.rowData (clock accessWorld) isoRequest
  = [VStr "2025-06-06T17:22:23.000Z"; VStr "1234"; VStr "a@b.com"; VStr "Ex";
     VStr "https://example.com"; VStr "PENDING"; VStr "PENDING"; VStr "PENDING"]
  /\ getLastRow (gridOf w AccessRequests.SHEET_ID) = 2
  /\ getValues (gridOf w AccessRequests.SHEET_ID) 2 1 1 8
     = [[VStr "Friday, Jun 06, 2025 05:22 PM"; VStr "1234"; VStr "a@b.com";
         VStr "Ex"; VStr "https://example.com"; VStr "PENDING"; VStr "PENDING";
         VStr "PENDING"]].
Proof. vm_compute. repeat split. Qed.

Lemma C5_witness :
  exists ss' sheet,
    stores (fst (AccessRequests.logAccessRequest readableRequest accessWorld))
      !! AccessRequests.SHEET_ID = Some ss'
    /\ getValues (gridAt ss' sheet) 2 1 1 8
       = [AccessRequests.rowData (clock accessWorld) readableRequest].
Proof.
  destruct (proj1 C5_row_written_and_read_back readableRequest accessWorld
              [Sheet "AccessRequests" []] eq_refl)
    as (ss1 & sheet & ss' & Hget & Hss' & _ & _ & _ & _ & Hread).
  exists ss', sheet. split; [exact Hss'|].
  injection Hget as <- <-. exact (Hread eq_refl).
Defined.

(** C6 fails as stated for the second URL logger: a row 1 that holds the
    eight canonical headers before the request is row 2 after it, under a
    row 1 with the six headers of that logger. *)
Lemma C6_counterexample :
  let w := fst (UrlLoggerPst.doPost (submit "2025-06-06T17:22:33.000Z" "1234")
                  pstWorld) in
  getValues (gridOf pstWorld Legacy.ACCESS_SHEET_ID) 1 1 1 8
  = [map VStr AccessRequests.expectedHeaders]
  /\ getValues (gridOf w Legacy.ACCESS_SHEET_ID) 1 1 1 8
     = [[VStr "timeStamp"; VStr "userEmail"; VStr "websiteTitle";
         VStr "websiteRequested"; VStr "pinNumber"; VStr "pinStatus";
         VStr ""; VStr ""]]
  /\ getValues (gridOf w Legacy.ACCESS_SHEET_ID) 2 1 1 8
     = [map VStr AccessRequests.expectedHeaders]
  /\ getValues (gridOf w Legacy.ACCESS_SHEET_ID) 3 1 1 6
     = [[VStr "06/06/2025 10:22:33 AM"; VStr "a@b.com"; VStr "Ex";
         VStr "https://example.com"; VStr "1234"; VStr "Valid PIN"]].
Proof. vm_compute. repeat split. Qed.

Lemma C6_witness :
  exists ss' sheet,
    stores (fst (AccessRequests.logAccessRequest isoRequest accessWorld))
      !! AccessRequests.SHEET_ID = Some ss'
    /\ getValues (gridAt ss' sheet) 1 1 1 8
       = [map VStr AccessRequests.expectedHeaders].
Proof.
  destruct (proj1 C6_header_row_after_logging isoRequest accessWorld
              [Sheet "AccessRequests" []] eq_refl)
    as (ss1 & sheet & ss' & _ & Hss' & Hrow & _).
  exists ss', sheet. split; [exact Hss' | exact Hrow].
Defined.

Lemma C7_witness :
  AccessRequests.validatePin "1234" noPinsWorld = (noPinsWorld, Ret false)
  /\ statusOf (snd (UrlLogger.doPost (submit "2025-06-06T17:22:33.000Z" "1234")
                      noPinsWorld)) = Some "failure".
Proof.
  split.
  - exact (proj1 C7_pin_store_failure_is_invalid_pin "1234" noPinsWorld eq_refl).
  - rewrite (proj1 (proj2 (proj2 (proj2 C7_pin_store_failure_is_invalid_pin)))
               (submit "2025-06-06T17:22:33.000Z" "1234")
               (example "2025-06-06T17:22:33.000Z" "1234") noPinsWorld urlSheets 0
               eq_refl eq_refl eq_refl eq_refl eq_refl).
    reflexivity.
Defined.

(** C8 fails as stated for [validatePinFromSheet] of pin_list.js: in a
    spreadsheet whose one sheet is empty it creates the sheet PINs with
    three example codes, and validates the first of them. *)
Lemma C8_counterexample :
  let w := World (<[ PinList.SHEET_ID := [Sheet "Data" []] ]> ∅) 0 in
  let after := PinList.validatePinFromSheet "123456" w in
  stores (fst after) !! PinList.SHEET_ID
  = Some [Sheet "Data" [];
          Sheet "PINs" [[VStr "PIN"]; [VStr "123456"]; [VStr "789012"];
                        [VStr "000000"]]]
  /\ snd after = Ret (PinList.Validation true "PIN validated successfully.").
Proof. vm_compute. repeat split. Qed.

(** A request that [doPost] of access_requests.js logs leaves the PIN
    spreadsheet, which is kept under another id than the log, as it was. *)
Lemma C8_witness :
  AccessRequests.PIN_SHEET_ID <> AccessRequests.SHEET_ID
  /\ stores (fst (AccessRequests.doPost (submit "2025-06-06T17:22:33.000Z" "1234")
                    accessWorld)) !! AccessRequests.PIN_SHEET_ID
     = Some pins.
Proof.
  destruct (C8_pin_store_writes (H := host)) as (_ & _ & _ & Hlog & _).
  split; [discriminate|].
  rewrite (Hlog (submit "2025-06-06T17:22:33.000Z" "1234") accessWorld
             AccessRequests.PIN_SHEET_ID) by discriminate.
  reflexivity.
Defined.

Lemma C9_witness :
  exists row status,
    stores (fst (UrlLogger.doPost (submit "2025-06-06T17:22:33.000Z" "wrong")
                   urlWorld)) !! Legacy.ACCESS_SHEET_ID
    = Some (setGridAt urlSheets 0 (appendRow (gridAt urlSheets 0) row))
    /\ getLastRow (appendRow (gridAt urlSheets 0) row)
       = S (getLastRow (gridAt urlSheets 0))
    /\ (forall r c, 1 <= r <= getLastRow (gridAt urlSheets 0) -> 1 <= c ->
          cell (appendRow (gridAt urlSheets 0) row) r c = cell (gridAt urlSheets 0) r c)
    /\ statusOf (snd (UrlLogger.doPost (submit "2025-06-06T17:22:33.000Z" "wrong")
                        urlWorld)) = Some status
    /\ In status ["failure"; "duplicate"; "success"].
Proof.
  exact (proj1 C9_logged_post_appends_one_row
           (submit "2025-06-06T17:22:33.000Z" "wrong")
           (example "2025-06-06T17:22:33.000Z" "wrong") urlWorld urlSheets 0
           eq_refl eq_refl eq_refl eq_refl).
Defined.

(** C10 fails as stated: a cell of white space is repaired to the empty
    string, and the empty string to the readable time of the clock. *)
Lemma C10_counterexample :
  AccessRequests.detectAndFixTimestamp 0 (VStr "   ") = ""
  /\ AccessRequests.detectAndFixTimestamp 0
       (VStr (AccessRequests.detectAndFixTimestamp 0 (VStr "   ")))
     = "Thursday, Jan 01, 1970 12:00 AM".
Proof. vm_compute. repeat split. Qed.

(** An ISO timestamp, whose repair is in the readable format, and the
    unparsable inputs [" next week "], [true] and [12], whose texts are
    unparsable when they are read again. *)
Lemma C10_witness :
  AccessRequests.detectAndFixTimestamp 1749230553000
    (VStr (AccessRequests.detectAndFixTimestamp 0 (VStr "2025-06-06T17:22:23.000Z")))
  = "Friday, Jun 06, 2025 05:22 PM"
  /\ AccessRequests.detectAndFixTimestamp 1749230553000
       (VStr (AccessRequests.detectAndFixTimestamp 0 (VStr " next week ")))
     = "next week"
  /\ AccessRequests.detectAndFixTimestamp 1749230553000
       (VStr (AccessRequests.detectAndFixTimestamp 0 (VBool true)))
     = "true"
  /\ AccessRequests.detectAndFixTimestamp 1749230553000
       (VStr (AccessRequests.detectAndFixTimestamp 0 (VNum 12)))
     = "12".
Proof.
  split; [|split; [|split]].
  - exact (proj1 (C10_output_is_fixed 0 1749230553000
                    (VStr "2025-06-06T17:22:23.000Z")) (or_introl eq_refl)).
  - transitivity (AccessRequests.detectAndFixTimestamp 0 (VStr " next week ")); [|reflexivity].
    apply (proj1 (C10_output_is_fixed 0 1749230553000 (VStr " next week "))).
    right. split; [reflexivity|]. split; [discriminate|]. split; reflexivity.
  - transitivity (AccessRequests.detectAndFixTimestamp 0 (VBool true)); [|reflexivity].
    apply (proj1 (C10_output_is_fixed 0 1749230553000 (VBool true))).
    right. split; [reflexivity|]. split; [discriminate|]. split; reflexivity.
  - transitivity (AccessRequests.detectAndFixTimestamp 0 (VNum 12)); [|reflexivity].
    apply (proj1 (C10_output_is_fixed 0 1749230553000 (VNum 12))).
    right. split; [reflexivity|]. split; [discriminate|]. split; reflexivity.
Defined.

End Examples.

(** * Runs of the other functions on the platform [Utc] *)

Module Runs.
Import Utc.
Import Scenario.
Import Cases.
Import AccessTools.

(** The platform [Utc] lowers the canonical headers as expected. *)
Lemma lowersHeaders_Utc : lowersHeaders.
Proof. reflexivity. Qed.

(** X2 at the column 703, AAA. *)
Lemma columnToLetter_injective_run : 703 = 703.
Proof. exact (columnToLetter_injective 703 703 eq_refl). Defined.

(** The letters of some columns. *)
Example columnToLetter_runs :
  map columnToLetter [0; 1; 26; 27; 52; 53; 702; 703]
  = [""; "A"; "Z"; "AA"; "AZ"; "BA"; "ZZ"; "AAA"].
Proof. vm_compute. reflexivity. Qed.

(** X4 on a log with a blank header and a note beyond column H. *)
Lemma validateAndFixHeaders_run :
  exists ss' sheet,
    stores (fst (validateAndFixHeaders logWorld)) !! AccessRequests.SHEET_ID = Some ss'
    /\ cell (gridAt ss' sheet) 1 1 = VStr "Timestamp"
    /\ cell (gridAt ss' sheet) 1 10 = blank
    /\ cell (gridAt ss' sheet) 2 4 = VStr "One"
    /\ AccessRequests.headersNeedUpdate (gridAt ss' sheet) = false.
Proof.
  destruct (validateAndFixHeaders_sets_headers logWorld logSheets eq_refl)
    as (ss1 & sheet & ss' & Hget & _ & Hss' & Hrow & Hbeyond & Hkept & Hneed).
  injection Hget as <- <-. exists ss', 0. split; [exact Hss'|].
  split; [|split; [apply Hbeyond; lia | split; [|exact Hneed]]].
  - exact (f_equal (fun rows => default blank (default [] (rows !! 0) !! 0)) Hrow).
  - rewrite Hkept by lia. reflexivity.
Defined.

(** X5: of three requests the two last ones are kept. *)
Lemma cleanupOldRequests_run :
  exists ss' sheet,
    stores (fst (cleanupOldRequests 2 logWorld)) !! AccessRequests.SHEET_ID = Some ss'
    /\ getLastRow (gridAt ss' sheet) = 3
    /\ cell (gridAt ss' sheet) 2 4 = VStr "Two"
    /\ cell (gridAt ss' sheet) 3 4 = VStr "Three".
Proof.
  destruct (cleanupOldRequests_keeps_recent 2 logWorld logSheets eq_refl)
    as (ss1 & sheet & ss' & Hget & Hss' & Hkept).
  injection Hget as <- <-. exists ss', 0. split; [exact Hss'|].
  destruct Hkept as (Hlast & _ & Hcell). split; [exact Hlast|].
  split; rewrite Hcell by lia; reflexivity.
Defined.

(** X6: the two last ones of three requests. *)
Lemma getRecentAccessRequests_run :
  exists rows,
    snd (getRecentAccessRequests 2 logWorld) = Ret rows
    /\ length rows = 2
    /\ default blank (default [] (rows !! 1) !! 3) = VStr "Three".
Proof.
  destruct (getRecentAccessRequests_last_rows 2 logWorld logSheets eq_refl)
    as (ss1 & sheet & rows & Hget & Hrows & Hlen & _ & Hcell).
  injection Hget as <- <-. exists rows. split; [exact Hrows|].
  split; [exact Hlen|]. rewrite (Hcell 1 3) by (rewrite ?Hlen; cbn; lia).
  rewrite Hlen. reflexivity.
Defined.

(** X7 on a log of two columns. *)
Lemma aggressiveFixColumnStructure_restores_data_run :
  exists ss' sheet,
    stores (fst (aggressiveFixColumnStructure narrowWorld))
      !! AccessRequests.SHEET_ID = Some ss'
    /\ cell (gridAt ss' sheet) 2 2 = VStr "https://one.example"
    /\ cell (gridAt ss' sheet) 2 3 = VStr "PENDING".
Proof.
  destruct (aggressiveFixColumnStructure_restores_data narrowWorld narrowSheets eq_refl)
    as (ss1 & sheet & ss' & Hget & Hss' & Hkept & Hfill & _).
  injection Hget as <- <-. exists ss', 0. split; [exact Hss'|]. split.
  - rewrite Hkept; [reflexivity | cbn; lia | cbn; lia].
  - apply Hfill; cbn; lia.
Defined.

(** X8 on a log of two columns. *)
Lemma aggressiveFixColumnStructure_headers_run :
  exists ss' sheet,
    stores (fst (aggressiveFixColumnStructure narrowWorld))
      !! AccessRequests.SHEET_ID = Some ss'
    /\ AccessRequests.headersNeedUpdate (gridAt ss' sheet) = true.
Proof.
  destruct (aggressiveFixColumnStructure_headers narrowWorld narrowSheets eq_refl)
    as (ss1 & sheet & ss' & _ & Hss' & _ & Hneed).
  exists ss', sheet. split; assumption.
Defined.

(** X9 on a log of readable timestamps, and without a spreadsheet. *)
Lemma fixAllTimestampFormats_run :
  snd (fixAllTimestampFormats logWorld) = Ret (FixResult 0 0)
  /\ fixAllTimestampFormats nothing = (nothing, Ret (FixResult 0 1)).
Proof.
  split.
  - rewrite (proj1 (fixAllTimestampFormats_clean_log logWorld) logSheets logSheets 0
               eq_refl eq_refl); [reflexivity|].
    intros r Hr. change (getLastRow (gridAt logSheets 0)) with 4 in Hr.
    assert (Hcases : r = 2 \/ r = 3 \/ r = 4) by lia.
    destruct Hcases as [-> | [-> | ->]]; eexists; split; reflexivity.
  - exact (proj2 (fixAllTimestampFormats_clean_log nothing) eq_refl).
Defined.

(** X11: two requests, ten seconds apart, on a sheet named Logs. *)
Lemma logAccessRequest_twice_run :
  exists ss2,
    stores (fst (AccessRequests.logAccessRequest (request "x@y.com" "https://y.example")
                   (later (fst (AccessRequests.logAccessRequest
                                  (request " x@y.com " "https://x.example")
                                  narrowWorld)) 10000)))
      !! AccessRequests.SHEET_ID = Some ss2
    /\ map getName ss2 = ["Logs"]
    /\ getLastRow (gridAt ss2 0) = 4
    /\ cell (gridAt ss2 0) 3 5 = VStr "https://x.example"
    /\ cell (gridAt ss2 0) 4 5 = VStr "https://y.example".
Proof.
  destruct (logAccessRequest_twice (request " x@y.com " "https://x.example")
              (request "x@y.com" "https://y.example") narrowWorld narrowSheets
              10000%Z lowersHeaders_Utc eq_refl)
    as (ss1 & sheet & ss2 & Hget & Hss2 & Hnames & Hlast & Hrow1 & Hrow2).
  injection Hget as <- <-. exists ss2. split; [exact Hss2|].
  split; [exact Hnames|]. split; [exact Hlast|].
  change (getLastRow (AccessRequests.ensureHeaders (gridAt narrowSheets 0)))
    with 2 in Hrow1, Hrow2.
  unfold getValues in Hrow1, Hrow2. cbn [seq map Nat.add] in Hrow1, Hrow2.
  split.
  - injection Hrow1 as _ _ _ Hurl _. exact Hurl.
  - injection Hrow2 as _ _ _ Hurl _. exact Hurl.
Defined.

(** X12 on the log of three requests. *)
Lemma getRecentAccessRequests_after_log_run :
  snd (getRecentAccessRequests 1
         (later (fst (AccessRequests.logAccessRequest
                        (request "x@y.com" "https://x.example") logWorld)) 10000))
  = Ret [[VStr "Friday, Jun 06, 2025 05:25 PM"; VStr "1234"; VStr "x@y.com";
          VStr "Ex"; VStr "https://x.example"; VStr "PENDING"; VStr "PENDING";
          VStr "PENDING"]].
Proof.
  exact (getRecentAccessRequests_after_log (request "x@y.com" "https://x.example")
           logWorld logSheets 10000%Z lowersHeaders_Utc eq_refl).
Defined.

(** X14: the rows of a@b.com and of A@B.com are returned for A@B.COM. *)
Lemma handleDataRetrieval_rows_of_user_run :
  exists userRows,
    snd (handleDataRetrieval (Some "A@B.COM") logWorld) = Ret (UserRows userRows)
    /\ length userRows = 2
    /\ Forall (fun rowData : gmap string string =>
                 (exists earlier k later v,
                     emailColumns = earlier ++ k :: later
                     /\ Forall (fun k' => default "" (rowData !! k') = "") earlier
                     /\ rowData !! k = Some v /\ v <> ""
                     /\ toLowerCase v = toLowerCase "A@B.COM")
                 \/ (Forall (fun k' => default "" (rowData !! k') = "")
                       emailColumns
                     /\ toLowerCase "A@B.COM" = "")) userRows.
Proof.
  eexists. split; [vm_compute; reflexivity|]. split; [reflexivity|].
  apply (handleDataRetrieval_rows_of_user "A@B.COM" logWorld).
  vm_compute. reflexivity.
Defined.

(** X15 for a request whose email has white space around it. *)
Lemma handleDataRetrieval_after_log_run :
  exists userRows rowData,
    snd (handleDataRetrieval (Some "x@y.com")
           (later (fst (AccessRequests.logAccessRequest
                          (request " x@y.com " "https://x.example") logWorld))
              10000))
    = Ret (UserRows userRows)
    /\ last userRows = Some rowData
    /\ rowData !! "URL" = Some "https://x.example".
Proof.
  destruct (handleDataRetrieval_after_log (H := host) (request " x@y.com " "https://x.example")
              logWorld logSheets 10000%Z lowersHeaders_Utc eq_refl
              ltac:(discriminate))
    as (userRows & rowData & Hrows & Hlast & _ & Hurl & _).
  exists userRows, rowData. split; [exact Hrows|]. split; [exact Hlast|].
  exact Hurl.
Defined.

(** X17 on a spreadsheet whose only sheet is empty. *)
Lemma validatePinFromSheet_example_codes_run :
  stores (fst (PinList.validatePinFromSheet " 789012" noPinSheetWorld))
    !! PinList.SHEET_ID
  = Some [Sheet "Data" []; createdPinSheet]
  /\ snd (PinList.validatePinFromSheet " 789012" noPinSheetWorld)
     = Ret (PinList.Validation true "PIN validated successfully.").
Proof.
  destruct (validatePinFromSheet_example_codes (H := host) " 789012"
              noPinSheetWorld [Sheet "Data" []] eq_refl
              ltac:(vm_compute; reflexivity) eq_refl) as [[Hstore _] Hvalid].
  split; [exact Hstore|]. apply Hvalid. right. left. reflexivity.
Defined.

(** X18 for a PIN that is not stored, with and without a PIN spreadsheet. *)
Lemma AccessRequests_doPost_any_pin_run :
  r_output (snd (AccessRequests.doPost (submit "2025-06-06T17:22:33.000Z" "wrong")
                   logWorld))
  = Object [("status", JStr "success");
            ("message", JStr "Access request logged successfully.");
            ("pinValid", JBool false); ("pinProvided", JBool true);
            ("timestamp", JStr "Friday, Jun 06, 2025 05:22 PM")]
  /\ stores (fst (AccessRequests.doPost (submit "2025-06-06T17:22:33.000Z" "wrong")
                    logOnlyWorld)) !! AccessRequests.SHEET_ID
     = stores (fst (AccessRequests.doPost (submit "2025-06-06T17:22:33.000Z" "wrong")
                      logWorld)) !! AccessRequests.SHEET_ID.
Proof.
  destruct (AccessRequests_doPost_any_pin (submit "2025-06-06T17:22:33.000Z" "wrong")
              (example "2025-06-06T17:22:33.000Z" "wrong") logWorld logSheets
              eq_refl eq_refl eq_refl) as [Hout Hsame].
  split; [exact Hout|]. exact (Hsame logOnlyWorld eq_refl eq_refl).
Defined.

(** X19 without any spreadsheet, and for a timestamp that is no date. *)
Lemma url_loggers_without_log_sheet_run :
  UrlLogger.doPost (submit "2025-06-06T17:22:33.000Z" "1234") nothing
  = (nothing, Legacy.errorResponse (openByIdError Legacy.ACCESS_SHEET_ID))
  /\ UrlLoggerPst.doPost (submit "not a date" "1234") pstWorld
     = (pstWorld, Legacy.errorResponse "Exception: Invalid argument: date").
Proof.
  split.
  - exact (proj1 (proj1 (url_loggers_without_log_sheet
                           (submit "2025-06-06T17:22:33.000Z" "1234")
                           (example "2025-06-06T17:22:33.000Z" "1234") nothing
                           eq_refl eq_refl) eq_refl)).
  - exact (proj2 (proj2 (url_loggers_without_log_sheet
                           (submit "not a date" "1234")
                           (example "not a date" "1234") pstWorld
                           eq_refl eq_refl)) _ eq_refl).
Defined.

(** X20 without any spreadsheet. *)
Lemma PinCheck_store_failure_run :
  PinCheck.doPost (submit "2025-06-06T17:22:33.000Z" "1234") nothing
  = (nothing, Legacy.errorResponse (openByIdError Legacy.PIN_ACCESS_SHEET_ID)).
Proof.
  destruct (PinCheck_store_failure (submit "2025-06-06T17:22:33.000Z" "1234")
              (example "2025-06-06T17:22:33.000Z" "1234") nothing eq_refl eq_refl)
    as (Hw & Herr & _).
  rewrite (surjective_pairing (PinCheck.doPost _ _)), Hw, (Herr eq_refl).
  reflexivity.
Defined.

(** X21: two requests, ten seconds apart, on the headers of
    [logAccessRequest]. *)
Lemma UrlLoggerPst_headers_once_run :
  let sheets := [Sheet "Sheet1" [map VStr AccessRequests.expectedHeaders]] in
  exists row1 row2,
    stores (fst (UrlLoggerPst.doPost (submit "2025-06-06T17:22:43.000Z" "1234")
                   (later (fst (UrlLoggerPst.doPost
                                  (submit "2025-06-06T17:22:33.000Z" "1234")
                                  pstWorld)) 10000)))
      !! Legacy.ACCESS_SHEET_ID
    = Some (setGridAt sheets 0
              (appendRow
                 (appendRow (UrlLoggerPst.ensureHeaders (gridAt sheets 0)) row1)
                 row2))
    /\ row1 !! 0 = Some (VStr "06/06/2025 10:22:33 AM")
    /\ row2 !! 0 = Some (VStr "06/06/2025 10:22:43 AM").
Proof.
  apply (UrlLoggerPst_headers_once
           (submit "2025-06-06T17:22:33.000Z" "1234")
           (submit "2025-06-06T17:22:43.000Z" "1234")
           (example "2025-06-06T17:22:33.000Z" "1234")
           (example "2025-06-06T17:22:43.000Z" "1234")
           pstWorld [Sheet "Sheet1" [map VStr AccessRequests.expectedHeaders]] 0
           10000%Z "06/06/2025 10:22:33 AM" "06/06/2025 10:22:43 AM");
    try reflexivity; try (vm_compute; reflexivity).
  vm_compute. discriminate.
Defined.

(** X22 on a log whose column B holds titles. *)
Lemma UrlLogger_timeless_log_run :
  statusOf (snd (UrlLogger.doPost (submit "2025-06-06T17:22:33.000Z" "1234")
                   titledWorld)) <> Some "duplicate"
  /\ exists ss',
       stores (fst (UrlLogger.doPost (submit "2025-06-06T17:22:33.000Z" "1234")
                      titledWorld)) !! Legacy.ACCESS_SHEET_ID = Some ss'
       /\ timeless (gridAt ss' 0).
Proof.
  destruct (UrlLogger_timeless_log (submit "2025-06-06T17:22:33.000Z" "1234")
              (example "2025-06-06T17:22:33.000Z" "1234") titledWorld titledSheets 0
              eq_refl eq_refl eq_refl eq_refl)
    as [Hstatus Hagain].
  - repeat constructor.
  - split; [exact Hstatus | exact (Hagain eq_refl)].
Defined.

(** X24 on a PIN sheet that holds the header PIN only. *)
Lemma validatePinFromSheet_header_only_run :
  snd (PinList.validatePinFromSheet "PIN" headerOnlyPinList)
  = Ret (PinList.Validation true "PIN validated successfully.").
Proof.
  exact (validatePinFromSheet_header_only (H := host) "PIN" headerOnlyPinList headerOnly 0
           eq_refl eq_refl eq_refl eq_refl ltac:(discriminate)).
Defined.

(** X25 on a PIN sheet that holds the header PIN only. *)
Lemma validatePin_header_only_run :
  AccessRequests.validatePin "PIN" headerOnlyAccess = (headerOnlyAccess, Ret false).
Proof.
  exact (validatePin_header_only (H := host) "PIN" "PIN" headerOnlyAccess headerOnly 0
           eq_refl eq_refl eq_refl eq_refl ltac:(discriminate) eq_refl).
Defined.

(** X10 on the log of three requests. *)
Lemma autoFixTimestampFormats_frame_run :
  cell (AccessRequests.autoFixTimestampFormats 1749230543598 logSheet) 3 4
  = VStr "Two".
Proof.
  rewrite (proj1 (autoFixTimestampFormats_frame 1749230543598 logSheet) 3 4)
    by (left; lia).
  reflexivity.
Defined.

(** X13: a retrieval without a user email. *)
Lemma doGet_answers_run :
  doGet (GetEvent (Some "getData") None) logWorld
  = (logWorld, Ret (Data (Failed "userEmail parameter is required"))).
Proof.
  destruct (doGet_answers (GetEvent (Some "getData") None) logWorld)
    as (Hw & _ & Hdata).
  rewrite (surjective_pairing (doGet _ _)), Hw.
  rewrite (proj1 (Hdata eq_refl) eq_refl). reflexivity.
Defined.

(** X23 on a PIN sheet that holds the header PIN only. *)
Lemma AccessRequests_pin_sheet_choice_run :
  AccessRequests.findPinSheet headerOnly = Some 0.
Proof.
  exact (proj2 (proj2 (AccessRequests_pin_sheet_choice (H := host)))
           headerOnly 0 eq_refl eq_refl).
Defined.

End Runs.
